(** * WASAPI player: the render loop of [WASAPIPlayer::worker]

    A shallow embedding of [client/player/wasapi_player.cpp].  The worker
    talks to three collaborators: the audio client with its render and
    clock services, the timed stream, and the [active_] flag written by
    the controlling thread.  Each call is an event; the values the
    collaborators answer with are read from a script, so that a theorem
    quantified over scripts speaks about every behaviour of the
    environment. *)

From Stdlib Require Import ZArith List String Bool Lia.
Import ListNotations.

Local Open Scope Z_scope.

(** * Part I: the embedding *)

(** ** Fixed-width integers *)

(** [UINT64], [UINT32] (also [DWORD], [UINT]) and [WORD] values: the
    result of an unsigned operation is reduced modulo the width. *)
Definition u64 (z : Z) : Z := z mod 2 ^ 64.
Definition u32 (z : Z) : Z := z mod 2 ^ 32.
Definition u16 (z : Z) : Z := z mod 2 ^ 16.

(** Conversion of a 64-bit pattern to [long long], the representation of
    [std::chrono::microseconds]. *)
Definition to_int64 (z : Z) : Z :=
  let r := u64 z in if r <? 2 ^ 63 then r else r - 2 ^ 64.

(** The cast [(HRESULT)(x)]: [HRESULT] is a signed 32-bit [LONG]. *)
Definition to_int32 (z : Z) : Z :=
  let r := u32 z in if r <? 2 ^ 31 then r else r - 2 ^ 32.

(** ** Platform macros *)

(** The macros below come from the platform headers (winerror.h,
    winbase.h, audioclient.h), which are not under src/; each carries
    the value of its header.  With these values a pacing timeout is
    logged and absorbed, as sections 4.2 and 7 of the specification
    describe. *)

(** Modelled from the spec: [FAILED(hr)] is [((HRESULT)(hr)) < 0]
    (winerror.h). *)
Definition FAILED (hr : Z) : bool := to_int32 hr <? 0.

(** Modelled from the spec: [S_OK] is [0] (winerror.h). *)
Definition S_OK : Z := 0.

(** Modelled from the spec: [E_FAIL] is [0x80004005] as an [HRESULT]
    (winerror.h). *)
Definition E_FAIL : Z := to_int32 0x80004005.

(** Modelled from the spec: [ERROR_TIMEOUT] is the Win32 error code
    [1460L] (winerror.h); it is not a failed [HRESULT]. *)
Definition ERROR_TIMEOUT : Z := 1460.

(** Modelled from the spec: [WAIT_OBJECT_0] is [0] (winbase.h). *)
Definition WAIT_OBJECT_0 : Z := 0.

(** Modelled from the spec: [AUDCLNT_E_BUFFER_SIZE_NOT_ALIGNED] is
    [AUDCLNT_ERR(0x019)], that is [0x88890019] (audioclient.h). *)
Definition AUDCLNT_E_BUFFER_SIZE_NOT_ALIGNED : Z := to_int32 0x88890019.

(** ** The drift argument (lines 319-321)

    [microseconds(((bufferPosition * 1000000) / waveformat->nSamplesPerSec)
                  - ((position * 1000000) / frequency))]

    [bufferPosition], [position] and [frequency] are [UINT64];
    [nSamplesPerSec] is a [DWORD] and [1000000] an [int], both converted
    to [UINT64] by the usual arithmetic conversions.  Every intermediate
    result is a [UINT64]. *)

(** One quotient term, [(x * 1000000) / d], in [UINT64] arithmetic. *)
Definition term (x d : Z) : Z := u64 (x * 1000000) / d.

(** The [UINT64] value handed to the [microseconds] constructor. *)
Definition drift_u64 (bufferPosition nSamplesPerSec position frequency : Z) : Z :=
  u64 (term bufferPosition nSamplesPerSec - term position frequency).

(** [microseconds(x)] stores [x] converted to the signed 64-bit count. *)
Definition microseconds (x : Z) : Z := to_int64 x.

(** The argument of [getPlayerChunk].  Integer division by zero has no
    defined result in C++, hence the [option]. *)
Definition drift_us (bufferPosition nSamplesPerSec position frequency : Z)
  : option Z :=
  if (nSamplesPerSec =? 0) || (frequency =? 0) then None
  else Some (microseconds
               (drift_u64 bufferPosition nSamplesPerSec position frequency)).

(** The formula of the specification (section 4.1), over the integers. *)
Definition spec_drift (bufferPosition sampleRate ticks frequency : Z) : Z :=
  bufferPosition * 1000000 / sampleRate - ticks * 1000000 / frequency.

(** ** Calls, answers and events *)

Inductive service := IID_IAudioRenderClient | IID_IAudioClock.

(** The calls whose result the worker receives. *)
Inductive call :=
| Active                                 (* a read of [active_] *)
| CoCreateInstance
| GetDefaultAudioEndpoint
| EnumAudioEndpoints
| Item (index : Z)
| Activate
| IsFormatSupported
| GetDevicePeriod
| Initialize
| GetBufferSize
| CreateEvent
| SetEventHandle
| GetService (iid : service)
| AvSetMmThreadCharacteristics
| Start
| Stop
| Reset
| GetFrequency
| GetPosition
| WaitForSingleObject (milliseconds : Z)
| GetPlayerChunk (usec : Z) (frames : Z)
| WaitForChunk (milliseconds : Z)
| GetBuffer (frames : Z)
| ReleaseBuffer (frames flags : Z).

(** What a collaborator answers. *)
Inductive response :=
| RBool (b : bool)          (* [active_], [getPlayerChunk], [waitForChunk] *)
| RDword (d : Z)            (* [WaitForSingleObject] *)
| RHandle (h : Z)           (* a [HANDLE]; [0] is [NULL] *)
| RHr (hr : Z)              (* an [HRESULT] *)
| RHrVal (hr : Z) (v : Z).  (* an [HRESULT] and the out-parameter *)

(** What the worker does without receiving a result.  [StoreBufferPosition]
    records an assignment to the local [bufferPosition] (lines 287, 309,
    331 and 348), so that its history can be read off a trace. *)
Inductive action :=
| Log (msg : string)
| LogSeverityTag                         (* line 335 *)
| AdjustVolume (frames : Z)
| Memcpy (size : Z)
| StoreBufferPosition (v : Z).

Inductive event :=
| Called (c : call) (r : response)
| Did (a : action).

(** ** The worker monad *)

(** The world: the answers still to come and the events so far, newest
    first. *)
Record world := World { input : list response; log : list event }.

Inductive outcome (A : Type) :=
| Ret (a : A)
| Throw (hr line : Z)       (* [SnapException] raised by [CHECK_HR] *)
| Undefined                 (* division by zero *)
| NoAnswer                  (* the script ends or answers another call *)
| OutOfFuel.

Arguments Ret {A} a.
Arguments Throw {A} hr line.
Arguments Undefined {A}.
Arguments NoAnswer {A}.
Arguments OutOfFuel {A}.

Definition M (A : Type) : Type := world -> outcome A * world.

Definition ret {A} (a : A) : M A := fun w => (Ret a, w).

Definition bind {A B} (m : M A) (k : A -> M B) : M B :=
  fun w =>
    match m w with
    | (Ret a, w') => k a w'
    | (Throw hr line, w') => (Throw hr line, w')
    | (Undefined, w') => (Undefined, w')
    | (NoAnswer, w') => (NoAnswer, w')
    | (OutOfFuel, w') => (OutOfFuel, w')
    end.

Notation "x <- m ;; k" := (bind m (fun x => k))
  (at level 61, m at next level, right associativity).
Notation "m ;; k" := (bind m (fun _ => k))
  (at level 61, right associativity).

Definition throw {A} (hr line : Z) : M A := fun w => (Throw hr line, w).
Definition undefined {A} : M A := fun w => (Undefined, w).
Definition out_of_fuel {A} : M A := fun w => (OutOfFuel, w).

Definition do (a : action) : M unit :=
  fun w => (Ret tt, World (input w) (Did a :: log w)).

Definition call_bool (c : call) : M bool :=
  fun w =>
    match input w with
    | RBool b :: s => (Ret b, World s (Called c (RBool b) :: log w))
    | _ => (NoAnswer, w)
    end.

Definition call_dword (c : call) : M Z :=
  fun w =>
    match input w with
    | RDword d :: s => (Ret (u32 d), World s (Called c (RDword d) :: log w))
    | _ => (NoAnswer, w)
    end.

Definition call_handle (c : call) : M Z :=
  fun w =>
    match input w with
    | RHandle h :: s => (Ret h, World s (Called c (RHandle h) :: log w))
    | _ => (NoAnswer, w)
    end.

Definition call_hr (c : call) : M Z :=
  fun w =>
    match input w with
    | RHr hr :: s => (Ret hr, World s (Called c (RHr hr) :: log w))
    | _ => (NoAnswer, w)
    end.

Definition call_hr_val (c : call) : M (Z * Z) :=
  fun w =>
    match input w with
    | RHrVal hr v :: s => (Ret (hr, v), World s (Called c (RHrVal hr v) :: log w))
    | _ => (NoAnswer, w)
    end.

(** Line 59: [#define CHECK_HR(hres) if(FAILED(hres)){... throw
    SnapException(ss.str());}], the message carrying [hres] and
    [__LINE__]. *)
Definition CHECK_HR (hres line : Z) : M unit :=
  if FAILED hres then throw hres line else ret tt.

(** ** Session set-up (lines 157-288) *)

(** [stream_->getFormat()]. *)
Record SampleFormat := { channels : Z; rate : Z; bits : Z }.

(** The fields of [waveformat] the worker computes with (lines 162-167);
    [nChannels], [wBitsPerSample] and [nBlockAlign] are [WORD],
    [nSamplesPerSec] is a [DWORD].  The product of line 166 is computed
    in [int]; two [WORD]s whose product exceeds [INT_MAX] are outside
    what the embedding describes (no theorem below depends on
    [nBlockAlign] beyond the size handed to [memcpy]). *)
Definition nChannels (f : SampleFormat) : Z := u16 (channels f).
Definition nSamplesPerSec (f : SampleFormat) : Z := u32 (rate f).
Definition wBitsPerSample (f : SampleFormat) : Z := u16 (bits f).
Definition nBlockAlign (f : SampleFormat) : Z :=
  u16 (nChannels f * wBitsPerSample f / 8).

(** What the render loop keeps fixed. *)
Record session := Session {
  sampleRate : Z;          (* [waveformat->nSamplesPerSec] *)
  bufferFrameCount : Z;    (* [UINT32], line 256 *)
  bufferSize : Z;          (* [size_t], line 284 *)
  frequency : Z            (* [UINT64], line 288 *)
}.

(** Lines 221-245: [Initialize], run again with an aligned buffer when the
    first call answers [AUDCLNT_E_BUFFER_SIZE_NOT_ALIGNED]. *)
Definition initialize_client : M unit :=
  hr <- call_hr Initialize ;;
  hr <- (if to_int32 hr =? AUDCLNT_E_BUFFER_SIZE_NOT_ALIGNED then
           r <- call_hr_val GetBufferSize ;;
           CHECK_HR (fst r) 232 ;;
           hr <- call_hr Activate ;;
           CHECK_HR hr 236 ;;
           call_hr Initialize
         else ret hr) ;;
  CHECK_HR hr 245.

(** Lines 180-288.  [pcmDevice_idx] is [pcmDevice_.idx]; the result of
    [devices->Item] (line 201) and of [clock->GetFrequency] (line 288) is
    not looked at.  When [Item] fails [device] stays [NULL], and the call
    through it in line 206 raises the [_com_error] of the smart pointer,
    which is no outcome of this embedding: what it says of a run holds up
    to a failed [Item] and not beyond.  The allocations of lines 160,
    171 and 286 are taken to succeed, and the fields of the two format
    records written in lines 161-177 have no part in the control
    flow. *)
Definition setup (fmt : SampleFormat) (pcmDevice_idx : Z) : M session :=
  hr <- call_hr CoCreateInstance ;;
  CHECK_HR hr 186 ;;
  (if pcmDevice_idx =? 0 then
     hr <- call_hr GetDefaultAudioEndpoint ;;
     CHECK_HR hr 193
   else
     hr <- call_hr EnumAudioEndpoints ;;
     CHECK_HR hr 199 ;;
     _ <- call_hr (Item (u32 (pcmDevice_idx - 1))) ;;
     ret tt) ;;
  hr <- call_hr Activate ;;
  CHECK_HR hr 207 ;;
  hr <- call_hr IsFormatSupported ;;
  CHECK_HR hr 213 ;;
  hr <- call_hr GetDevicePeriod ;;
  CHECK_HR hr 218 ;;
  initialize_client ;;
  eventHandle <- call_handle CreateEvent ;;
  (if eventHandle =? 0 then CHECK_HR E_FAIL 250 else ret tt) ;;
  hr <- call_hr SetEventHandle ;;
  CHECK_HR hr 252 ;;
  r <- call_hr_val GetBufferSize ;;
  CHECK_HR (fst r) 257 ;;
  let bufferFrameCount := u32 (snd r) in
  hr <- call_hr (GetService IID_IAudioRenderClient) ;;
  CHECK_HR hr 264 ;;
  hr <- call_hr (GetService IID_IAudioClock) ;;
  CHECK_HR hr 271 ;;
  taskHandle <- call_handle AvSetMmThreadCharacteristics ;;
  (if taskHandle =? 0 then CHECK_HR E_FAIL 278 else ret tt) ;;
  hr <- call_hr Start ;;
  CHECK_HR hr 282 ;;
  let bufferSize := u32 (bufferFrameCount * nBlockAlign fmt) in
  do (StoreBufferPosition 0) ;;
  r <- call_hr_val GetFrequency ;;
  ret (Session (nSamplesPerSec fmt) bufferFrameCount bufferSize (u64 (snd r))).

(** ** The render loop (lines 290-350) *)

(** The locals the loop writes. *)
Record locals := Locals { position : Z; bufferPosition : Z }.

Inductive control := Continue (st : locals) | Break (st : locals).

(** Lines 304-305 and 343-344:
    [while (active_ && !stream_->waitForChunk(100ms)) LOG(...)]. *)
Fixpoint wait_for_chunk (fuel : nat) : M unit :=
  match fuel with
  | O => out_of_fuel
  | S fuel' =>
      active <- call_bool Active ;;
      if active then
        got <- call_bool (WaitForChunk 100) ;;
        if got then ret tt
        else do (Log "Waiting for chunk") ;; wait_for_chunk fuel'
      else ret tt
  end.

(** Lines 299-309 and 338-348: stop and reset the client, wait for the
    stream, start the client again and rewind [bufferPosition]. *)
Definition recover (fuel : nat) (lstop lreset lstart : Z) (st : locals)
  : M locals :=
  hr <- call_hr Stop ;;
  CHECK_HR hr lstop ;;
  hr <- call_hr Reset ;;
  CHECK_HR hr lreset ;;
  wait_for_chunk fuel ;;
  hr <- call_hr Start ;;
  CHECK_HR hr lstart ;;
  do (StoreBufferPosition 0) ;;
  ret (Locals (position st) 0).

(** Lines 292-349, the body of [while (active_)].  The [HRESULT] of
    [GetPosition] (line 317) is not looked at: of its answer [RHrVal hr v]
    the worker takes [v], what [position] holds after the call, which
    after a failed call may be the reading of an earlier period. *)
Definition iteration (fuel : nat) (s : session) (st : locals) : M control :=
  returnVal <- call_dword (WaitForSingleObject 2000) ;;
  if negb (returnVal =? WAIT_OBJECT_0) then
    do (Log "Got timeout waiting for audio device callback") ;;
    CHECK_HR ERROR_TIMEOUT 297 ;;
    st' <- recover fuel 300 302 308 st ;;
    ret (Break st')
  else
    active <- call_bool Active ;;
    if negb active then ret (Break st)
    else
      r <- call_hr_val GetPosition ;;
      let st := Locals (u64 (snd r)) (bufferPosition st) in
      match drift_us (bufferPosition st) (sampleRate s)
                     (position st) (frequency s) with
      | None => undefined
      | Some usec =>
          got <- call_bool (GetPlayerChunk usec (bufferFrameCount s)) ;;
          if got then
            do (AdjustVolume (bufferFrameCount s)) ;;
            hr <- call_hr (GetBuffer (bufferFrameCount s)) ;;
            CHECK_HR hr 326 ;;
            do (Memcpy (bufferSize s)) ;;
            hr <- call_hr (ReleaseBuffer (bufferFrameCount s) 0) ;;
            CHECK_HR hr 329 ;;
            let bufferPosition' :=
              u64 (bufferPosition st + bufferFrameCount s) in
            do (StoreBufferPosition bufferPosition') ;;
            ret (Continue (Locals (position st) bufferPosition'))
          else
            do LogSeverityTag ;;
            do (Log "Failed to get chunk") ;;
            st' <- recover fuel 339 341 347 st ;;
            ret (Continue st')
      end.

(** Line 290: [while (active_) { ... }]. *)
Fixpoint render_loop (fuel : nat) (s : session) (st : locals) : M locals :=
  match fuel with
  | O => out_of_fuel
  | S fuel' =>
      active <- call_bool Active ;;
      if active then
        c <- iteration fuel' s st ;;
        match c with
        | Continue st' => render_loop fuel' s st'
        | Break st' => ret st'
        end
      else ret st
  end.

(** [WASAPIPlayer::worker], lines 153-351. *)
Definition worker_fuel (fuel : nat) (fmt : SampleFormat) (pcmDevice_idx : Z)
  : M unit :=
  s <- setup fmt pcmDevice_idx ;;
  _ <- render_loop fuel s (Locals 0 0) ;;
  ret tt.

(** A run against a script: how the worker ends and the events in the
    order they happened.  Every turn of either loop takes an answer from
    the script, so its length bounds the number of turns. *)
Definition worker (fmt : SampleFormat) (pcmDevice_idx : Z)
  (script : list response) : outcome unit * list event :=
  let (r, w) := worker_fuel (S (List.length script)) fmt pcmDevice_idx
                  (World script []) in
  (r, rev (log w)).

(** The events a computation adds to a world, oldest first. *)
Definition run {A} (m : M A) (script : list response)
  : outcome A * list event * list response :=
  let (r, w) := m (World script []) in (r, rev (log w), input w).

(** ** The worker as a state machine over its events

    The control points of [worker], each named after the event that
    comes next, with the values the worker holds there.  [step] says
    which event may come next and where it leads; Part II shows that
    every run of [worker] is a path of this machine.  Properties of all
    runs are then proved on paths. *)

Inductive branch := OnTimeout | OnStarvation.

Inductive phase :=
| AtCoCreateInstance | AtEndpoint | AtItem | AtActivate | AtIsFormatSupported
| AtGetDevicePeriod | AtInitialize | AtAlignedSize | AtAlignedActivate
| AtInitializeAligned | AtCreateEvent | AtSetEventHandle | AtGetBufferSize
| AtRenderService | AtClockService | AtTaskHandle | AtFirstStart
| AtInitPosition | AtGetFrequency
| AtLoopTop | AtWait | AtTimeoutLog | AtDoubleCheck | AtGetPosition
| AtGetPlayerChunk | AtAdjustVolume | AtGetBuffer | AtMemcpy | AtReleaseBuffer
| AtAdvance | AtSeverityTag | AtFailedLog
| AtStop (b : branch) | AtReset (b : branch) | AtPoll (b : branch)
| AtWaitForChunk (b : branch) | AtWaitingLog (b : branch)
| AtRestart (b : branch) | AtRewind (b : branch)
| Returned | Thrown (hr line : Z) | Crashed.

Record machine := Machine {
  pc : phase;
  m_bufferFrameCount : Z;
  m_frequency : Z;
  m_position : Z;
  m_bufferPosition : Z
}.

Definition initial : machine := Machine AtCoCreateInstance 0 0 0 0.

Definition goto (p : phase) (m : machine) : machine :=
  Machine p (m_bufferFrameCount m) (m_frequency m) (m_position m)
    (m_bufferPosition m).

(** Where [CHECK_HR(hr)] at [line] leads. *)
Definition checked (hr line : Z) (next : phase) : phase :=
  if FAILED hr then Thrown hr line else next.

Definition stop_line (b : branch) : Z :=
  match b with OnTimeout => 300 | OnStarvation => 339 end.
Definition reset_line (b : branch) : Z :=
  match b with OnTimeout => 302 | OnStarvation => 341 end.
Definition start_line (b : branch) : Z :=
  match b with OnTimeout => 308 | OnStarvation => 347 end.

Definition step (fmt : SampleFormat) (idx : Z) (m : machine) (e : event)
  : option machine :=
  match pc m with
  | AtCoCreateInstance =>
      match e with
      | Called CoCreateInstance (RHr hr) =>
          Some (goto (checked hr 186 AtEndpoint) m)
      | _ => None
      end
  | AtEndpoint =>
      match e with
      | Called GetDefaultAudioEndpoint (RHr hr) =>
          if idx =? 0 then Some (goto (checked hr 193 AtActivate) m) else None
      | Called EnumAudioEndpoints (RHr hr) =>
          if idx =? 0 then None else Some (goto (checked hr 199 AtItem) m)
      | _ => None
      end
  | AtItem =>
      match e with
      | Called (Item i) (RHr _) =>
          if i =? u32 (idx - 1) then Some (goto AtActivate m) else None
      | _ => None
      end
  | AtActivate =>
      match e with
      | Called Activate (RHr hr) =>
          Some (goto (checked hr 207 AtIsFormatSupported) m)
      | _ => None
      end
  | AtIsFormatSupported =>
      match e with
      | Called IsFormatSupported (RHr hr) =>
          Some (goto (checked hr 213 AtGetDevicePeriod) m)
      | _ => None
      end
  | AtGetDevicePeriod =>
      match e with
      | Called GetDevicePeriod (RHr hr) =>
          Some (goto (checked hr 218 AtInitialize) m)
      | _ => None
      end
  | AtInitialize =>
      match e with
      | Called Initialize (RHr hr) =>
          if to_int32 hr =? AUDCLNT_E_BUFFER_SIZE_NOT_ALIGNED
          then Some (goto AtAlignedSize m)
          else Some (goto (checked hr 245 AtCreateEvent) m)
      | _ => None
      end
  | AtAlignedSize =>
      match e with
      | Called GetBufferSize (RHrVal hr _) =>
          Some (goto (checked hr 232 AtAlignedActivate) m)
      | _ => None
      end
  | AtAlignedActivate =>
      match e with
      | Called Activate (RHr hr) =>
          Some (goto (checked hr 236 AtInitializeAligned) m)
      | _ => None
      end
  | AtInitializeAligned =>
      match e with
      | Called Initialize (RHr hr) =>
          Some (goto (checked hr 245 AtCreateEvent) m)
      | _ => None
      end
  | AtCreateEvent =>
      match e with
      | Called CreateEvent (RHandle h) =>
          Some (goto (if h =? 0 then checked E_FAIL 250 AtSetEventHandle
                      else AtSetEventHandle) m)
      | _ => None
      end
  | AtSetEventHandle =>
      match e with
      | Called SetEventHandle (RHr hr) =>
          Some (goto (checked hr 252 AtGetBufferSize) m)
      | _ => None
      end
  | AtGetBufferSize =>
      match e with
      | Called GetBufferSize (RHrVal hr v) =>
          Some (Machine (checked hr 257 AtRenderService) (u32 v)
                  (m_frequency m) (m_position m) (m_bufferPosition m))
      | _ => None
      end
  | AtRenderService =>
      match e with
      | Called (GetService IID_IAudioRenderClient) (RHr hr) =>
          Some (goto (checked hr 264 AtClockService) m)
      | _ => None
      end
  | AtClockService =>
      match e with
      | Called (GetService IID_IAudioClock) (RHr hr) =>
          Some (goto (checked hr 271 AtTaskHandle) m)
      | _ => None
      end
  | AtTaskHandle =>
      match e with
      | Called AvSetMmThreadCharacteristics (RHandle h) =>
          Some (goto (if h =? 0 then checked E_FAIL 278 AtFirstStart
                      else AtFirstStart) m)
      | _ => None
      end
  | AtFirstStart =>
      match e with
      | Called Start (RHr hr) => Some (goto (checked hr 282 AtInitPosition) m)
      | _ => None
      end
  | AtInitPosition =>
      match e with
      | Did (StoreBufferPosition v) =>
          if v =? 0 then
            Some (Machine AtGetFrequency (m_bufferFrameCount m)
                    (m_frequency m) 0 0)
          else None
      | _ => None
      end
  | AtGetFrequency =>
      match e with
      | Called GetFrequency (RHrVal _ v) =>
          Some (Machine AtLoopTop (m_bufferFrameCount m) (u64 v)
                  (m_position m) (m_bufferPosition m))
      | _ => None
      end
  | AtLoopTop =>
      match e with
      | Called Active (RBool b) =>
          Some (goto (if b then AtWait else Returned) m)
      | _ => None
      end
  | AtWait =>
      match e with
      | Called (WaitForSingleObject ms) (RDword d) =>
          if ms =? 2000 then
            Some (goto (if u32 d =? WAIT_OBJECT_0 then AtDoubleCheck
                        else AtTimeoutLog) m)
          else None
      | _ => None
      end
  | AtTimeoutLog =>
      match e with
      | Did (Log msg) =>
          if String.eqb msg "Got timeout waiting for audio device callback"
          then Some (goto (checked ERROR_TIMEOUT 297 (AtStop OnTimeout)) m)
          else None
      | _ => None
      end
  | AtDoubleCheck =>
      match e with
      | Called Active (RBool b) =>
          Some (goto (if b then AtGetPosition else Returned) m)
      | _ => None
      end
  | AtGetPosition =>
      match e with
      | Called GetPosition (RHrVal _ v) =>
          match drift_us (m_bufferPosition m) (nSamplesPerSec fmt) (u64 v)
                  (m_frequency m) with
          | Some _ =>
              Some (Machine AtGetPlayerChunk (m_bufferFrameCount m)
                      (m_frequency m) (u64 v) (m_bufferPosition m))
          | None =>
              Some (Machine Crashed (m_bufferFrameCount m)
                      (m_frequency m) (u64 v) (m_bufferPosition m))
          end
      | _ => None
      end
  | AtGetPlayerChunk =>
      match e with
      | Called (GetPlayerChunk usec frames) (RBool got) =>
          if (frames =? m_bufferFrameCount m) &&
             match drift_us (m_bufferPosition m) (nSamplesPerSec fmt)
                     (m_position m) (m_frequency m) with
             | Some d => usec =? d
             | None => false
             end
          then Some (goto (if got then AtAdjustVolume else AtSeverityTag) m)
          else None
      | _ => None
      end
  | AtAdjustVolume =>
      match e with
      | Did (AdjustVolume frames) =>
          if frames =? m_bufferFrameCount m then Some (goto AtGetBuffer m)
          else None
      | _ => None
      end
  | AtGetBuffer =>
      match e with
      | Called (GetBuffer frames) (RHr hr) =>
          if frames =? m_bufferFrameCount m
          then Some (goto (checked hr 326 AtMemcpy) m)
          else None
      | _ => None
      end
  | AtMemcpy =>
      match e with
      | Did (Memcpy size) =>
          if size =? u32 (m_bufferFrameCount m * nBlockAlign fmt)
          then Some (goto AtReleaseBuffer m)
          else None
      | _ => None
      end
  | AtReleaseBuffer =>
      match e with
      | Called (ReleaseBuffer frames flags) (RHr hr) =>
          if (frames =? m_bufferFrameCount m) && (flags =? 0)
          then Some (goto (checked hr 329 AtAdvance) m)
          else None
      | _ => None
      end
  | AtAdvance =>
      match e with
      | Did (StoreBufferPosition v) =>
          if v =? u64 (m_bufferPosition m + m_bufferFrameCount m)
          then Some (Machine AtLoopTop (m_bufferFrameCount m)
                       (m_frequency m) (m_position m) v)
          else None
      | _ => None
      end
  | AtSeverityTag =>
      match e with
      | Did LogSeverityTag => Some (goto AtFailedLog m)
      | _ => None
      end
  | AtFailedLog =>
      match e with
      | Did (Log msg) =>
          if String.eqb msg "Failed to get chunk"
          then Some (goto (AtStop OnStarvation) m)
          else None
      | _ => None
      end
  | AtStop b =>
      match e with
      | Called Stop (RHr hr) =>
          Some (goto (checked hr (stop_line b) (AtReset b)) m)
      | _ => None
      end
  | AtReset b =>
      match e with
      | Called Reset (RHr hr) =>
          Some (goto (checked hr (reset_line b) (AtPoll b)) m)
      | _ => None
      end
  | AtPoll b =>
      match e with
      | Called Active (RBool a) =>
          Some (goto (if a then AtWaitForChunk b else AtRestart b) m)
      | _ => None
      end
  | AtWaitForChunk b =>
      match e with
      | Called (WaitForChunk ms) (RBool got) =>
          if ms =? 100
          then Some (goto (if got then AtRestart b else AtWaitingLog b) m)
          else None
      | _ => None
      end
  | AtWaitingLog b =>
      match e with
      | Did (Log msg) =>
          if String.eqb msg "Waiting for chunk" then Some (goto (AtPoll b) m)
          else None
      | _ => None
      end
  | AtRestart b =>
      match e with
      | Called Start (RHr hr) =>
          Some (goto (checked hr (start_line b) (AtRewind b)) m)
      | _ => None
      end
  | AtRewind b =>
      match e with
      | Did (StoreBufferPosition v) =>
          if v =? 0 then
            Some (Machine
                    (match b with
                     | OnTimeout => Returned
                     | OnStarvation => AtLoopTop
                     end)
                    (m_bufferFrameCount m) (m_frequency m) (m_position m) 0)
          else None
      | _ => None
      end
  | Returned => None
  | Thrown _ _ => None
  | Crashed => None
  end.

(** The machine after a trace, oldest event first. *)
Fixpoint exec (fmt : SampleFormat) (idx : Z) (m : machine) (tr : list event)
  : option machine :=
  match tr with
  | [] => Some m
  | e :: tr' =>
      match step fmt idx m e with
      | Some m' => exec fmt idx m' tr'
      | None => None
      end
  end.

(** The machine after a log, newest event first. *)
Fixpoint track (fmt : SampleFormat) (idx : Z) (lg : list event)
  : option machine :=
  match lg with
  | [] => Some initial
  | e :: lg' =>
      match track fmt idx lg' with
      | Some m => step fmt idx m e
      | None => None
      end
  end.

(** The machine holds what the loop holds. *)
Definition agree (fmt : SampleFormat) (s : session) (st : locals)
  (m : machine) : Prop :=
  sampleRate s = nSamplesPerSec fmt /\
  bufferSize s = u32 (bufferFrameCount s * nBlockAlign fmt) /\
  m_bufferFrameCount m = bufferFrameCount s /\
  m_frequency m = frequency s /\
  m_bufferPosition m = bufferPosition st.

(** The phases in which the worker waits for an answer; in the others it
    acts on its own or has ended. *)
Definition awaits (p : phase) : bool :=
  match p with
  | AtInitPosition | AtTimeoutLog | AtAdjustVolume | AtMemcpy | AtAdvance
  | AtSeverityTag | AtFailedLog | AtWaitingLog _ | AtRewind _
  | Returned | Thrown _ _ | Crashed => false
  | _ => true
  end.

(** How a computation that stops in phase [p] ends; [on_ret] is what a
    normal result says about [p]. *)
Definition ends {A} (r : outcome A) (p : phase) (on_ret : A -> Prop) : Prop :=
  match r with
  | Ret a => on_ret a
  | Throw hr line => p = Thrown hr line
  | Undefined => p = Crashed
  | NoAnswer => awaits p = true
  | OutOfFuel => False
  end.

Definition ends_as (r : outcome unit) (p : phase) : Prop :=
  ends r p (fun _ => p = Returned).

(** ** Reading a trace *)

(** The value of [bufferPosition] after a trace: what was stored last. *)
Definition stored_position (tr : list event) : Z :=
  fold_left
    (fun v e => match e with Did (StoreBufferPosition v') => v' | _ => v end)
    tr 0.

(** The value of [frequency] after a trace (line 288). *)
Definition clock_frequency (tr : list event) : Z :=
  fold_left
    (fun f e =>
       match e with Called GetFrequency (RHrVal _ v) => u64 v | _ => f end)
    tr 0.

(** The value of [bufferFrameCount] after a trace (line 256). *)
Definition buffer_frames (tr : list event) : Z :=
  fold_left
    (fun n e =>
       match e with Called GetBufferSize (RHrVal _ v) => u32 v | _ => n end)
    tr 0.

(** The values assigned to [bufferPosition], in order. *)
Fixpoint stores (tr : list event) : list Z :=
  match tr with
  | [] => []
  | Did (StoreBufferPosition v) :: tr' => v :: stores tr'
  | _ :: tr' => stores tr'
  end.

(** What happens to a chunk. *)
Inductive stage := Delivered | VolumeAdjusted | Committed.

Fixpoint stages (tr : list event) : list stage :=
  match tr with
  | [] => []
  | Called (GetPlayerChunk _ _) (RBool true) :: tr' => Delivered :: stages tr'
  | Did (AdjustVolume _) :: tr' => VolumeAdjusted :: stages tr'
  | Called (ReleaseBuffer _ _) (RHr hr) :: tr' =>
      if FAILED hr then stages tr' else Committed :: stages tr'
  | _ :: tr' => stages tr'
  end.

(** How many events of a trace satisfy [p]. *)
Fixpoint count (p : event -> bool) (tr : list event) : nat :=
  match tr with
  | [] => O
  | e :: tr' => if p e then S (count p tr') else count p tr'
  end.

(** ** Kinds of events *)

(** A read of [active_], whatever it finds. *)
Definition is_flag_read (e : event) : bool :=
  match e with Called Active _ => true | _ => false end.

(** A read of [active_] that finds it set. *)
Definition is_flag_read_set (e : event) : bool :=
  match e with Called Active (RBool true) => true | _ => false end.

Definition is_pacing_wait (e : event) : bool :=
  match e with Called (WaitForSingleObject _) _ => true | _ => false end.

(** The two blocking waits: for the pacing signal and for the stream. *)
Definition is_wait (e : event) : bool :=
  match e with
  | Called (WaitForSingleObject _) _ | Called (WaitForChunk _) _ => true
  | _ => false
  end.

Definition is_chunk_request (e : event) : bool :=
  match e with Called (GetPlayerChunk _ _) _ => true | _ => false end.

(** The commit of a buffer to the endpoint. *)
Definition is_commit (e : event) : bool :=
  match e with
  | Called (GetBuffer _) _ | Called (ReleaseBuffer _ _) _ => true
  | _ => false
  end.

(** The events of a turn of the loop that renders: the pacing wait, the
    clock read, the chunk request, the volume and the commit. *)
Definition is_render_event (e : event) : bool :=
  match e with
  | Called (WaitForSingleObject _) _ | Called GetPosition _
  | Called (GetPlayerChunk _ _) _ | Did (AdjustVolume _)
  | Called (GetBuffer _) _ | Did (Memcpy _)
  | Called (ReleaseBuffer _ _) _ => true
  | _ => false
  end.

(** The events of the wait for the stream (lines 304-305, 343-344). *)
Definition is_poll_event (e : event) : bool :=
  match e with
  | Called Active _ => true
  | Called (WaitForChunk _) _ => true
  | Did (Log _) => true
  | _ => false
  end.

Definition is_frequency_read (e : event) : bool :=
  match e with Called GetFrequency _ => true | _ => false end.

Definition is_initialize (e : event) : bool :=
  match e with Called Initialize _ => true | _ => false end.

Definition is_stop_call (e : event) : bool :=
  match e with Called Stop _ => true | _ => false end.

Definition is_reset_call (e : event) : bool :=
  match e with Called Reset _ => true | _ => false end.

Definition is_start_call (e : event) : bool :=
  match e with Called Start _ => true | _ => false end.

(** The operations of the endpoint whose failure ends the session. *)
Definition fatal_call (c : call) : bool :=
  match c with
  | Initialize | GetService _ | Start | Stop | Reset | GetBuffer _
  | ReleaseBuffer _ _ => true
  | _ => false
  end.

(** The [HRESULT] an event fails with: a failed [HRESULT] that was
    answered, or [E_FAIL] for a [NULL] handle. *)
Definition failure_of (e : event) : option Z :=
  match e with
  | Called _ (RHr hr) => if FAILED hr then Some hr else None
  | Called _ (RHrVal hr _) => if FAILED hr then Some hr else None
  | Called _ (RHandle h) => if h =? 0 then Some E_FAIL else None
  | _ => None
  end.

(** ** Shapes of traces *)

(** The events of one turn of the loop in which a chunk is delivered, up
    to the commit. *)
Definition delivered_events (d hrp ticks usec frames size hr1 hr2 : Z)
  : list event :=
  [ Called Active (RBool true);
    Called (WaitForSingleObject 2000) (RDword d);
    Called Active (RBool true);
    Called GetPosition (RHrVal hrp ticks);
    Called (GetPlayerChunk usec frames) (RBool true);
    Did (AdjustVolume frames);
    Called (GetBuffer frames) (RHr hr1);
    Did (Memcpy size);
    Called (ReleaseBuffer frames 0) (RHr hr2) ].

Fixpoint fruitless_poll_events (k : nat) : list event :=
  match k with
  | O => []
  | S k' =>
      Called Active (RBool true) :: Called (WaitForChunk 100) (RBool false)
      :: Did (Log "Waiting for chunk") :: fruitless_poll_events k'
  end.

(** How the poll of lines 343-344 ends: the stream has data, or the flag
    has been cleared. *)
Definition poll_ending (ending : list event) : Prop :=
  ending = [Called Active (RBool true); Called (WaitForChunk 100) (RBool true)]
  \/ ending = [Called Active (RBool false)].

(** The events of lines 335-348, which follow a chunk request that was
    answered with no chunk: the stream is polled [k] times in vain, and
    the poll then ends with [ending]. *)
Definition recovery_events (h1 h2 : Z) (k : nat) (ending : list event)
  (h3 : Z) : list event :=
  [ Did LogSeverityTag;
    Did (Log "Failed to get chunk");
    Called Stop (RHr h1);
    Called Reset (RHr h2) ]
  ++ fruitless_poll_events k
  ++ ending
  ++ [ Called Start (RHr h3);
       Did (StoreBufferPosition 0) ].

(** The events of lines 182-288 for the answers of [session_answers]. *)
Definition session_events (frames freq : Z) : list event :=
  [ Called CoCreateInstance (RHr S_OK);
    Called GetDefaultAudioEndpoint (RHr S_OK);
    Called Activate (RHr S_OK);
    Called IsFormatSupported (RHr S_OK);
    Called GetDevicePeriod (RHr S_OK);
    Called Initialize (RHr S_OK);
    Called CreateEvent (RHandle 1);
    Called SetEventHandle (RHr S_OK);
    Called GetBufferSize (RHrVal S_OK frames);
    Called (GetService IID_IAudioRenderClient) (RHr S_OK);
    Called (GetService IID_IAudioClock) (RHr S_OK);
    Called AvSetMmThreadCharacteristics (RHandle 1);
    Called Start (RHr S_OK);
    Did (StoreBufferPosition 0);
    Called GetFrequency (RHrVal S_OK freq) ].

(** Lines 229-243, as [after] the first [Initialize] has answered
    [AUDCLNT_E_BUFFER_SIZE_NOT_ALIGNED] in a run that ends as [r]: the
    worker asks for the buffer size, activates the client again and
    calls [Initialize] a second time; a failure of [GetBufferSize]
    (line 232), of [Activate] (line 236) or of the second [Initialize]
    (line 245) ends the run with that exception. *)
Definition initialized_again (r : outcome unit) (after : list event) : Prop :=
  match after with
  | [] => r = NoAnswer
  | Called GetBufferSize (RHrVal hr _) :: after1 =>
      if FAILED hr then after1 = [] /\ r = Throw hr 232
      else
        match after1 with
        | [] => r = NoAnswer
        | Called Activate (RHr hr) :: after2 =>
            if FAILED hr then after2 = [] /\ r = Throw hr 236
            else
              match after2 with
              | [] => r = NoAnswer
              | Called Initialize (RHr hr) :: after3 =>
                  if FAILED hr then after3 = [] /\ r = Throw hr 245
                  else True
              | _ => False
              end
        | _ => False
        end
  | _ => False
  end.

(** The three places where [bufferPosition] is assigned, each described
    by the trace [before] the assignment of [v]. *)

(** Line 287: the initialisation, before the loop is entered. *)
Definition initialised (before : list event) (v : Z) : Prop :=
  v = 0 /\ existsb is_pacing_wait before = false.

(** Line 331: the turn of the loop just before has taken a chunk and
    committed it, and [v] is the old value plus one period, in [UINT64]
    arithmetic. *)
Definition advanced (before : list event) (v : Z) : Prop :=
  exists a d hrp ticks usec size hr1 hr2,
    before = a ++ delivered_events d hrp ticks usec (buffer_frames before)
                    size hr1 hr2 /\
    u32 d = WAIT_OBJECT_0 /\ FAILED hr1 = false /\ FAILED hr2 = false /\
    v = u64 (stored_position before + buffer_frames before) /\
    (stored_position before + buffer_frames before < 2 ^ 64 ->
     v = stored_position before + buffer_frames before).

(** Lines 309 and 348: the client has been stopped, reset and, after the
    wait for the stream, started again. *)
Definition rewound (before : list event) (v : Z) : Prop :=
  v = 0 /\
  exists a h1 h2 polls h3,
    before = a ++ Called Stop (RHr h1) :: Called Reset (RHr h2)
               :: polls ++ [Called Start (RHr h3)] /\
    FAILED h1 = false /\ FAILED h2 = false /\ FAILED h3 = false /\
    forallb is_poll_event polls = true.


(** Once [active_] has been read as [false] it is not read as [true]
    again: the controlling thread clears the flag and joins the worker. *)
Fixpoint stop_sticks (tr : list event) : bool :=
  match tr with
  | [] => true
  | Called Active (RBool false) :: tr' => negb (existsb is_flag_read_set tr')
  | _ :: tr' => stop_sticks tr'
  end.

(** Whether [active_] is read between a blocking wait and whatever wait
    or commit comes next; [fresh] says that it has been read since the
    last wait. *)
Fixpoint flag_checked (fresh : bool) (tr : list event) : bool :=
  match tr with
  | [] => true
  | e :: tr' =>
      if is_flag_read e then flag_checked true tr'
      else if is_wait e then fresh && flag_checked false tr'
      else if is_commit e then fresh && flag_checked fresh tr'
      else flag_checked fresh tr'
  end.

(** ** Sets of phases *)

(** The phases of the render loop. *)
Definition in_loop (p : phase) : bool :=
  match p with
  | AtLoopTop | AtWait | AtTimeoutLog | AtDoubleCheck | AtGetPosition
  | AtGetPlayerChunk | AtAdjustVolume | AtGetBuffer | AtMemcpy
  | AtReleaseBuffer | AtAdvance | AtSeverityTag | AtFailedLog
  | AtStop _ | AtReset _ | AtPoll _ | AtWaitForChunk _ | AtWaitingLog _
  | AtRestart _ | AtRewind _ => true
  | _ => false
  end.

(** The phases in which [bufferFrameCount] has been read. *)
Definition sized (p : phase) : bool :=
  in_loop p ||
  match p with
  | AtRenderService | AtClockService | AtTaskHandle | AtFirstStart
  | AtInitPosition | AtGetFrequency => true
  | _ => false
  end.

(** The phases of the loop and those in which the worker has ended. *)
Definition past_setup (p : phase) : bool :=
  in_loop p ||
  match p with Returned | Thrown _ _ | Crashed => true | _ => false end.

(** The phases up to the first call of [Initialize]. *)
Definition before_initialize (p : phase) : bool :=
  match p with
  | AtCoCreateInstance | AtEndpoint | AtItem | AtActivate
  | AtIsFormatSupported | AtGetDevicePeriod | AtInitialize => true
  | _ => false
  end.

(** The phases of the wait for the stream and of the restart. *)
Definition polling (p : phase) : bool :=
  match p with
  | AtPoll _ | AtWaitForChunk _ | AtWaitingLog _ | AtRestart _ => true
  | _ => false
  end.

(** The phases from which a wait or a commit is reached without another
    read of [active_]. *)
Definition needs_fresh (p : phase) : bool :=
  match p with
  | AtWait | AtWaitForChunk _ | AtGetPosition | AtGetPlayerChunk
  | AtAdjustVolume | AtGetBuffer | AtMemcpy | AtReleaseBuffer => true
  | _ => false
  end.

(** The phases of the recovery from a pacing timeout, and the end. *)
Definition after_timeout (p : phase) : bool :=
  match p with
  | AtStop OnTimeout | AtReset OnTimeout | AtPoll OnTimeout
  | AtWaitForChunk OnTimeout | AtWaitingLog OnTimeout | AtRestart OnTimeout
  | AtRewind OnTimeout | Returned | Thrown _ _ | Crashed => true
  | _ => false
  end.

(** ** Scripts *)

(** A stereo 16-bit stream at 48 kHz. *)
Definition cd48k : SampleFormat := {| channels := 2; rate := 48000; bits := 16 |}.

(** A session at 48 kHz with periods of 480 frames of 4 bytes and a
    clock at 10 MHz. *)
Definition session48k : session := Session 48000 480 1920 10000000.

(** The answers to lines 182-288 for the default device, every call
    succeeding: [frames] is what [GetBufferSize] stores and [freq] what
    [GetFrequency] stores. *)
Definition session_answers (frames freq : Z) : list response :=
  [ RHr S_OK;            (* CoCreateInstance *)
    RHr S_OK;            (* GetDefaultAudioEndpoint *)
    RHr S_OK;            (* Activate *)
    RHr S_OK;            (* IsFormatSupported *)
    RHr S_OK;            (* GetDevicePeriod *)
    RHr S_OK;            (* Initialize *)
    RHandle 1;           (* CreateEvent *)
    RHr S_OK;            (* SetEventHandle *)
    RHrVal S_OK frames;  (* GetBufferSize *)
    RHr S_OK;            (* GetService, render client *)
    RHr S_OK;            (* GetService, clock *)
    RHandle 1;           (* AvSetMmThreadCharacteristics *)
    RHr S_OK;            (* Start *)
    RHrVal S_OK freq ].  (* GetFrequency *)

(** The answers to one turn of the loop in which a chunk is delivered
    and committed, the clock standing at [ticks]. *)
Definition delivered (ticks : Z) : list response :=
  [ RBool true;            (* active_, line 290 *)
    RDword WAIT_OBJECT_0;  (* WaitForSingleObject *)
    RBool true;            (* active_, line 314 *)
    RHrVal S_OK ticks;     (* GetPosition *)
    RBool true;            (* getPlayerChunk *)
    RHr S_OK;              (* GetBuffer *)
    RHr S_OK ].            (* ReleaseBuffer *)

(** The poll of lines 343-344 answered [k] times with "still active"
    and "no chunk yet", and the events this gives. *)
Fixpoint fruitless_polls (k : nat) : list response :=
  match k with
  | O => []
  | S k' => RBool true :: RBool false :: fruitless_polls k'
  end.

(** The answers to a starved turn of the loop, the clock standing at
    [ticks], the stream having data again after [k] fruitless polls. *)
Definition starved_until (ticks : Z) (k : nat) : list response :=
  [ RBool true;            (* active_, line 290 *)
    RDword WAIT_OBJECT_0;  (* WaitForSingleObject *)
    RBool true;            (* active_, line 314 *)
    RHrVal S_OK ticks;     (* GetPosition *)
    RBool false;           (* getPlayerChunk: no chunk *)
    RHr S_OK;              (* Stop *)
    RHr S_OK ]             (* Reset *)
  ++ fruitless_polls k
  ++ [ RBool true;         (* active_, line 343 *)
       RBool true;         (* waitForChunk: data *)
       RHr S_OK ].         (* Start *)

(** Periods of 480 frames: the chunks of [first] are delivered, the
    stream then starves for [k] polls of 100 ms, the chunks of [second]
    are delivered, and the flag is cleared.  The lists hold what the
    clock reports in each period. *)
Definition gap_scenario (freq : Z) (first : list Z) (ticks : Z) (k : nat)
  (second : list Z) : list response :=
  session_answers 480 freq ++ flat_map delivered first
  ++ starved_until ticks k ++ flat_map delivered second ++ [RBool false].

(** Two periods of 48000 frames at 48 kHz, the clock at 10 MHz standing
    at 0 and then at 5000000 ticks. *)
Definition two_periods : list response :=
  session_answers 48000 10000000 ++ delivered 0 ++ delivered 5000000
  ++ [RBool false].

(** One period after 18446744073710 ticks of a 10 MHz clock (a little
    over 21 days). *)
Definition late_period : list response :=
  session_answers 480 10000000 ++ delivered 18446744073710 ++ [RBool false].

(** One period with the clock of a 10 MHz device already at 5000000
    ticks while nothing has been written yet. *)
Definition clock_ahead : list response :=
  session_answers 480 10000000 ++ delivered 5000000 ++ [RBool false].

(** One period delivered, then a starved turn of the loop during whose
    poll the flag is cleared. *)
Definition stopped_while_starved : list response :=
  session_answers 480 10000000 ++ delivered 0
  ++ [ RBool true;            (* active_, line 290 *)
       RDword WAIT_OBJECT_0;  (* WaitForSingleObject *)
       RBool true;            (* active_, line 314 *)
       RHrVal S_OK 100000;    (* GetPosition *)
       RBool false;           (* getPlayerChunk: no chunk *)
       RHr S_OK;              (* Stop *)
       RHr S_OK;              (* Reset *)
       RBool true;            (* active_, line 343 *)
       RBool false;           (* waitForChunk: nothing yet *)
       RBool false;           (* active_, line 343: cleared *)
       RHr S_OK;              (* Start *)
       RBool false ].         (* active_, line 290 *)

(** Two periods delivered, then a pacing wait that times out
    ([WAIT_TIMEOUT] is 258), the stream having data at the first poll;
    the trailing answers are never asked for. *)
Definition timed_out : list response :=
  session_answers 480 10000000 ++ delivered 0 ++ delivered 100000
  ++ [ RBool true;   (* active_, line 290 *)
       RDword 258;   (* WaitForSingleObject: WAIT_TIMEOUT *)
       RHr S_OK;     (* Stop *)
       RHr S_OK;     (* Reset *)
       RBool true;   (* active_, line 304 *)
       RBool true;   (* waitForChunk: data *)
       RHr S_OK ]    (* Start *)
  ++ delivered 200000.

(** The default device, whose first [Initialize] answers
    [AUDCLNT_E_BUFFER_SIZE_NOT_ALIGNED]; the flag is cleared before the
    first period. *)
Definition unaligned_buffer : list response :=
  [ RHr S_OK;            (* CoCreateInstance *)
    RHr S_OK;            (* GetDefaultAudioEndpoint *)
    RHr S_OK;            (* Activate *)
    RHr S_OK;            (* IsFormatSupported *)
    RHr S_OK;            (* GetDevicePeriod *)
    RHr 0x88890019;      (* Initialize *)
    RHrVal S_OK 512;     (* GetBufferSize, line 231 *)
    RHr S_OK;            (* Activate, line 235 *)
    RHr S_OK;            (* Initialize, line 237 *)
    RHandle 1;           (* CreateEvent *)
    RHr S_OK;            (* SetEventHandle *)
    RHrVal S_OK 512;     (* GetBufferSize, line 256 *)
    RHr S_OK;            (* GetService, render client *)
    RHr S_OK;            (* GetService, clock *)
    RHandle 1;           (* AvSetMmThreadCharacteristics *)
    RHr S_OK;            (* Start *)
    RHrVal S_OK 10000000; (* GetFrequency *)
    RBool false ].       (* active_, line 290 *)

(** A starved turn of the loop in which [Stop] fails. *)
Definition stop_fails : list response :=
  session_answers 480 10000000
  ++ [ RBool true; RDword WAIT_OBJECT_0; RBool true; RHrVal S_OK 0;
       RBool false;      (* getPlayerChunk: no chunk *)
       RHr 0x80004005;   (* Stop: E_FAIL *)
       RHr S_OK ].       (* never asked for *)

(** One period delivered with the clock at 100000 ticks; in the second
    period [GetPosition] fails with [AUDCLNT_E_DEVICE_INVALIDATED] and
    leaves in [position] the 100000 ticks of the period before; the
    chunk is requested and delivered all the same, and [GetBuffer] then
    fails. *)
Definition stale_position : list response :=
  session_answers 480 10000000 ++ delivered 100000
  ++ [ RBool true;                 (* active_, line 290 *)
       RDword WAIT_OBJECT_0;       (* WaitForSingleObject *)
       RBool true;                 (* active_, line 314 *)
       RHrVal 0x88890004 100000;   (* GetPosition: failed, nothing stored *)
       RBool true;                 (* getPlayerChunk *)
       RHr 0x88890004 ].           (* GetBuffer: failed *)
(** * Part I, continued: further vocabulary for the worker *)

(** ** The stream of the audio client *)

(** Whether the calls of a trace keep to the order the audio client asks
    for: [Start] on a stopped stream, [Stop] on a started one, [Reset]
    while stopped, the pacing wait, the chunk request and the commit
    while started, the poll of the stream while stopped.  [started] says
    how the calls so far have left the stream; a call that fails leaves
    it as it was. *)
Fixpoint keeps_stream_order (started : bool) (tr : list event) : bool :=
  match tr with
  | [] => true
  | Called Start (RHr hr) :: tr' =>
      negb started &&
      keeps_stream_order (if FAILED hr then started else true) tr'
  | Called Stop (RHr hr) :: tr' =>
      started && keeps_stream_order (if FAILED hr then started else false) tr'
  | Called Reset _ :: tr' => negb started && keeps_stream_order started tr'
  | Called (WaitForChunk _) _ :: tr' =>
      negb started && keeps_stream_order started tr'
  | Called (WaitForSingleObject _) _ :: tr'
  | Called (GetPlayerChunk _ _) _ :: tr'
  | Called (GetBuffer _) _ :: tr'
  | Called (ReleaseBuffer _ _) _ :: tr' =>
      started && keeps_stream_order started tr'
  | _ :: tr' => keeps_stream_order started tr'
  end.

(** How the calls of a trace leave the stream. *)
Definition stream_started (tr : list event) : bool :=
  fold_left
    (fun started e =>
       match e with
       | Called Start (RHr hr) => if FAILED hr then started else true
       | Called Stop (RHr hr) => if FAILED hr then started else false
       | _ => started
       end)
    tr false.

(** The phases in which the stream is started. *)
Definition started_at (p : phase) : bool :=
  match p with
  | AtInitPosition | AtGetFrequency
  | AtLoopTop | AtWait | AtTimeoutLog | AtDoubleCheck | AtGetPosition
  | AtGetPlayerChunk | AtAdjustVolume | AtGetBuffer | AtMemcpy
  | AtReleaseBuffer | AtAdvance | AtSeverityTag | AtFailedLog
  | AtStop _ | AtRewind _ | Returned | Crashed => true
  | _ => false
  end.

(** The phases in which the worker has ended. *)
Definition ended (p : phase) : bool :=
  match p with Returned | Thrown _ _ | Crashed => true | _ => false end.

(** ** How a run ends *)

(** The phases of the recovery from a pacing timeout. *)
Definition in_timeout_branch (p : phase) : bool :=
  match p with
  | AtTimeoutLog | AtStop OnTimeout | AtReset OnTimeout | AtPoll OnTimeout
  | AtWaitForChunk OnTimeout | AtWaitingLog OnTimeout | AtRestart OnTimeout
  | AtRewind OnTimeout => true
  | _ => false
  end.

(** The lines of the [CHECK_HR] that look at what a call has answered. *)
Definition check_lines (c : call) : list Z :=
  match c with
  | CoCreateInstance => [186]
  | GetDefaultAudioEndpoint => [193]
  | EnumAudioEndpoints => [199]
  | Activate => [207; 236]
  | IsFormatSupported => [213]
  | GetDevicePeriod => [218]
  | Initialize => [245]
  | GetBufferSize => [232; 257]
  | CreateEvent => [250]
  | SetEventHandle => [252]
  | GetService IID_IAudioRenderClient => [264]
  | GetService IID_IAudioClock => [271]
  | AvSetMmThreadCharacteristics => [278]
  | Start => [282; 308; 347]
  | Stop => [300; 339]
  | Reset => [302; 341]
  | GetBuffer _ => [326]
  | ReleaseBuffer _ _ => [329]
  | _ => []
  end.

(** The calls on the clock, whose [HRESULT] the worker does not look at
    (lines 288 and 317). *)
Definition unchecked (c : call) : bool :=
  match c with
  | GetFrequency | GetPosition => true
  | _ => false
  end.

(** ** The choice of the device *)

Definition is_default_endpoint (e : event) : bool :=
  match e with Called GetDefaultAudioEndpoint _ => true | _ => false end.

Definition is_enumeration (e : event) : bool :=
  match e with
  | Called EnumAudioEndpoints _ | Called (Item _) _ => true
  | _ => false
  end.

(** ** Periods *)

(** The periods committed since the stream was last started. *)
Definition committed_periods (tr : list event) : Z :=
  fold_left
    (fun n e =>
       match e with
       | Called Start _ => 0
       | Called (ReleaseBuffer _ _) (RHr hr) => if FAILED hr then n else n + 1
       | _ => n
       end)
    tr 0.

(** The phases in which [bufferPosition] counts the periods committed
    since the last start: all but the two between a commit or a restart
    and the assignment that follows it, and the end by an exception. *)
Definition synced (p : phase) : bool :=
  match p with
  | AtAdvance | AtRewind _ | Thrown _ _ => false
  | _ => true
  end.

(** The phases after the client has been initialised. *)
Definition initialized (p : phase) : bool :=
  match p with
  | AtCoCreateInstance | AtEndpoint | AtItem | AtActivate
  | AtIsFormatSupported | AtGetDevicePeriod | AtInitialize | AtAlignedSize
  | AtAlignedActivate | AtInitializeAligned => false
  | _ => true
  end.

(** ** Further scripts *)

(** A clock that reports the frequency 0: the first period reads the
    clock position and goes no further. *)
Definition silent_clock : list response :=
  session_answers 480 0
  ++ [ RBool true;            (* active_, line 290 *)
       RDword WAIT_OBJECT_0;  (* WaitForSingleObject *)
       RBool true;            (* active_, line 314 *)
       RHrVal S_OK 1000;      (* GetPosition *)
       RBool true ].          (* never asked for *)

(** The device a user has chosen from the list, every call succeeding;
    the flag is cleared before the first period. *)
Definition chosen_device : list response :=
  [ RHr S_OK;            (* CoCreateInstance *)
    RHr S_OK;            (* EnumAudioEndpoints *)
    RHr S_OK ]           (* Item *)
  ++ skipn 2 (session_answers 480 10000000)
  ++ [ RBool false ].    (* active_, line 290 *)

(** * The list of devices

    [WASAPIPlayer::pcm_list] (lines 101-151) and [convertToDevice]
    (lines 75-99), embedded like the worker: the calls to the device
    enumerator, the devices and their property stores are events, and
    what they answer is read from a script.  As in the worker, a call
    through an interface pointer is answered by the script whatever the
    calls before it have stored in the pointer. *)

Module PcmList.

(** A wide string, as the code units before the terminating zero. *)
Definition wstring : Type := list Z.

(** The device a method is called on: the one
    [GetDefaultAudioEndpoint] has stored, or the one [devices->Item(i)]
    has. *)
Inductive device := DefaultEndpoint | Enumerated (i : Z).

(** The calls whose result [pcm_list] and [convertToDevice] receive;
    [GetValue d] is the call on the property store of [d], for
    [PKEY_Device_FriendlyName]. *)
Inductive call :=
| CoInitializeEx
| CoCreateInstance
| EnumAudioEndpoints
| GetCount
| GetDefaultAudioEndpoint
| Item (i : Z)
| GetId (d : device)
| OpenPropertyStore (d : device)
| GetValue (d : device).

(** What is answered: an [HRESULT], alone, with the [UINT] count, or
    with the string pointer stored ([None] for [NULL]). *)
Inductive response :=
| RHr (hr : Z)
| RCount (hr : Z) (n : Z)
| RString (hr : Z) (s : option wstring).

(** [Freed d] is [CoTaskMemFree(id)] of line 97, for the id of [d]. *)
Inductive event :=
| Called (c : call) (r : response)
| Freed (d : device).

(** Modelled from the spec: [PcmDevice] is declared in
    player/pcm_device.hpp, which is not under src/; the record has the
    three fields that lines 93-95 assign, [idx] being an [int]. *)
Record PcmDevice := { idx : Z; name : string; description : string }.

(** What the two functions raise: the [SnapException] of [CHECK_HR]
    with its [HRESULT] and line, the [SnapException] of line 127, and
    the [std::range_error] of a conversion that fails. *)
Inductive exception :=
| HresultFault (hr line : Z)
| NoValidDevices
| RangeError.

Inductive result (A : Type) :=
| Value (a : A)
| Raise (x : exception)
| Undefined                 (* a [NULL] string is converted *)
| NoAnswer.                 (* the script ends or answers another call *)

Arguments Value {A} a.
Arguments Raise {A} x.
Arguments Undefined {A}.
Arguments NoAnswer {A}.

Record world := World { input : list response; log : list event }.

Definition L (A : Type) : Type := world -> result A * world.

Definition ret {A} (a : A) : L A := fun w => (Value a, w).

Definition bind {A B} (m : L A) (k : A -> L B) : L B :=
  fun w =>
    match m w with
    | (Value a, w') => k a w'
    | (Raise x, w') => (Raise x, w')
    | (Undefined, w') => (Undefined, w')
    | (NoAnswer, w') => (NoAnswer, w')
    end.

Declare Scope pcm_scope.

Notation "x <- m ;; k" := (bind m (fun x => k))
  (at level 61, m at next level, right associativity) : pcm_scope.
Notation "m ;; k" := (bind m (fun _ => k))
  (at level 61, right associativity) : pcm_scope.

Local Open Scope pcm_scope.

Definition raise {A} (x : exception) : L A := fun w => (Raise x, w).
Definition undefined {A} : L A := fun w => (Undefined, w).

Definition freed (d : device) : L unit :=
  fun w => (Value tt, World (input w) (Freed d :: log w)).

Definition call_hr (c : call) : L Z :=
  fun w =>
    match input w with
    | RHr hr :: s => (Value hr, World s (Called c (RHr hr) :: log w))
    | _ => (NoAnswer, w)
    end.

Definition call_count (c : call) : L (Z * Z) :=
  fun w =>
    match input w with
    | RCount hr n :: s =>
        (Value (hr, u32 n), World s (Called c (RCount hr n) :: log w))
    | _ => (NoAnswer, w)
    end.

Definition call_string (c : call) : L (Z * option wstring) :=
  fun w =>
    match input w with
    | RString hr p :: s =>
        (Value (hr, p), World s (Called c (RString hr p) :: log w))
    | _ => (NoAnswer, w)
    end.

(** Line 59, as in the worker. *)
Definition CHECK_HR (hres line : Z) : L unit :=
  if FAILED hres then raise (HresultFault hres line) else ret tt.

(** Modelled from the spec: [CO_E_ALREADYINITIALIZED] is [0x800401F1]
    as an [HRESULT] (winerror.h, not under src/). *)
Definition CO_E_ALREADYINITIALIZED : Z := to_int32 0x800401F1.

Section Conversion.

(** [wstring_convert<codecvt_utf8<wchar_t>, wchar_t>().to_bytes], of the
    C++ library: the bytes of a wide string, or [None] where it throws
    [std::range_error]. *)
Variable to_bytes : wstring -> option string.

(** [to_bytes(p)] for a pointer [p]. *)
Definition convert (p : option wstring) : L string :=
  match p with
  | None => undefined
  | Some w =>
      match to_bytes w with
      | Some s => ret s
      | None => raise RangeError
      end
  end.

(** Lines 75-99.  The result of [OpenPropertyStore] (line 85) is not
    looked at.  When it fails [properties] stays [NULL], and the call
    through it in line 90 raises the [_com_error] of the smart pointer,
    which is no outcome of this embedding: what it says of a run holds up
    to a failed [OpenPropertyStore] and not beyond. *)
Definition convertToDevice (idx : Z) (d : device) : L PcmDevice :=
  id <- call_string (GetId d) ;;
  CHECK_HR (fst id) 82 ;;
  _ <- call_hr (OpenPropertyStore d) ;;
  deviceName <- call_string (GetValue d) ;;
  CHECK_HR (fst deviceName) 91 ;;
  name <- convert (snd id) ;;
  description <- convert (snd deviceName) ;;
  freed d ;;
  ret {| idx := idx; name := name; description := description |}.

(** Lines 140-147: [for (UINT i = 0; i < deviceCount; ++i)], with
    [todo] turns to go from [i]. *)
Fixpoint enumerate (todo : nat) (i : Z) (deviceList : list PcmDevice)
  : L (list PcmDevice) :=
  match todo with
  | O => ret deviceList
  | S todo' =>
      hr <- call_hr (Item i) ;;
      CHECK_HR hr 146 ;;
      dev <- convertToDevice (to_int32 (u32 (i + 1))) (Enumerated i) ;;
      enumerate todo' (u32 (i + 1)) (deviceList ++ [dev])
  end.

(** Lines 101-151.  The result of [GetCount] (line 124) is not looked
    at. *)
Definition pcm_list : L (list PcmDevice) :=
  hr <- call_hr CoInitializeEx ;;
  (if to_int32 hr =? CO_E_ALREADYINITIALIZED then ret tt
   else CHECK_HR hr 112) ;;
  hr <- call_hr CoCreateInstance ;;
  CHECK_HR hr 118 ;;
  hr <- call_hr EnumAudioEndpoints ;;
  CHECK_HR hr 121 ;;
  count <- call_count GetCount ;;
  let deviceCount := snd count in
  if deviceCount =? 0 then raise NoValidDevices
  else
    hr <- call_hr GetDefaultAudioEndpoint ;;
    CHECK_HR hr 134 ;;
    dev <- convertToDevice 0 DefaultEndpoint ;;
    let dev := {| idx := idx dev; name := "default";
                  description := description dev |} in
    enumerate (Z.to_nat deviceCount) 0 [dev].

(** A call of [pcm_list] against a script: how it ends and the events
    in the order they happened. *)
Definition listing (script : list response)
  : result (list PcmDevice) * list event :=
  let (r, w) := pcm_list (World script []) in (r, rev (log w)).

(** *** [pcm_list] as a state machine over its events

    The control points of [pcm_list] and [convertToDevice], with what
    is held there: [AtOpenPropertyStore] and [AtGetValue] hold the id
    pointer, [AtFree] the two converted strings. *)

Inductive phase :=
| AtCoInitializeEx | AtCoCreateInstance | AtEnumAudioEndpoints | AtGetCount
| AtGetDefaultAudioEndpoint
| AtGetId (d : device)
| AtOpenPropertyStore (d : device) (id : option wstring)
| AtGetValue (d : device) (id : option wstring)
| AtFree (d : device) (name description : string)
| AtItem (i : Z)
| Returned | Raised (x : exception) | Crashed.

Record machine := Machine {
  pc : phase;
  deviceCount : Z;
  deviceList : list PcmDevice
}.

Definition initial : machine := Machine AtCoInitializeEx 0 [].

Definition goto (p : phase) (m : machine) : machine :=
  Machine p (deviceCount m) (deviceList m).

Definition checked (hr line : Z) (next : phase) : phase :=
  if FAILED hr then Raised (HresultFault hr line) else next.

Definition device_eqb (a b : device) : bool :=
  match a, b with
  | DefaultEndpoint, DefaultEndpoint => true
  | Enumerated i, Enumerated j => i =? j
  | _, _ => false
  end.

(** Where the two conversions of lines 94-95 lead. *)
Definition converted (d : device) (id deviceName : option wstring) : phase :=
  match id with
  | None => Crashed
  | Some w1 =>
      match to_bytes w1 with
      | None => Raised RangeError
      | Some name =>
          match deviceName with
          | None => Crashed
          | Some w2 =>
              match to_bytes w2 with
              | None => Raised RangeError
              | Some description => AtFree d name description
              end
          end
      end
  end.

(** The turn of the loop that comes next, if any. *)
Definition next_item (i count : Z) : phase :=
  if i <? count then AtItem i else Returned.

Definition step (m : machine) (e : event) : option machine :=
  match pc m with
  | AtCoInitializeEx =>
      match e with
      | Called CoInitializeEx (RHr hr) =>
          Some (goto (if to_int32 hr =? CO_E_ALREADYINITIALIZED
                      then AtCoCreateInstance
                      else checked hr 112 AtCoCreateInstance) m)
      | _ => None
      end
  | AtCoCreateInstance =>
      match e with
      | Called CoCreateInstance (RHr hr) =>
          Some (goto (checked hr 118 AtEnumAudioEndpoints) m)
      | _ => None
      end
  | AtEnumAudioEndpoints =>
      match e with
      | Called EnumAudioEndpoints (RHr hr) =>
          Some (goto (checked hr 121 AtGetCount) m)
      | _ => None
      end
  | AtGetCount =>
      match e with
      | Called GetCount (RCount _ n) =>
          Some (Machine (if u32 n =? 0 then Raised NoValidDevices
                         else AtGetDefaultAudioEndpoint)
                  (u32 n) (deviceList m))
      | _ => None
      end
  | AtGetDefaultAudioEndpoint =>
      match e with
      | Called GetDefaultAudioEndpoint (RHr hr) =>
          Some (goto (checked hr 134 (AtGetId DefaultEndpoint)) m)
      | _ => None
      end
  | AtGetId d =>
      match e with
      | Called (GetId d') (RString hr id) =>
          if device_eqb d' d
          then Some (goto (checked hr 82 (AtOpenPropertyStore d id)) m)
          else None
      | _ => None
      end
  | AtOpenPropertyStore d id =>
      match e with
      | Called (OpenPropertyStore d') (RHr _) =>
          if device_eqb d' d then Some (goto (AtGetValue d id) m) else None
      | _ => None
      end
  | AtGetValue d id =>
      match e with
      | Called (GetValue d') (RString hr deviceName) =>
          if device_eqb d' d
          then Some (goto (checked hr 91 (converted d id deviceName)) m)
          else None
      | _ => None
      end
  | AtFree d name description =>
      match e with
      | Freed d' =>
          if device_eqb d' d then
            match d with
            | DefaultEndpoint =>
                Some (Machine (next_item 0 (deviceCount m)) (deviceCount m)
                        [ {| idx := 0; name := "default";
                             description := description |} ])
            | Enumerated i =>
                Some (Machine (next_item (u32 (i + 1)) (deviceCount m))
                        (deviceCount m)
                        (deviceList m
                         ++ [ {| idx := to_int32 (u32 (i + 1)); name := name;
                                 description := description |} ]))
            end
          else None
      | _ => None
      end
  | AtItem i =>
      match e with
      | Called (Item i') (RHr hr) =>
          if i' =? i
          then Some (goto (checked hr 146 (AtGetId (Enumerated i))) m)
          else None
      | _ => None
      end
  | Returned => None
  | Raised _ => None
  | Crashed => None
  end.

(** The machine after a trace, oldest event first. *)
Fixpoint exec (m : machine) (tr : list event) : option machine :=
  match tr with
  | [] => Some m
  | e :: tr' =>
      match step m e with
      | Some m' => exec m' tr'
      | None => None
      end
  end.

(** The machine after a log, newest event first. *)
Fixpoint track (lg : list event) : option machine :=
  match lg with
  | [] => Some initial
  | e :: lg' =>
      match track lg' with
      | Some m => step m e
      | None => None
      end
  end.

(** The phases in which an answer is waited for. *)
Definition awaits (p : phase) : bool :=
  match p with
  | AtFree _ _ _ | Returned | Raised _ | Crashed => false
  | _ => true
  end.

(** How a computation that stops in the machine state [m] ends. *)
Definition ends {A} (r : result A) (m : machine) (on_value : A -> Prop)
  : Prop :=
  match r with
  | Value a => on_value a
  | Raise x => pc m = Raised x
  | Undefined => pc m = Crashed
  | NoAnswer => awaits (pc m) = true
  end.

(** How [pcm_list] ends in the machine state [m]. *)
Definition ends_as (r : result (list PcmDevice)) (m : machine) : Prop :=
  ends r m (fun devs => pc m = Returned /\ deviceList m = devs).

End Conversion.

(** *** Reading a trace of [pcm_list] *)

(** The devices whose id has been obtained, and those whose id has been
    freed, in order. *)
Fixpoint obtained (tr : list event) : list device :=
  match tr with
  | [] => []
  | Called (GetId d) (RString hr _) :: tr' =>
      if FAILED hr then obtained tr' else d :: obtained tr'
  | _ :: tr' => obtained tr'
  end.

Fixpoint released (tr : list event) : list device :=
  match tr with
  | [] => []
  | Freed d :: tr' => d :: released tr'
  | _ :: tr' => released tr'
  end.

(** The device a phase of [convertToDevice] is about. *)
Definition converting (p : phase) : option device :=
  match p with
  | AtGetId d | AtOpenPropertyStore d _ | AtGetValue d _ | AtFree d _ _ =>
      Some d
  | _ => None
  end.

(** The turn of the loop of lines 140-147 a phase belongs to. *)
Definition at_turn (p : phase) : option Z :=
  match p with
  | AtItem i => Some i
  | _ =>
      match converting p with
      | Some (Enumerated i) => Some i
      | _ => None
      end
  end.

(** The phases in which the device count has been read and found not
    to be zero. *)
Definition counted (p : phase) : bool :=
  match p with
  | AtCoInitializeEx | AtCoCreateInstance | AtEnumAudioEndpoints
  | AtGetCount | Raised _ | Crashed => false
  | _ => true
  end.

(** The phases before the descriptor of the default device is stored. *)
Definition before_default (p : phase) : bool :=
  match p with
  | AtCoInitializeEx | AtCoCreateInstance | AtEnumAudioEndpoints
  | AtGetCount | AtGetDefaultAudioEndpoint => true
  | _ =>
      match converting p with
      | Some DefaultEndpoint => true
      | _ => false
      end
  end.

(** The phases in which an id has been obtained and not yet freed. *)
Definition holds_id (p : phase) : option device :=
  match p with
  | AtOpenPropertyStore d _ | AtGetValue d _ | AtFree d _ _ => Some d
  | _ => None
  end.

(** The count [GetCount] has stored, as a trace tells it. *)
Definition counted_devices (tr : list event) : Z :=
  fold_left
    (fun n e => match e with Called GetCount (RCount _ v) => u32 v | _ => n end)
    tr 0.

(** The device behind the entry at position [k] of the list: the default
    one first, then the items of the enumeration in order. *)
Definition device_of_entry (k : nat) : device :=
  match k with
  | O => DefaultEndpoint
  | S j => Enumerated (Z.of_nat j)
  end.

(** What a trace tells about a name and a description: they are the
    conversions of the id and of the friendly name that device [d] has
    answered with. *)
Definition read_from (to_bytes : wstring -> option string) (tr : list event)
  (d : device) (name description : string) : Prop :=
  exists hr1 w1 hr2 w2,
    In (Called (GetId d) (RString hr1 (Some w1))) tr /\
    to_bytes w1 = Some name /\
    In (Called (GetValue d) (RString hr2 (Some w2))) tr /\
    to_bytes w2 = Some description.

(** The ids that are obtained and not freed when a phase is reached:
    one while a device is converted past [GetId], and one where
    [convertToDevice] is left by the exception of line 91 or in a
    conversion. *)
Definition owed (p : phase) : nat :=
  match p with
  | AtOpenPropertyStore _ _ | AtGetValue _ _ | AtFree _ _ _ => 1
  | Raised (HresultFault _ line) => if line =? 91 then 1 else 0
  | Raised RangeError | Crashed => 1
  | _ => 0
  end.

(** The lines of the [CHECK_HR] that look at what a call has answered. *)
Definition check_line (c : call) : option Z :=
  match c with
  | CoInitializeEx => Some 112
  | CoCreateInstance => Some 118
  | EnumAudioEndpoints => Some 121
  | GetDefaultAudioEndpoint => Some 134
  | Item _ => Some 146
  | GetId _ => Some 82
  | GetValue _ => Some 91
  | GetCount | OpenPropertyStore _ => None
  end.

(** The [HRESULT] of an answer. *)
Definition hresult (r : response) : Z :=
  match r with RHr hr | RCount hr _ | RString hr _ => hr end.

(** A conversion that takes the code units below 128 for characters and
    throws on every other string. *)
Definition ascii_bytes (w : wstring) : option string :=
  if forallb (fun c => (0 <=? c) && (c <? 128)) w
  then Some (string_of_list_ascii
               (map (fun c => Ascii.ascii_of_N (Z.to_N c)) w))
  else None.

(** Two devices besides the default one, all calls succeeding; the
    devices are named by single letters. *)
Definition two_devices : list response :=
  [ RHr S_OK;                    (* CoInitializeEx *)
    RHr S_OK;                    (* CoCreateInstance *)
    RHr S_OK;                    (* EnumAudioEndpoints *)
    RCount S_OK 2;               (* GetCount *)
    RHr S_OK;                    (* GetDefaultAudioEndpoint *)
    RString S_OK (Some [97]);    (* GetId *)
    RHr S_OK;                    (* OpenPropertyStore *)
    RString S_OK (Some [65]);    (* GetValue *)
    RHr S_OK;                    (* Item 0 *)
    RString S_OK (Some [97]);    (* GetId *)
    RHr S_OK;                    (* OpenPropertyStore *)
    RString S_OK (Some [65]);    (* GetValue *)
    RHr S_OK;                    (* Item 1 *)
    RString S_OK (Some [98]);    (* GetId *)
    RHr 0x80004005;              (* OpenPropertyStore: E_FAIL *)
    RString S_OK (Some [66]) ].  (* GetValue *)

(** An enumeration without devices, [GetCount] answering 0. *)
Definition no_devices : list response :=
  [ RHr 0x800401F1;   (* CoInitializeEx: CO_E_ALREADYINITIALIZED *)
    RHr S_OK;         (* CoCreateInstance *)
    RHr S_OK;         (* EnumAudioEndpoints *)
    RCount S_OK 0;    (* GetCount *)
    RHr S_OK ].       (* never asked for *)

(** The friendly name of the first enumerated device cannot be read. *)
Definition name_unreadable : list response :=
  [ RHr S_OK; RHr S_OK; RHr S_OK; RCount S_OK 1; RHr S_OK;
    RString S_OK (Some [97]); RHr S_OK; RString S_OK (Some [65]);
    RHr S_OK;                    (* Item 0 *)
    RString S_OK (Some [97]);    (* GetId *)
    RHr S_OK;                    (* OpenPropertyStore *)
    RString 0x80004005 None ].   (* GetValue: E_FAIL *)

End PcmList.

(** * The text of an [HRESULT] fault (line 59)

    [ss << "HRESULT fault status: " << hex << (hres) << " line " << dec
        << __LINE__ << endl], the text the [SnapException] of [CHECK_HR]
    is built with.  [hres] is a 32-bit [long]: with [hex] its bit
    pattern is written, in lower-case digits without a prefix; the line
    is an [int] written in decimal; [endl] writes a line feed. *)

From Stdlib Require DecimalString HexadecimalString DecimalZ HexadecimalN.

Definition hex (v : Z) : string :=
  HexadecimalString.NilZero.string_of_uint (N.to_hex_uint (Z.to_N v)).

Definition dec (v : Z) : string :=
  DecimalString.NilZero.string_of_int (Z.to_int v).

Definition endl : string := String (Ascii.ascii_of_nat 10) EmptyString.

Definition fault_text (hres line : Z) : string :=
  ("HRESULT fault status: " ++ hex (u32 hres) ++ " line " ++ dec line
   ++ endl)%string.

Definition blank : Ascii.ascii := Ascii.ascii_of_nat 32.

(** The strings without a blank, such as the digits of [hex]. *)
Fixpoint blankless (s : string) : bool :=
  match s with
  | EmptyString => true
  | String c s' => negb (Ascii.eqb c blank) && blankless s'
  end.

(** * Part II: properties *)

(** ** Arithmetic *)

Lemma u64_range z : 0 <= u64 z < 2 ^ 64.
Proof. unfold u64. apply Z.mod_pos_bound. lia. Qed.

Lemma u64_small z : 0 <= z < 2 ^ 64 -> u64 z = z.
Proof. intros H. unfold u64. apply Z.mod_small. exact H. Qed.

(** A signed value in range survives the trip through the 64-bit
    pattern. *)
Lemma to_int64_u64 z : - 2 ^ 63 <= z < 2 ^ 63 -> to_int64 (u64 z) = z.
Proof.
  intros H. unfold to_int64, u64. rewrite Z.mod_mod by lia.
  destruct (Z_lt_le_dec z 0) as [Hn | Hp].
  - assert (E : z mod 2 ^ 64 = z + 2 ^ 64).
    { symmetry. apply (Z.mod_unique_pos z (2 ^ 64) (-1)); lia. }
    rewrite E. destruct (Z.ltb_spec (z + 2 ^ 64) (2 ^ 63)); lia.
  - rewrite Z.mod_small by lia.
    destruct (Z.ltb_spec z (2 ^ 63)); lia.
Qed.

Lemma term_nonneg x d : 0 < d -> 0 <= term x d.
Proof.
  intros Hd. unfold term. pose proof (u64_range (x * 1000000)).
  apply Z.div_pos; lia.
Qed.

Lemma term_exact x d :
  0 <= x -> x * 1000000 < 2 ^ 64 -> term x d = x * 1000000 / d.
Proof. intros H0 H1. unfold term. rewrite u64_small; [reflexivity | lia]. Qed.

Lemma drift_us_defined bp sr pos fr :
  0 < sr -> 0 < fr ->
  drift_us bp sr pos fr = Some (microseconds (drift_u64 bp sr pos fr)).
Proof.
  intros Hs Hf. unfold drift_us.
  destruct (Z.eqb_spec sr 0); [lia |].
  destruct (Z.eqb_spec fr 0); [lia |]. reflexivity.
Qed.

(** The subtraction wraps modulo [2 ^ 64] and the conversion to the
    signed count undoes the wrap when the difference fits. *)
Lemma drift_us_difference bp sr pos fr :
  0 < sr -> 0 < fr ->
  - 2 ^ 63 <= term bp sr - term pos fr < 2 ^ 63 ->
  drift_us bp sr pos fr = Some (term bp sr - term pos fr).
Proof.
  intros Hs Hf Hr. rewrite drift_us_defined by assumption.
  unfold microseconds, drift_u64. now rewrite to_int64_u64.
Qed.

(** ** Every run is a path of the machine *)

Section Refinement.

(** The stream format and the configured device are fixed during a
    session. *)
Variables (fmt : SampleFormat) (idx : Z).

(** Closes a goal [run = _ /\ length _ /\ track _ = _ /\ ends _ _ _] once
    the outcome and the phase are given; [H] is the machine before. *)
Ltac settle H :=
  split; [reflexivity |];
  split; [cbn; lia |];
  split; [cbn; rewrite ?H; cbn; reflexivity | cbn; auto].

Lemma wait_for_chunk_refines b :
  forall fuel inp lg m,
    (List.length inp < fuel)%nat ->
    track fmt idx lg = Some m -> pc m = AtPoll b ->
    exists r inp' lg' p,
      wait_for_chunk fuel (World inp lg) = (r, World inp' lg') /\
      (List.length inp' <= List.length inp)%nat /\
      track fmt idx lg' = Some (goto p m) /\
      ends r p (fun _ => p = AtRestart b).
Proof.
  induction fuel as [| fuel IH]; intros inp lg m Hlen Htr Hpc; [inversion Hlen |].
  destruct m as [p0 bfc fr pos bp]; cbn in Hpc; subst p0.
  cbn. unfold bind, call_bool. cbn.
  destruct inp as [| [[|] | ? | ? | ? | ? ?] inp]; cbn;
    try solve [eexists NoAnswer, _, _, (AtPoll b); settle Htr].
  - destruct inp as [| [[|] | ? | ? | ? | ? ?] inp]; cbn;
      try solve [eexists NoAnswer, _, _, (AtWaitForChunk b); settle Htr].
    + eexists (Ret tt), _, _, (AtRestart b); settle Htr.
    + unfold do; cbn.
      edestruct (IH inp (Did (Log "Waiting for chunk")
                        :: Called (WaitForChunk 100) (RBool false)
                        :: Called Active (RBool true) :: lg))
        as (r & inp' & lg' & p & E & Hl & Ht & He).
      * cbn in Hlen. lia.
      * cbn. rewrite Htr. cbn. reflexivity.
      * reflexivity.
      * exists r, inp', lg', p. rewrite E. cbn in *. repeat split; auto.
  - eexists (Ret tt), _, _, (AtRestart b); settle Htr.
Qed.

(** Closes a goal [run = _ /\ length _ /\ track _ = Some _ /\ post] once
    the outcome is given; [H] is the machine before. *)
Ltac use_checks :=
  repeat (progress
            (cbn; unfold checked; rewrite ?Z.eqb_refl;
             repeat match goal with
               | F : FAILED _ = _ |- _ => rewrite F
               | F : (_ =? _) = _ |- _ => rewrite F
               | F : drift_us _ _ _ _ = _ |- _ => rewrite F
               end)).

Ltac arrive H :=
  split; [reflexivity |];
  split; [cbn in *; lia |];
  split;
  [ cbn; rewrite ?H; use_checks; reflexivity
  | use_checks; auto ].

Lemma recover_refines b fuel st inp lg m :
  (List.length inp < fuel)%nat ->
  track fmt idx lg = Some m -> pc m = AtStop b ->
  exists r inp' lg' m',
    recover fuel (stop_line b) (reset_line b) (start_line b) st (World inp lg)
    = (r, World inp' lg') /\
    (List.length inp' <= List.length inp)%nat /\
    track fmt idx lg' = Some m' /\
    m_bufferFrameCount m' = m_bufferFrameCount m /\
    m_frequency m' = m_frequency m /\
    ends r (pc m')
      (fun st' =>
         pc m' = match b with OnTimeout => Returned | OnStarvation => AtLoopTop end
         /\ m_bufferPosition m' = 0 /\ bufferPosition st' = 0).
Proof.
  intros Hlen Htr Hpc.
  destruct m as [p0 bfc fr pos bp]; cbn in Hpc; subst p0.
  unfold recover, bind, call_hr, CHECK_HR. cbn.
  destruct inp as [| [? | ? | ? | hr | ? ?] inp]; cbn;
    try solve [eexists NoAnswer, _, _, _; arrive Htr].
  destruct (FAILED hr) eqn:F1; cbn;
    [eexists (Throw _ _), _, _, _; arrive Htr |].
  destruct inp as [| [? | ? | ? | hr2 | ? ?] inp]; cbn;
    try solve [eexists NoAnswer, _, _, _; arrive Htr].
  destruct (FAILED hr2) eqn:F2; cbn;
    [eexists (Throw _ _), _, _, _; arrive Htr |].
  edestruct (wait_for_chunk_refines b fuel inp
               (Called Reset (RHr hr2) :: Called Stop (RHr hr) :: lg))
    as (r & inp' & lg' & p & E & Hl & Ht & He).
  { cbn in Hlen. lia. }
  { cbn. rewrite Htr. use_checks. reflexivity. }
  { reflexivity. }
  rewrite E. cbn in Ht.
  destruct r as [[] | | | |]; cbn in He; try contradiction;
    try solve [eexists _, _, _, _; arrive Ht].
  subst p. unfold do.
  destruct inp' as [| [? | ? | ? | hr3 | ? ?] inp']; cbn;
    try solve [eexists NoAnswer, _, _, _; arrive Ht].
  destruct (FAILED hr3) eqn:F3; cbn;
    [eexists (Throw _ _), _, _, _; arrive Ht |].
  eexists (Ret _), _, _, _. arrive Ht.
Qed.

Lemma iteration_refines fuel s st inp lg m :
  (List.length inp < fuel)%nat ->
  track fmt idx lg = Some m -> pc m = AtWait -> agree fmt s st m ->
  exists r inp' lg' m',
    iteration fuel s st (World inp lg) = (r, World inp' lg') /\
    (List.length inp' <= List.length inp)%nat /\
    track fmt idx lg' = Some m' /\
    ends r (pc m')
      (fun c =>
         match c with
         | Continue st' => pc m' = AtLoopTop /\ agree fmt s st' m'
         | Break _ => pc m' = Returned
         end).
Proof.
  intros Hlen Htr Hpc (Hsr & Hsz & Hbfc & Hfr & Hbp).
  destruct m as [p0 bfc fr pos bp], s as [sr bfc' size fr'], st as [pos0 bp'].
  cbn in *. subst p0 bfc' fr' bp' sr size.
  unfold iteration, bind, call_dword, call_bool, call_hr_val, call_hr, do,
    CHECK_HR. cbn.
  destruct inp as [| [? | d | ? | ? | ? ?] inp]; cbn;
    try solve [eexists NoAnswer, _, _, _; arrive Htr].
  destruct (u32 d =? WAIT_OBJECT_0) eqn:Ew; cbn.
  - (* signalled *)
    destruct inp as [| [[|] | ? | ? | ? | ? ?] inp]; cbn;
      try solve [eexists NoAnswer, _, _, _; arrive Htr];
      [| eexists (Ret (Break _)), _, _, _; arrive Htr].
    destruct inp as [| [? | ? | ? | ? | hrp v] inp]; cbn;
      try solve [eexists NoAnswer, _, _, _; arrive Htr].
    destruct (drift_us bp (nSamplesPerSec fmt) (u64 v) fr) as [usec |] eqn:Ed;
      cbn; [| eexists Undefined, _, _, _; arrive Htr].
    destruct inp as [| [[|] | ? | ? | ? | ? ?] inp]; cbn;
      try solve [eexists NoAnswer, _, _, _; arrive Htr].
    + (* a chunk *)
      destruct inp as [| [? | ? | ? | hr | ? ?] inp]; cbn;
        try solve [eexists NoAnswer, _, _, _; arrive Htr].
      destruct (FAILED hr) eqn:F1; cbn;
        [eexists (Throw _ _), _, _, _; arrive Htr |].
      destruct inp as [| [? | ? | ? | hr2 | ? ?] inp]; cbn;
        try solve [eexists NoAnswer, _, _, _; arrive Htr].
      destruct (FAILED hr2) eqn:F2; cbn;
        [eexists (Throw _ _), _, _, _; arrive Htr |].
      eexists (Ret (Continue _)), _, _, _; arrive Htr.
      unfold agree; cbn; repeat split; auto.
    + (* no chunk *)
      edestruct (recover_refines OnStarvation fuel
                   (Locals (u64 v) bp) inp
                   (Did (Log "Failed to get chunk") :: Did LogSeverityTag
                    :: Called (GetPlayerChunk usec bfc) (RBool false)
                    :: Called GetPosition (RHrVal hrp v)
                    :: Called Active (RBool true)
                    :: Called (WaitForSingleObject 2000) (RDword d) :: lg))
        as (r & inp' & lg' & m' & E & Hl & Ht & Hb & Hf & He).
      { cbn in Hlen. lia. }
      { cbn. rewrite Htr. use_checks. reflexivity. }
      { reflexivity. }
      cbn in E. rewrite E.
      destruct m' as [p1 bfc1 fr1 pos1 bp1]. cbn in *. subst bfc1 fr1.
      destruct r as [st' | | | |]; cbn in He; try contradiction;
        try solve [eexists _, _, _, _; arrive Ht].
      destruct He as (Hp & Hz & Hz'). subst.
      eexists (Ret (Continue _)), _, _, _; arrive Ht.
      unfold agree; cbn; repeat split; auto.
  - (* timed out *)
    edestruct (recover_refines OnTimeout fuel (Locals pos0 bp) inp
                 (Did (Log "Got timeout waiting for audio device callback")
                  :: Called (WaitForSingleObject 2000) (RDword d) :: lg))
      as (r & inp' & lg' & m' & E & Hl & Ht & Hb & Hf & He).
    { cbn in Hlen. lia. }
    { cbn. rewrite Htr. cbn. use_checks. reflexivity. }
    { reflexivity. }
    cbn in E. rewrite E.
    destruct r as [st' | | | |]; cbn in He; try contradiction;
      try solve [eexists _, _, _, _; arrive Ht].
    destruct He as (Hp & Hz & Hz').
    eexists (Ret (Break _)), _, _, _; arrive Ht.
Qed.

Lemma render_loop_refines s :
  forall fuel st inp lg m,
    (List.length inp < fuel)%nat ->
    track fmt idx lg = Some m -> pc m = AtLoopTop -> agree fmt s st m ->
    exists r inp' lg' m',
      render_loop fuel s st (World inp lg) = (r, World inp' lg') /\
      (List.length inp' <= List.length inp)%nat /\
      track fmt idx lg' = Some m' /\
      ends r (pc m') (fun _ => pc m' = Returned).
Proof.
  induction fuel as [| fuel IH]; intros st inp lg m Hlen Htr Hpc Hag;
    [inversion Hlen |].
  destruct m as [p0 bfc fr pos bp]; cbn in Hpc; subst p0.
  cbn. unfold bind, call_bool. cbn.
  destruct inp as [| [[|] | ? | ? | ? | ? ?] inp]; cbn;
    try solve [eexists NoAnswer, _, _, _; arrive Htr].
  - edestruct (iteration_refines fuel s st inp
                 (Called Active (RBool true) :: lg))
      as (r & inp' & lg' & m' & E & Hl & Ht & He).
    + cbn in Hlen. lia.
    + cbn. rewrite Htr. reflexivity.
    + reflexivity.
    + exact Hag.
    + rewrite E.
      destruct r as [[st' | st'] | | | |]; cbn in He; try contradiction;
        try solve [eexists _, _, _, _; arrive Ht].
      destruct He as [Hp Hag'].
      destruct (IH st' inp' lg' m') as (r & inp2 & lg2 & m2 & E2 & Hl2 & Ht2 & He2);
        auto.
      * cbn in Hlen. lia.
      * rewrite E2. exists r, inp2, lg2, m2. repeat split; auto.
        cbn in *. lia.
  - eexists (Ret _), _, _, _. arrive Htr.
Qed.

(** Follows the straight-line code of [setup]: takes the next answer,
    or decides the next test. *)
Ltac walk :=
  repeat match goal with
    | |- context [match ?inp with [] => _ | _ :: _ => _ end] =>
        is_var inp; destruct inp as [| [? | ? | ? | ? | ? ?] inp]; cbn
    | |- context [if FAILED ?hr then _ else _] =>
        destruct (FAILED hr) eqn:?; cbn
    | |- context [if ?a =? ?b then _ else _] =>
        destruct (a =? b) eqn:?; cbn
    end.

#[local] Opaque FAILED to_int32 E_FAIL AUDCLNT_E_BUFFER_SIZE_NOT_ALIGNED u32 u64.

Lemma setup_refines inp :
  exists r inp' lg' m',
    setup fmt idx (World inp []) = (r, World inp' lg') /\
    (List.length inp' <= List.length inp)%nat /\
    track fmt idx lg' = Some m' /\
    ends r (pc m')
      (fun s => pc m' = AtLoopTop /\ agree fmt s (Locals 0 0) m').
Proof.
  unfold setup, initialize_client, bind, call_hr, call_hr_val, call_handle,
    do, CHECK_HR. cbn.
  walk.
  all: eexists _, _, _, _; split; [reflexivity |]; split; [cbn; lia |].
  all: split; [cbn; unfold initial; use_checks; reflexivity |].
  all: use_checks; auto.
  all: unfold agree; cbn; repeat split; auto.
Qed.

#[local] Transparent FAILED to_int32 E_FAIL AUDCLNT_E_BUFFER_SIZE_NOT_ALIGNED
  u32 u64.

Lemma exec_app a b m :
  exec fmt idx m (a ++ b) =
  match exec fmt idx m a with
  | Some m' => exec fmt idx m' b
  | None => None
  end.
Proof.
  revert m. induction a as [| e a IH]; intros m; cbn; [reflexivity |].
  destruct (step fmt idx m e); [apply IH | reflexivity].
Qed.

Lemma track_exec lg :
  track fmt idx lg = exec fmt idx initial (rev lg).
Proof.
  induction lg as [| e lg IH]; cbn; [reflexivity |].
  rewrite exec_app, <- IH.
  destruct (track fmt idx lg) as [m |]; cbn; [| reflexivity].
  destruct (step fmt idx m e); reflexivity.
Qed.

(** Every run of the worker is a path of the machine, and ends the way
    the last phase says; the fuel [worker] runs with is never used up. *)
Lemma worker_refines script r tr :
  worker fmt idx script = (r, tr) ->
  exists m, exec fmt idx initial tr = Some m /\ ends_as r (pc m).
Proof.
  unfold worker, worker_fuel, bind. intros H.
  destruct (setup_refines script)
    as (r1 & inp1 & lg1 & m1 & E1 & Hl1 & Ht1 & He1).
  rewrite E1 in H.
  destruct r1 as [s | | | |]; cbn in He1; try contradiction;
    try (inversion H; subst; exists m1; rewrite <- track_exec;
         split; [assumption | cbn; assumption]).
  destruct He1 as [Hp Hag].
  destruct (render_loop_refines s (S (List.length script))
              (Locals 0 0) inp1 lg1 m1)
    as (r2 & inp2 & lg2 & m2 & E2 & Hl2 & Ht2 & He2); auto; [lia |].
  rewrite E2 in H.
  destruct r2; cbn in He2; try contradiction;
    inversion H; subst; exists m2; rewrite <- track_exec;
    split; try assumption; cbn; assumption.
Qed.

(** The loops of [worker] stop for want of an answer, never for want of
    fuel. *)
Lemma worker_total script r tr :
  worker fmt idx script = (r, tr) -> r <> OutOfFuel.
Proof.
  intros H E. subst r.
  destruct (worker_refines _ _ _ H) as (m & _ & He). exact He.
Qed.

End Refinement.

(** ** Paths of the machine *)

(** The cases of [step fmt idx m e = Some m']. *)
Ltac step_cases H :=
  unfold step in H; cbn [pc goto] in H;
  match type of H with
  | context [pc ?m] => destruct (pc m) eqn:?
  | _ => idtac
  end;
  try discriminate H;
  match type of H with
  | context [match ?e with Called _ _ => _ | Did _ => _ end] =>
      let c := fresh "c" in
      let ans := fresh "ans" in
      let a := fresh "a" in
      destruct e as [c ans | a]; try discriminate H;
      first [ destruct c; try discriminate H; destruct ans; try discriminate H
            | destruct a; try discriminate H ]
  | _ => idtac
  end.

Ltac step_inv H :=
  step_cases H;
  repeat match type of H with
    | (if ?c then _ else _) = Some _ => destruct c eqn:?; try discriminate H
    | match ?x with Some _ => _ | None => _ end = Some _ =>
        destruct x eqn:?; try discriminate H
    end;
  inversion H; subst; clear H.

Section Paths.

Variables (fmt : SampleFormat) (idx : Z).

Lemma exec_snoc m tr e :
  exec fmt idx m (tr ++ [e]) =
  match exec fmt idx m tr with
  | Some m' => step fmt idx m' e
  | None => None
  end.
Proof.
  rewrite exec_app. destruct (exec fmt idx m tr) as [m' |]; cbn; [| reflexivity].
  destruct (step fmt idx m' e); reflexivity.
Qed.

(** A path splits at each of its events. *)
Lemma exec_split m a e b m' :
  exec fmt idx m (a ++ e :: b) = Some m' ->
  exists m1 m2,
    exec fmt idx m a = Some m1 /\ step fmt idx m1 e = Some m2 /\
    exec fmt idx m2 b = Some m'.
Proof.
  rewrite exec_app. destruct (exec fmt idx m a) as [m1 |]; [| discriminate].
  cbn. destruct (step fmt idx m1 e) as [m2 |] eqn:E; [| discriminate].
  intros H. exists m1, m2. auto.
Qed.

(** The machine holds what the trace says was read and stored. *)
Lemma exec_registers tr :
  forall m,
    exec fmt idx initial tr = Some m ->
    m_bufferPosition m = stored_position tr /\
    (sized (pc m) = true -> m_bufferFrameCount m = buffer_frames tr) /\
    (in_loop (pc m) = true -> m_frequency m = clock_frequency tr).
Proof.
  induction tr as [| e tr IH] using rev_ind; intros m H.
  - inversion H; subst. cbn. repeat split; discriminate.
  - rewrite exec_snoc in H.
    destruct (exec fmt idx initial tr) as [m0 |]; [| discriminate].
    destruct (IH m0 eq_refl) as (Hbp & Hbfc & Hfr).
    unfold stored_position, buffer_frames, clock_frequency in *.
    rewrite !fold_left_app. cbn.
    step_inv H; cbn in *;
      repeat match goal with
        | E : pc _ = _ |- _ => rewrite E in *; cbn in *
        | E : (_ =? _) = true |- _ => apply Z.eqb_eq in E; subst
        end;
      unfold checked;
      repeat match goal with
        | |- context [if ?c then _ else _] => destruct c
        end;
      cbn; repeat split; intros; try discriminate; auto.
Qed.

Lemma exec_ranges tr :
  forall m,
    exec fmt idx initial tr = Some m ->
    0 <= m_bufferPosition m < 2 ^ 64 /\ 0 <= m_frequency m /\
    0 <= m_bufferFrameCount m.
Proof.
  induction tr as [| e tr IH] using rev_ind; intros m H.
  - inversion H; subst. cbn. lia.
  - rewrite exec_snoc in H.
    destruct (exec fmt idx initial tr) as [m0 |]; [| discriminate].
    destruct (IH m0 eq_refl) as (Hbp & Hfr & Hbfc).
    pose proof u64_range as U.
    assert (U32 : forall z, 0 <= u32 z) by
      (intros z; unfold u32; apply Z.mod_pos_bound; lia).
    step_inv H; cbn in *;
      repeat match goal with
        | E : (_ =? _) = true |- _ => apply Z.eqb_eq in E; subst
        end;
      repeat split; try assumption; try apply U; try apply U32; try lia.
Qed.

End Paths.

Lemma exec_cons fmt idx m e tr m' :
  exec fmt idx m (e :: tr) = Some m' ->
  exists m1, step fmt idx m e = Some m1 /\ exec fmt idx m1 tr = Some m'.
Proof.
  cbn. destruct (step fmt idx m e) as [m1 |]; [eauto | discriminate].
Qed.

(** No step leaves a phase in which the worker has ended. *)
Lemma exec_ended fmt idx m tr m' :
  exec fmt idx m tr = Some m' ->
  in_loop (pc m) = false -> past_setup (pc m) = true ->
  tr = [].
Proof.
  destruct tr as [| e tr]; [reflexivity |]. cbn.
  destruct (step fmt idx m e) eqn:S; [| discriminate].
  intros _ Hl Hp. step_inv S; cbn in *; discriminate.
Qed.

Ltac eqb_facts :=
  repeat match goal with
    | E : (_ && _) = true |- _ => apply andb_prop in E; destruct E
    | E : (_ =? _) = true |- _ => apply Z.eqb_eq in E
    end.

(** How a run ends in a phase of each kind. *)
Lemma ends_as_thrown r hr line :
  ends_as r (Thrown hr line) -> r = Throw hr line.
Proof.
  unfold ends_as, ends.
  destruct r; intros H; try discriminate H; try contradiction.
  now inversion H.
Qed.

Lemma ends_as_awaiting r p :
  ends_as r p -> awaits p = true -> r = NoAnswer.
Proof.
  unfold ends_as, ends.
  destruct r, p; cbn; intros H A; try reflexivity; try discriminate;
    contradiction.
Qed.

Lemma ends_as_acting r p :
  ends_as r p -> awaits p = false -> ended p = true.
Proof.
  unfold ends_as, ends.
  destruct r; intros H A; subst; try reflexivity; try contradiction.
  congruence.
Qed.

(** What the worker asks the stream for: one period of frames at the
    drift computed from the stored [bufferPosition], the position the
    clock has reported in the event just before and the frequency read
    before the loop. *)
Lemma worker_chunk_request fmt idx script r tr before e usec frames got
  after :
  worker fmt idx script = (r, tr) ->
  tr = before ++ e :: Called (GetPlayerChunk usec frames) (RBool got)
         :: after ->
  exists hr ticks,
    e = Called GetPosition (RHrVal hr ticks) /\
    frames = buffer_frames before /\
    drift_us (stored_position before) (nSamplesPerSec fmt) (u64 ticks)
      (clock_frequency before) = Some usec /\
    0 <= stored_position before < 2 ^ 64 /\
    0 <= clock_frequency before.
Proof.
  intros Hw Htr.
  destruct (worker_refines _ _ _ _ _ Hw) as (m & Hm & _). subst tr.
  apply exec_split in Hm. destruct Hm as (m1 & m2 & H1 & S1 & H2).
  cbn in H2. destruct (step fmt idx m2 _) as [m3 |] eqn:S2; [| discriminate].
  destruct (exec_registers _ _ _ _ H1) as (Hbp & Hbfc & Hfr).
  destruct (exec_ranges _ _ _ _ H1) as (Rbp & Rfr & _).
  clear H2 Hw. step_inv S2.
  apply andb_prop in Heqb. destruct Heqb as [Ef Ed].
  apply Z.eqb_eq in Ef. subst frames.
  destruct (drift_us _ _ _ _) as [d |] eqn:Hd; [| discriminate].
  apply Z.eqb_eq in Ed. subst d.
  step_inv S1; cbn in *; unfold checked in *;
    repeat match goal with
      | H : context [if ?c then _ else _] |- _ => destruct c
      end; try discriminate.
  rewrite <- Hbp, <- Hbfc, <- Hfr by reflexivity.
  eexists _, _. repeat split; eauto; lia.
Qed.

(** ** The drift argument *)

Lemma drift_us_formula bp sr ticks fr :
  0 <= bp -> 0 < sr -> 0 <= ticks -> 0 < fr ->
  bp * 1000000 < 2 ^ 64 -> ticks * 1000000 < 2 ^ 64 ->
  - 2 ^ 63 <= spec_drift bp sr ticks fr < 2 ^ 63 ->
  drift_us bp sr (u64 ticks) fr = Some (spec_drift bp sr ticks fr).
Proof.
  intros Hbp Hsr Ht Hfr Wbp Wt Hr. unfold spec_drift in *.
  rewrite (u64_small ticks) by lia.
  rewrite <- (term_exact bp sr), <- (term_exact ticks fr) in * by assumption.
  now apply drift_us_difference.
Qed.

Lemma drift_us_positive bp sr pos fr usec :
  drift_us bp sr pos fr = Some usec -> sr <> 0 /\ fr <> 0.
Proof.
  unfold drift_us.
  destruct (Z.eqb_spec sr 0), (Z.eqb_spec fr 0); cbn; intros H;
    try discriminate; auto.
Qed.

Lemma nSamplesPerSec_nonneg fmt : 0 <= nSamplesPerSec fmt.
Proof. unfold nSamplesPerSec, u32. apply Z.mod_pos_bound. lia. Qed.

(** C1, as the code has it.  In every run of the worker, whenever the
    64-bit products [bufferPosition * 1000000] and [ticks * 1000000] do
    not wrap and the difference fits the signed 64-bit count of
    [microseconds], the offset passed to [getPlayerChunk] is
    [bufferPosition * 1000000 / sampleRate - ticks * 1000000 / frequency],
    where [bufferPosition] is the value stored last, [ticks] the position
    the clock has just reported and [frequency] the one read before the
    loop. *)
Theorem C1_drift_formula fmt idx script r tr before hr ticks usec frames
  got after :
  worker fmt idx script = (r, tr) ->
  tr = before ++ Called GetPosition (RHrVal hr ticks)
         :: Called (GetPlayerChunk usec frames) (RBool got) :: after ->
  0 <= ticks ->
  stored_position before * 1000000 < 2 ^ 64 ->
  ticks * 1000000 < 2 ^ 64 ->
  - 2 ^ 63 <= spec_drift (stored_position before) (nSamplesPerSec fmt) ticks
                (clock_frequency before) < 2 ^ 63 ->
  usec = spec_drift (stored_position before) (nSamplesPerSec fmt) ticks
           (clock_frequency before).
Proof.
  intros Hw Htr Ht Wbp Wt Hr.
  destruct (worker_chunk_request _ _ _ _ _ _ _ _ _ _ _ Hw Htr)
    as (hr' & ticks' & He & _ & Hd & Rbp & Rfr).
  injection He as <- <-.
  destruct (drift_us_positive _ _ _ _ _ Hd) as (Hsr & Hfr).
  pose proof (nSamplesPerSec_nonneg fmt).
  rewrite drift_us_formula in Hd by lia.
  congruence.
Qed.

(** The example of the specification: 48000 frames at 48 kHz against
    5000000 ticks at 10 MHz give +500000 microseconds. *)
Lemma C1_drift_formula_witness :
  let tr := snd (worker cd48k 0 two_periods) in
  tr = firstn 28 tr ++ Called GetPosition (RHrVal S_OK 5000000)
         :: Called (GetPlayerChunk 500000 48000) (RBool true) :: skipn 30 tr /\
  500000 = spec_drift 48000 48000 5000000 10000000.
Proof.
  split; [vm_compute; reflexivity |].
  apply (C1_drift_formula cd48k 0 two_periods (Ret tt)
           (snd (worker cd48k 0 two_periods))
           (firstn 28 (snd (worker cd48k 0 two_periods)))
           S_OK 5000000 500000 48000 true
           (skipn 30 (snd (worker cd48k 0 two_periods))));
    vm_compute; repeat split; congruence.
Defined.

(** C1 as stated fails once a product wraps: after 18446744073710 ticks
    of a 10 MHz clock, with nothing written yet, the worker passes 0,
    where the formula gives -1844674407371.  The position is not
    negative, and the sample rate and the frequency are positive. *)
Lemma C1_counterexample :
  let tr := snd (worker cd48k 0 late_period) in
  let before := firstn 18 tr in
  tr = before ++ Called GetPosition (RHrVal S_OK 18446744073710)
         :: Called (GetPlayerChunk 0 480) (RBool true) :: skipn 20 tr /\
  0 <= stored_position before /\
  0 < nSamplesPerSec cd48k /\
  0 < clock_frequency before /\
  spec_drift (stored_position before) (nSamplesPerSec cd48k) 18446744073710
    (clock_frequency before) = - 1844674407371 /\
  0 <> spec_drift (stored_position before) (nSamplesPerSec cd48k)
         18446744073710 (clock_frequency before).
Proof.
  vm_compute.
  repeat split; try reflexivity; try discriminate.
Qed.

(** C10, as the code has it.  The argument of [getPlayerChunk] is the
    [UINT64] difference of the two quotient terms, each computed in
    [UINT64] arithmetic, read as a signed 64-bit count.  When the
    products [bufferPosition * 1000000] and [position * 1000000] do not
    wrap and the quotients [bufferPosition * 1000000 / sampleRate] and
    [position * 1000000 / frequency] are below [2 ^ 63], this is the
    exact signed difference of the two quotients, negative when the
    clock is ahead.  A chunk request is only made with a sample rate and
    a frequency other than zero. *)
Theorem C10_unsigned_difference fmt idx script r tr before hr position usec
  frames got after :
  worker fmt idx script = (r, tr) ->
  tr = before ++ Called GetPosition (RHrVal hr position)
         :: Called (GetPlayerChunk usec frames) (RBool got) :: after ->
  0 <= position ->
  stored_position before * 1000000 < 2 ^ 64 ->
  position * 1000000 < 2 ^ 64 ->
  stored_position before * 1000000 / nSamplesPerSec fmt < 2 ^ 63 ->
  position * 1000000 / clock_frequency before < 2 ^ 63 ->
  0 < nSamplesPerSec fmt /\ 0 < clock_frequency before /\
  usec = to_int64 (u64 (term (stored_position before) (nSamplesPerSec fmt)
                        - term (u64 position) (clock_frequency before))) /\
  usec = stored_position before * 1000000 / nSamplesPerSec fmt
         - position * 1000000 / clock_frequency before.
Proof.
  intros Hw Htr Hp Wbp Wp H1 H2.
  destruct (worker_chunk_request _ _ _ _ _ _ _ _ _ _ _ Hw Htr)
    as (hr' & ticks' & He & _ & Hd & Rbp & Rfr).
  injection He as <- <-.
  destruct (drift_us_positive _ _ _ _ _ Hd) as (Hsr & Hfr).
  pose proof (nSamplesPerSec_nonneg fmt) as Hn.
  assert (Hs : 0 < nSamplesPerSec fmt) by lia.
  assert (Hf : 0 < clock_frequency before) by lia.
  assert (Up : u64 position = position) by (apply u64_small; lia).
  pose proof (term_exact (stored_position before) (nSamplesPerSec fmt)
                ltac:(lia) Wbp) as T1.
  pose proof (term_exact position (clock_frequency before) Hp Wp) as T2.
  pose proof (term_nonneg (stored_position before) _ Hs).
  pose proof (term_nonneg position _ Hf).
  rewrite Up in *.
  repeat split; try assumption.
  - rewrite drift_us_defined in Hd by assumption.
    unfold microseconds, drift_u64 in Hd. congruence.
  - rewrite drift_us_difference in Hd by lia. congruence.
Qed.

(** With nothing written and the clock at 5000000 ticks of 10 MHz the
    worker asks for -500000 microseconds. *)
Lemma C10_unsigned_difference_witness :
  let tr := snd (worker cd48k 0 clock_ahead) in
  tr = firstn 18 tr ++ Called GetPosition (RHrVal S_OK 5000000)
         :: Called (GetPlayerChunk (-500000) 480) (RBool true) :: skipn 20 tr /\
  0 < nSamplesPerSec cd48k /\
  0 < clock_frequency (firstn 18 (snd (worker cd48k 0 clock_ahead))) /\
  - 500000 = to_int64 (u64 (term 0 48000 - term 5000000 10000000)) /\
  - 500000 = 0 * 1000000 / 48000 - 5000000 * 1000000 / 10000000.
Proof.
  split; [vm_compute; reflexivity |].
  apply (C10_unsigned_difference cd48k 0 clock_ahead (Ret tt)
           (snd (worker cd48k 0 clock_ahead))
           (firstn 18 (snd (worker cd48k 0 clock_ahead)))
           S_OK 5000000 (-500000) 480 true
           (skipn 20 (snd (worker cd48k 0 clock_ahead))));
    vm_compute; congruence.
Defined.

(** C10 as stated fails once a product wraps: after 18446744073710
    ticks of a 10 MHz clock, with nothing written yet, both quotients
    are below [2 ^ 63] (0 and 1844674407371) and the sample rate and
    the frequency are positive, yet the worker passes 0 and not their
    difference -1844674407371: [position * 1000000] has wrapped. *)
Lemma C10_counterexample :
  let tr := snd (worker cd48k 0 late_period) in
  let before := firstn 18 tr in
  let bufferPosition := stored_position before in
  let sampleRate := nSamplesPerSec cd48k in
  let position := 18446744073710 in
  let frequency := clock_frequency before in
  tr = before ++ Called GetPosition (RHrVal S_OK position)
         :: Called (GetPlayerChunk 0 480) (RBool true) :: skipn 20 tr /\
  0 < sampleRate /\ 0 < frequency /\
  bufferPosition * 1000000 / sampleRate = 0 /\
  position * 1000000 / frequency = 1844674407371 /\
  1844674407371 < 2 ^ 63 /\
  2 ^ 64 <= position * 1000000 /\
  0 <> bufferPosition * 1000000 / sampleRate - position * 1000000 / frequency.
Proof.
  vm_compute.
  repeat split; try reflexivity; try discriminate.
Qed.

(** ** The clock reading *)

(** Once in the loop the worker stays there, and does not read the
    frequency again. *)
Lemma past_setup_closed fmt idx tr :
  forall m m',
    past_setup (pc m) = true ->
    exec fmt idx m tr = Some m' ->
    past_setup (pc m') = true /\ existsb is_frequency_read tr = false.
Proof.
  induction tr as [| e tr IH]; intros m m' Hp H; cbn in H.
  - inversion H; subst. auto.
  - destruct (step fmt idx m e) as [m1 |] eqn:S; [| discriminate].
    assert (past_setup (pc m1) = true /\ is_frequency_read e = false) as [P1 F1].
    { step_inv S; cbn in *; try discriminate; unfold checked;
        repeat match goal with
          | E : pc _ = _ |- _ => rewrite E in *; cbn in *
          | |- context [if ?c then _ else _] => destruct c
          | b : branch |- _ => destruct b
          end; cbn; auto; try discriminate. }
    destruct (IH _ _ P1 H) as [P2 F2]. cbn. rewrite F1, F2. auto.
Qed.

(** Before the loop there is no chunk request and no frequency read. *)
Lemma before_loop fmt idx tr :
  forall m m',
    exec fmt idx m tr = Some m' ->
    past_setup (pc m') = false ->
    existsb is_chunk_request tr = false /\
    existsb is_frequency_read tr = false /\
    existsb is_pacing_wait tr = false.
Proof.
  induction tr as [| e tr IH]; intros m m' H Hp; cbn in H; [auto |].
  destruct (step fmt idx m e) as [m1 |] eqn:S; [| discriminate].
  destruct (past_setup (pc m1)) eqn:P1.
  - destruct (past_setup_closed _ _ _ _ _ P1 H). congruence.
  - destruct (IH _ _ H Hp) as (C & F & W). cbn. rewrite C, F, W.
    step_inv S; cbn in *; auto; unfold checked in *;
      repeat match goal with
        | H : context [if ?c then _ else _] |- _ => destruct c
        end; cbn in *; discriminate.
Qed.





(** ** The playback position *)

Lemma exec_back fmt idx tr m :
  exec fmt idx initial tr = Some m -> pc m <> AtCoCreateInstance ->
  exists tr0 e m0,
    tr = tr0 ++ [e] /\ exec fmt idx initial tr0 = Some m0 /\
    step fmt idx m0 e = Some m.
Proof.
  intros H Hp. destruct tr as [| e0 tr0] using rev_ind.
  - inversion H; subst. now destruct Hp.
  - clear IHtr0. rewrite exec_snoc in H.
    destruct (exec fmt idx initial tr0) as [m0 |] eqn:E; [| discriminate].
    exists tr0, e0, m0. repeat split; auto.
Qed.

(** One step back along a path that has reached a known phase. *)
Ltac back :=
  match goal with
  | H : exec _ _ initial ?tr = Some ?m, P : pc ?m = _ |- _ =>
      let S := fresh "S" in
      apply exec_back in H; [| rewrite P; discriminate];
      destruct H as (? & ? & ? & ? & H & S); subst tr;
      step_inv S; cbn in P; unfold checked in P;
      repeat match type of P with
        | context [if ?c then _ else _] => destruct c eqn:?
        end;
      try discriminate P; clear P;
      cbn [goto pc m_bufferFrameCount m_frequency m_position
             m_bufferPosition] in *
  end.

(** How the worker has come to wait for the stream: it has stopped and
    reset the client, both with success. *)
Lemma recovery_history fmt idx tr :
  forall m,
    exec fmt idx initial tr = Some m ->
    (forall b, pc m = AtReset b ->
       exists a h1, tr = a ++ [Called Stop (RHr h1)] /\ FAILED h1 = false) /\
    (polling (pc m) = true ->
       exists a h1 h2 polls,
         tr = a ++ Called Stop (RHr h1) :: Called Reset (RHr h2) :: polls /\
         FAILED h1 = false /\ FAILED h2 = false /\
         forallb is_poll_event polls = true).
Proof.
  induction tr as [| e tr IH] using rev_ind; intros m H.
  - inversion H; subst. cbn. split; [intros; discriminate | discriminate].
  - rewrite exec_snoc in H.
    destruct (exec fmt idx initial tr) as [m0 |]; [| discriminate].
    destruct (IH m0 eq_refl) as (IR & IP).
    step_inv H; cbn in *; unfold checked;
      repeat match goal with
        | |- context [if ?c then _ else _] => destruct c eqn:?
        end;
      (split; [intros b' Hb'; try discriminate Hb' | intros Hq; try discriminate Hq]).
    all: rewrite ?Heqp in *; cbn in *.
    all: try (eexists _, _; split; [reflexivity | assumption]).
    all: try (destruct (IR _ eq_refl) as (a & h1 & -> & F1);
              exists a, h1, hr, []; rewrite <- app_assoc; cbn; auto).
    all: try (destruct (IP eq_refl) as (a & h1 & h2 & polls & -> & F1 & F2 & Fp);
              eexists a, h1, h2, (polls ++ [_]);
              split; [rewrite <- app_assoc; cbn; reflexivity |];
              rewrite forallb_app, Fp; cbn; auto).
Qed.

(** C2.  In every run of the worker, [bufferPosition] is assigned only
    where it is initialised before the loop, where a turn of the loop has
    committed a chunk, by exactly one period, and where a recovery has
    restarted the client, to zero; and every committed chunk is followed
    by the advance. *)
Theorem C2_buffer_position_updates fmt idx script r tr :
  worker fmt idx script = (r, tr) ->
  (forall before v after,
      tr = before ++ Did (StoreBufferPosition v) :: after ->
      initialised before v \/ advanced before v \/ rewound before v) /\
  (forall before frames flags hr after,
      tr = before ++ Called (ReleaseBuffer frames flags) (RHr hr) :: after ->
      FAILED hr = false ->
      exists after',
        after = Did (StoreBufferPosition
                       (u64 (stored_position before + frames))) :: after').
Proof.
  intros Hw.
  destruct (worker_refines _ _ _ _ _ Hw) as (m & Hm & He).
  unfold initialised, advanced, rewound. split.
  - intros before v after ->.
    apply exec_split in Hm. destruct Hm as (m1 & m2 & H1 & S & H2).
    destruct (exec_registers _ _ _ _ H1) as (Hbp & Hbfc & _).
    destruct (exec_ranges _ _ _ _ H1) as (Rbp & _ & Rbfc).
    clear H2 He Hw.
    step_inv S.
    + left. eqb_facts. split; [assumption |].
      eapply before_loop; [eassumption | rewrite Heqp; reflexivity].
    + right. left. specialize (Hbfc eq_refl).
      rewrite <- Hbp, <- Hbfc. eqb_facts. subst v.
      do 9 back. eqb_facts. subst.
      eexists x, d, _, _, _, _, _, _.
      split; [rewrite <- !app_assoc; reflexivity |].
      repeat split; auto.
      intros Hlt. apply u64_small. lia.
    + right. right. eqb_facts. split; [assumption |].
      back.
      destruct (recovery_history _ _ _ _ H1) as (_ & HP).
      rewrite Heqp0 in HP.
      destruct (HP eq_refl) as (a & h1 & h2 & polls & -> & F1 & F2 & Fp).
      exists a, h1, h2, polls, hr.
      split; [rewrite <- app_assoc; reflexivity | auto].
  - intros before frames flags hr after -> Hok.
    apply exec_split in Hm. destruct Hm as (m1 & m2 & H1 & S & H2).
    destruct (exec_registers _ _ _ _ H1) as (Hbp & Hbfc & _).
    step_inv S. specialize (Hbfc eq_refl). eqb_facts. subst.
    unfold checked in H2. rewrite Hok in H2.
    destruct after as [| e after]; cbn in H2.
    + inversion H2; subst m. unfold ends_as, ends in He.
      destruct r; cbn in He; discriminate || contradiction.
    + destruct e as [? ? | []]; try discriminate.
      destruct (v =? _) eqn:E; [| discriminate].
      apply Z.eqb_eq in E. subst v. rewrite Hbp. eauto.
Qed.

(** In the run of two periods of 48000 frames the first commit is
    followed by the store of 48000, and that store is an advance. *)
Lemma C2_buffer_position_updates_witness :
  advanced (firstn 24 (snd (worker cd48k 0 two_periods))) 48000 /\
  exists after',
    skipn 24 (snd (worker cd48k 0 two_periods))
    = Did (StoreBufferPosition 48000) :: after'.
Proof.
  pose (tr := snd (worker cd48k 0 two_periods)).
  assert (Hw : worker cd48k 0 two_periods = (Ret tt, tr))
    by (vm_compute; reflexivity).
  destruct (C2_buffer_position_updates _ _ _ _ _ Hw) as [Hi Hii].
  split.
  - destruct (Hi (firstn 24 tr) 48000 (skipn 25 tr)) as [[_ H] | [H | [_ H]]];
      [vm_compute; reflexivity | | exact H |].
    + vm_compute in H. discriminate H.
    + destruct H as (a & h1 & h2 & polls & h3 & H & _).
      apply (f_equal (@rev event)) in H.
      rewrite rev_app_distr in H. cbn [rev app] in H.
      rewrite rev_app_distr in H. vm_compute in H. discriminate H.
  - apply (Hii (firstn 23 tr) 48000 0 S_OK (skipn 24 tr));
      vm_compute; reflexivity.
Defined.

(** ** The stop signal *)

Lemma flag_checked_path fmt idx tr :
  forall m m' fresh,
    exec fmt idx m tr = Some m' ->
    (needs_fresh (pc m) = true -> fresh = true) ->
    flag_checked fresh tr = true.
Proof.
  induction tr as [| e tr IH]; intros m m' fresh H Hf; cbn in H;
    [reflexivity |].
  destruct (step fmt idx m e) as [m1 |] eqn:S; [| discriminate].
  cbn [flag_checked].
  step_inv S; cbn [is_flag_read is_wait is_commit];
    rewrite ?Hf by reflexivity; cbn [andb];
    eapply IH; try eassumption; cbn; unfold checked;
    repeat match goal with
      | |- context [if ?c then _ else _] => destruct c
      end; cbn; intros; auto; try discriminate.
Qed.

Lemma stop_sticks_after before :
  forall after,
    stop_sticks (before ++ Called Active (RBool false) :: after) = true ->
    existsb is_flag_read_set after = false.
Proof.
  induction before as [| e before IH]; intros after H; cbn in H.
  - now apply negb_true_iff in H.
  - destruct e as [[] [[|] | | | |] |]; auto.
    apply negb_true_iff in H. rewrite existsb_app in H.
    apply orb_false_elim in H. destruct H as [_ H]. cbn in H.
    exact H.
Qed.

(** C5.  [active_] is read as set directly before every blocking wait,
    the pacing wait of line 292 and the poll of the stream alike, and
    again directly after a pacing wait that was signalled and, the
    waiting logged, after a poll that found nothing; so it is read
    between every blocking wait and the wait or commit that comes next.
    And, the flag staying cleared once it has been read as cleared,
    after such a read the worker neither waits, nor asks for a chunk,
    nor commits a buffer: at most it restarts the client, rewinds the
    position and reads the flag once more. *)
Theorem C5_stop_signal fmt idx script r tr :
  worker fmt idx script = (r, tr) ->
  stop_sticks tr = true ->
  flag_checked false tr = true /\
  (forall before after,
      tr = before ++ Called Active (RBool false) :: after ->
      existsb is_commit after = false /\
      existsb is_wait after = false /\
      existsb is_chunk_request after = false /\
      (List.length after <= 3)%nat) /\
  (forall before e after,
      tr = before ++ e :: after ->
      is_wait e = true ->
      exists before', before = before' ++ [Called Active (RBool true)]) /\
  (forall before ms d after,
      tr = before ++ Called (WaitForSingleObject ms) (RDword d) :: after ->
      u32 d = WAIT_OBJECT_0 ->
      (after = [] /\ r = NoAnswer) \/
      exists b after', after = Called Active (RBool b) :: after') /\
  (forall before ms after,
      tr = before ++ Called (WaitForChunk ms) (RBool false) :: after ->
      exists after',
        after = Did (Log "Waiting for chunk") :: after' /\
        ((after' = [] /\ r = NoAnswer) \/
         exists b after'', after' = Called Active (RBool b) :: after'')).
Proof.
  intros Hw Hs.
  destruct (worker_refines _ _ _ _ _ Hw) as (m & Hm & He).
  split; [| split; [| split; [| split]]].
  - eapply flag_checked_path; [eassumption | cbn; discriminate].
  - intros before after ->.
    apply stop_sticks_after in Hs.
    apply exec_split in Hm. destruct Hm as (m1 & m2 & _ & S & H2).
    step_inv S.
    1,2: apply exec_ended in H2; [subst; cbn; auto with arith | reflexivity ..].
    destruct after as [| e1 after]; [cbn; auto with arith |].
    apply exec_cons in H2. destruct H2 as (m3 & S1 & H2).
    step_inv S1. unfold checked in H2.
    destruct (FAILED hr).
    { apply exec_ended in H2; [subst; cbn; auto with arith | reflexivity ..]. }
    destruct after as [| e2 after]; [cbn; auto with arith |].
    apply exec_cons in H2. destruct H2 as (m4 & S2 & H2).
    step_inv S2. destruct b.
    { apply exec_ended in H2; [subst; cbn; auto with arith | reflexivity ..]. }
    destruct after as [| e3 after]; [cbn; auto with arith |].
    apply exec_cons in H2. destruct H2 as (m5 & S3 & H2).
    step_inv S3. destruct b.
    { cbn in Hs. discriminate. }
    apply exec_ended in H2; [subst; cbn; auto with arith | reflexivity ..].
  - intros before e after -> Hwait.
    apply exec_split in Hm. destruct Hm as (m1 & m2 & H1 & S & _).
    clear Hw Hs He.
    step_inv S; try discriminate Hwait; back; eauto.
  - intros before ms d after -> Hd.
    apply exec_split in Hm. destruct Hm as (m1 & m2 & _ & S & H2).
    step_inv S. apply Z.eqb_eq in Hd. rewrite Hd in H2.
    destruct after as [| e after].
    + left. split; [reflexivity |]. inversion H2; subst m.
      now apply (ends_as_awaiting _ _ He).
    + right. apply exec_cons in H2. destruct H2 as (m3 & S3 & _).
      step_inv S3; eauto.
  - intros before ms after ->.
    apply exec_split in Hm. destruct Hm as (m1 & m2 & _ & S & H2).
    step_inv S.
    destruct after as [| e after].
    { inversion H2; subst m. unfold ends_as, ends in He.
      destruct r; cbn in He; discriminate || contradiction. }
    apply exec_cons in H2. destruct H2 as (m3 & S3 & H2).
    step_inv S3.
    match goal with E : String.eqb _ _ = true |- _ =>
      apply String.eqb_eq in E; subst end.
    eexists. split; [reflexivity |].
    destruct after as [| e after].
    + left. split; [reflexivity |]. inversion H2; subst m.
      now apply (ends_as_awaiting _ _ He).
    + right. apply exec_cons in H2. destruct H2 as (m4 & S4 & _).
      step_inv S4; eauto.
Qed.

(** ** Runs against given answers *)

Lemma wait_for_chunk_fruitless k :
  forall fuel rest lg,
    wait_for_chunk (k + fuel) (World (fruitless_polls k ++ rest) lg)
    = wait_for_chunk fuel (World rest (rev (fruitless_poll_events k) ++ lg)).
Proof.
  induction k as [| k IH]; intros fuel rest lg; [reflexivity |].
  cbn [fruitless_polls fruitless_poll_events app Nat.add wait_for_chunk].
  unfold bind, call_bool, do. cbn [input log].
  rewrite IH. cbn [rev]. rewrite <- !app_assoc. reflexivity.
Qed.

Section Recovery.

(** The stream is polled [k] times in vain, and the fuel allows for one
    poll more. *)
Variables (k fuel : nat).
Hypothesis enough_fuel : (k < fuel)%nat.

Lemma wait_for_chunk_data rest lg :
  wait_for_chunk fuel
    (World (fruitless_polls k ++ RBool true :: RBool true :: rest) lg)
  = (Ret tt,
     World rest
       (Called (WaitForChunk 100) (RBool true) :: Called Active (RBool true)
        :: rev (fruitless_poll_events k) ++ lg)).
Proof.
  pose proof enough_fuel.
  replace fuel with (k + S (fuel - S k))%nat by lia.
  rewrite wait_for_chunk_fruitless. reflexivity.
Qed.

Lemma wait_for_chunk_stopped rest lg :
  wait_for_chunk fuel (World (fruitless_polls k ++ RBool false :: rest) lg)
  = (Ret tt,
     World rest
       (Called Active (RBool false) :: rev (fruitless_poll_events k) ++ lg)).
Proof.
  pose proof enough_fuel.
  replace fuel with (k + S (fuel - S k))%nat by lia.
  rewrite wait_for_chunk_fruitless. reflexivity.
Qed.

(** Stop, Reset and Start succeed. *)
Variables (hr1 hr2 hr3 : Z).
Hypothesis F1 : FAILED hr1 = false.
Hypothesis F2 : FAILED hr2 = false.
Hypothesis F3 : FAILED hr3 = false.

(** The recovery when the stream has a chunk after [k] fruitless polls,
    and when the flag is cleared after [k] fruitless polls. *)
Lemma recover_data l1 l2 l3 st rest lg :
  recover fuel l1 l2 l3 st
    (World (RHr hr1 :: RHr hr2
            :: fruitless_polls k ++ RBool true :: RBool true :: RHr hr3 :: rest)
       lg)
  = (Ret (Locals (position st) 0),
     World rest
       (Did (StoreBufferPosition 0) :: Called Start (RHr hr3)
        :: Called (WaitForChunk 100) (RBool true) :: Called Active (RBool true)
        :: rev (fruitless_poll_events k)
        ++ Called Reset (RHr hr2) :: Called Stop (RHr hr1) :: lg)).
Proof.
  unfold recover, bind, call_hr, CHECK_HR, do. cbn [input log].
  rewrite F1. cbn [ret]. cbn [input log]. rewrite F2. cbn [ret].
  rewrite wait_for_chunk_data. cbn [input log].
  rewrite F3. reflexivity.
Qed.

Lemma recover_stopped l1 l2 l3 st rest lg :
  recover fuel l1 l2 l3 st
    (World (RHr hr1 :: RHr hr2
            :: fruitless_polls k ++ RBool false :: RHr hr3 :: rest) lg)
  = (Ret (Locals (position st) 0),
     World rest
       (Did (StoreBufferPosition 0) :: Called Start (RHr hr3)
        :: Called Active (RBool false)
        :: rev (fruitless_poll_events k)
        ++ Called Reset (RHr hr2) :: Called Stop (RHr hr1) :: lg)).
Proof.
  unfold recover, bind, call_hr, CHECK_HR, do. cbn [input log].
  rewrite F1. cbn [ret]. cbn [input log]. rewrite F2. cbn [ret].
  rewrite wait_for_chunk_stopped. cbn [input log].
  rewrite F3. reflexivity.
Qed.

End Recovery.

(** One turn of the loop in which a chunk is delivered and committed. *)
Lemma iteration_delivered fuel s st d hrp ticks usec hr1 hr2 rest lg :
  u32 d = WAIT_OBJECT_0 ->
  drift_us (bufferPosition st) (sampleRate s) (u64 ticks) (frequency s)
  = Some usec ->
  FAILED hr1 = false -> FAILED hr2 = false ->
  iteration fuel s st
    (World (RDword d :: RBool true :: RHrVal hrp ticks :: RBool true
            :: RHr hr1 :: RHr hr2 :: rest) lg)
  = (Ret (Continue
            (Locals (u64 ticks)
               (u64 (bufferPosition st + bufferFrameCount s)))),
     World rest
       (Did (StoreBufferPosition
               (u64 (bufferPosition st + bufferFrameCount s)))
        :: Called (ReleaseBuffer (bufferFrameCount s) 0) (RHr hr2)
        :: Did (Memcpy (bufferSize s))
        :: Called (GetBuffer (bufferFrameCount s)) (RHr hr1)
        :: Did (AdjustVolume (bufferFrameCount s))
        :: Called (GetPlayerChunk usec (bufferFrameCount s)) (RBool true)
        :: Called GetPosition (RHrVal hrp ticks)
        :: Called Active (RBool true)
        :: Called (WaitForSingleObject 2000) (RDword d) :: lg)).
Proof.
  intros Hd Hu F1 F2.
  unfold iteration, bind, call_dword, call_bool, call_hr_val, call_hr,
    CHECK_HR, do.
  cbn -[u64 u32 drift_us FAILED]. rewrite Hd.
  cbn -[u64 u32 drift_us FAILED]. rewrite Hu.
  cbn -[u64 u32 drift_us FAILED]. rewrite F1.
  cbn -[u64 u32 drift_us FAILED]. rewrite F2. reflexivity.
Qed.

(** A turn of the loop in which the stream has no chunk goes on with
    the recovery. *)
Lemma iteration_no_chunk fuel s st d hrp ticks usec rest lg :
  u32 d = WAIT_OBJECT_0 ->
  drift_us (bufferPosition st) (sampleRate s) (u64 ticks) (frequency s)
  = Some usec ->
  iteration fuel s st
    (World (RDword d :: RBool true :: RHrVal hrp ticks :: RBool false :: rest)
       lg)
  = (st' <- recover fuel 339 341 347 (Locals (u64 ticks) (bufferPosition st)) ;;
     ret (Continue st'))
      (World rest
         (Did (Log "Failed to get chunk") :: Did LogSeverityTag
          :: Called (GetPlayerChunk usec (bufferFrameCount s)) (RBool false)
          :: Called GetPosition (RHrVal hrp ticks)
          :: Called Active (RBool true)
          :: Called (WaitForSingleObject 2000) (RDword d) :: lg)).
Proof.
  intros Hd Hu.
  unfold iteration, bind, call_dword, call_bool, call_hr_val, do.
  cbn -[u64 u32 drift_us FAILED recover]. rewrite Hd.
  cbn -[u64 u32 drift_us FAILED recover]. rewrite Hu.
  cbn -[u64 u32 drift_us FAILED recover]. reflexivity.
Qed.

(** A turn of the loop in which the pacing wait times out goes on with
    the recovery and leaves the loop. *)
Lemma iteration_timed_out fuel s st d rest lg :
  u32 d <> WAIT_OBJECT_0 ->
  iteration fuel s st (World (RDword d :: rest) lg)
  = (st' <- recover fuel 300 302 308 st ;; ret (Break st'))
      (World rest
         (Did (Log "Got timeout waiting for audio device callback")
          :: Called (WaitForSingleObject 2000) (RDword d) :: lg)).
Proof.
  intros Hd. apply Z.eqb_neq in Hd.
  unfold iteration, bind, call_dword, do.
  cbn -[u64 u32 drift_us FAILED recover]. rewrite Hd.
  cbn -[u64 u32 drift_us FAILED recover]. reflexivity.
Qed.

(** ** Counting events *)

Lemma count_app p a b : count p (a ++ b) = (count p a + count p b)%nat.
Proof.
  induction a as [| e a IH]; cbn; [reflexivity |].
  destruct (p e); cbn; now rewrite IH.
Qed.

Lemma count_fruitless p k :
  p (Called Active (RBool true)) = false ->
  p (Called (WaitForChunk 100) (RBool false)) = false ->
  p (Did (Log "Waiting for chunk")) = false ->
  count p (fruitless_poll_events k) = 0%nat.
Proof.
  intros H1 H2 H3.
  induction k as [| k IH]; cbn; [reflexivity |].
  now rewrite H1, H2, H3.
Qed.

(** Brings the log of a finished run into the order of its events. *)
Ltac chronological :=
  cbn [input log rev app]; rewrite ?rev_app_distr, ?rev_involutive;
  cbn [rev app]; rewrite <- ?app_assoc; cbn [app].

(** ** The pacing timeout *)

Lemma after_timeout_closed fmt idx tr :
  forall m m',
    after_timeout (pc m) = true ->
    exec fmt idx m tr = Some m' ->
    after_timeout (pc m') = true /\ existsb is_render_event tr = false.
Proof.
  induction tr as [| e tr IH]; intros m m' Hp H.
  - inversion H; subst. auto.
  - apply exec_cons in H. destruct H as (m1 & S & H).
    assert (after_timeout (pc m1) = true /\ is_render_event e = false)
      as [P1 F1].
    { step_inv S; cbn in *; try discriminate; unfold checked;
        repeat match goal with
          | b : branch |- _ => destruct b
          | |- context [if ?c then _ else _] => destruct c
          end; cbn in *; auto; discriminate. }
    destruct (IH _ _ P1 H) as [P2 F2]. cbn. rewrite F1, F2. auto.
Qed.

Lemma render_loop_timed_out fuel s st d rest lg :
  u32 d <> WAIT_OBJECT_0 ->
  render_loop (S fuel) s st (World (RBool true :: RDword d :: rest) lg)
  = recover fuel 300 302 308 st
      (World rest
         (Did (Log "Got timeout waiting for audio device callback")
          :: Called (WaitForSingleObject 2000) (RDword d)
          :: Called Active (RBool true) :: lg)).
Proof.
  intros Hd. cbn [render_loop]. unfold bind at 1. unfold call_bool at 1.
  cbn [input log]. unfold bind at 1.
  rewrite iteration_timed_out by assumption.
  unfold bind, ret.
  destruct (recover _ _ _ _ _ _) as [[] ?]; reflexivity.
Qed.

(** C4.  When the pacing wait times out the worker logs it, stops and
    resets the client, polls the stream, starts the client, rewinds
    [bufferPosition] and returns, whatever answers are still to come;
    and in no run does a turn of the loop that renders follow a pacing
    timeout. *)
Theorem C4_pacing_timeout :
  (forall fuel s st d hr1 hr2 hr3 k rest,
      (k < fuel)%nat ->
      u32 d <> WAIT_OBJECT_0 ->
      FAILED hr1 = false -> FAILED hr2 = false -> FAILED hr3 = false ->
      run (render_loop (S fuel) s st)
        ([RBool true; RDword d; RHr hr1; RHr hr2]
         ++ fruitless_polls k ++ [RBool true; RBool true; RHr hr3] ++ rest)
      = (Ret (Locals (position st) 0),
         [ Called Active (RBool true);
           Called (WaitForSingleObject 2000) (RDword d);
           Did (Log "Got timeout waiting for audio device callback");
           Called Stop (RHr hr1);
           Called Reset (RHr hr2) ]
         ++ fruitless_poll_events k
         ++ [ Called Active (RBool true);
              Called (WaitForChunk 100) (RBool true);
              Called Start (RHr hr3);
              Did (StoreBufferPosition 0) ],
         rest)) /\
  (forall fmt idx script r tr before ms d after,
      worker fmt idx script = (r, tr) ->
      tr = before ++ Called (WaitForSingleObject ms) (RDword d) :: after ->
      u32 d <> WAIT_OBJECT_0 ->
      exists after',
        after = Did (Log "Got timeout waiting for audio device callback")
                  :: after' /\
        existsb is_render_event after' = false).
Proof.
  split.
  - intros fuel s st d hr1 hr2 hr3 k rest Hk Hd F1 F2 F3.
    unfold run. cbn [app].
    rewrite render_loop_timed_out by assumption.
    rewrite recover_data by assumption.
    chronological. reflexivity.
  - intros fmt idx script r tr before ms d after Hw -> Hd.
    destruct (worker_refines _ _ _ _ _ Hw) as (m & Hm & He).
    apply exec_split in Hm. destruct Hm as (m1 & m2 & _ & S & H2).
    apply Z.eqb_neq in Hd. step_inv S. rewrite Hd in H2.
    destruct after as [| e after].
    + inversion H2; subst m. unfold ends_as, ends in He.
      destruct r; cbn in He; discriminate || contradiction.
    + apply exec_cons in H2. destruct H2 as (m3 & S3 & H2).
      step_inv S3. apply String.eqb_eq in Heqb0. subst msg.
      eexists. split; [reflexivity |].
      eapply after_timeout_closed; [| eassumption]. reflexivity.
Qed.

(** ** A stop during the recovery *)

Lemma render_loop_no_chunk fuel s st d hrp ticks usec rest lg :
  u32 d = WAIT_OBJECT_0 ->
  drift_us (bufferPosition st) (sampleRate s) (u64 ticks) (frequency s)
  = Some usec ->
  render_loop (S fuel) s st
    (World (RBool true :: RDword d :: RBool true :: RHrVal hrp ticks
            :: RBool false :: rest) lg)
  = (st' <- recover fuel 339 341 347 (Locals (u64 ticks) (bufferPosition st)) ;;
     render_loop fuel s st')
      (World rest
         (Did (Log "Failed to get chunk") :: Did LogSeverityTag
          :: Called (GetPlayerChunk usec (bufferFrameCount s)) (RBool false)
          :: Called GetPosition (RHrVal hrp ticks)
          :: Called Active (RBool true)
          :: Called (WaitForSingleObject 2000) (RDword d)
          :: Called Active (RBool true) :: lg)).
Proof.
  intros Hd Hu. cbn [render_loop]. unfold bind at 1. unfold call_bool at 1.
  cbn [input log]. unfold bind at 1.
  rewrite (iteration_no_chunk _ _ _ _ _ _ usec) by assumption.
  unfold bind, ret.
  destruct (recover _ _ _ _ _ _) as [[] ?]; reflexivity.
Qed.

Lemma render_loop_stopped fuel s st rest lg :
  render_loop (S fuel) s st (World (RBool false :: rest) lg)
  = (Ret st, World rest (Called Active (RBool false) :: lg)).
Proof. reflexivity. Qed.

(** C9.  When the flag is cleared while the worker polls the stream,
    the poll ends, but the worker still starts the client and rewinds
    [bufferPosition]: after a starvation it then reads the flag at the
    top of the loop and returns, after a pacing timeout it returns at
    once. *)
Theorem C9_stop_during_recovery fuel s st d hrp ticks usec d' hr1 hr2 hr3 k
  rest :
  (k < fuel)%nat ->
  u32 d = WAIT_OBJECT_0 ->
  drift_us (bufferPosition st) (sampleRate s) (u64 ticks) (frequency s)
  = Some usec ->
  u32 d' <> WAIT_OBJECT_0 ->
  FAILED hr1 = false -> FAILED hr2 = false -> FAILED hr3 = false ->
  run (render_loop (S (S fuel)) s st)
    ([ RBool true; RDword d; RBool true; RHrVal hrp ticks; RBool false;
       RHr hr1; RHr hr2 ]
     ++ fruitless_polls k ++ [RBool false; RHr hr3; RBool false] ++ rest)
  = (Ret (Locals (u64 ticks) 0),
     [ Called Active (RBool true);
       Called (WaitForSingleObject 2000) (RDword d);
       Called Active (RBool true);
       Called GetPosition (RHrVal hrp ticks);
       Called (GetPlayerChunk usec (bufferFrameCount s)) (RBool false);
       Did LogSeverityTag;
       Did (Log "Failed to get chunk");
       Called Stop (RHr hr1);
       Called Reset (RHr hr2) ]
     ++ fruitless_poll_events k
     ++ [ Called Active (RBool false);
          Called Start (RHr hr3);
          Did (StoreBufferPosition 0);
          Called Active (RBool false) ],
     rest) /\
  run (render_loop (S fuel) s st)
    ([RBool true; RDword d'; RHr hr1; RHr hr2]
     ++ fruitless_polls k ++ [RBool false; RHr hr3] ++ rest)
  = (Ret (Locals (position st) 0),
     [ Called Active (RBool true);
       Called (WaitForSingleObject 2000) (RDword d');
       Did (Log "Got timeout waiting for audio device callback");
       Called Stop (RHr hr1);
       Called Reset (RHr hr2) ]
     ++ fruitless_poll_events k
     ++ [ Called Active (RBool false);
          Called Start (RHr hr3);
          Did (StoreBufferPosition 0) ],
     rest).
Proof.
  intros Hk Hd Hu Hd' F1 F2 F3. split.
  - unfold run. cbn [app].
    rewrite (render_loop_no_chunk _ _ _ _ _ _ usec) by assumption.
    unfold bind. rewrite recover_stopped by (assumption || lia).
    rewrite render_loop_stopped. chronological. reflexivity.
  - unfold run. cbn [app].
    rewrite render_loop_timed_out by assumption.
    rewrite recover_stopped by assumption.
    chronological. reflexivity.
Qed.

(** ** Starvation *)

(** The poll of the stream, forwards: fruitless turns, and then either
    the end of the poll or the end of the trace. *)
Lemma poll_forward fmt idx b n :
  forall tr m m',
    (List.length tr <= n)%nat ->
    pc m = AtPoll b ->
    exec fmt idx m tr = Some m' ->
    exists k tail,
      tr = fruitless_poll_events k ++ tail /\
      ((tail = [] /\ pc m' = AtPoll b) \/
       (tail = [Called Active (RBool true)] /\ pc m' = AtWaitForChunk b) \/
       (tail = [Called Active (RBool true);
                Called (WaitForChunk 100) (RBool false)] /\
        pc m' = AtWaitingLog b) \/
       (exists ending rest m1,
           tail = ending ++ rest /\ poll_ending ending /\
           pc m1 = AtRestart b /\ exec fmt idx m1 rest = Some m')).
Proof.
  induction n as [| n IH]; intros tr m m' Hn P H.
  - destruct tr; [| cbn in Hn; lia]. inversion H; subst m'.
    exists 0%nat, []. split; [reflexivity |]. left. auto.
  - destruct tr as [| e1 tr].
    { inversion H; subst m'. exists 0%nat, []. split; [reflexivity |]. left. auto. }
    apply exec_cons in H. destruct H as (m1 & S1 & H).
    step_inv S1; try congruence.
    match goal with E : AtPoll _ = AtPoll _ |- _ => inversion E; subst end.
    match goal with
    | H : exec _ _ (goto (if ?a then _ else _) _) _ = _ |- _ => destruct a
    end.
    2: { exists 0%nat, (Called Active (RBool false) :: tr).
         split; [reflexivity |]. right. right. right.
         eexists [_], tr, _. split; [reflexivity |].
         split; [right; reflexivity |]. split; [| eassumption]. reflexivity. }
    destruct tr as [| e2 tr].
    { inversion H; subst m'. exists 0%nat, [Called Active (RBool true)].
      split; [reflexivity |]. right. left. auto. }
    apply exec_cons in H. destruct H as (m2 & S2 & H).
    step_inv S2.
    match goal with E : (_ =? 100) = true |- _ => apply Z.eqb_eq in E; subst end.
    match goal with
    | H : exec _ _ (goto (if ?a then _ else _) _) _ = _ |- _ => destruct a
    end.
    { exists 0%nat,
        (Called Active (RBool true) :: Called (WaitForChunk 100) (RBool true)
         :: tr).
      split; [reflexivity |]. right. right. right.
      eexists [_; _], tr, _. split; [reflexivity |].
      split; [left; reflexivity |]. split; [| eassumption]. reflexivity. }
    destruct tr as [| e3 tr].
    { inversion H; subst m'.
      exists 0%nat,
        [Called Active (RBool true); Called (WaitForChunk 100) (RBool false)].
      split; [reflexivity |]. right. right. left. auto. }
    apply exec_cons in H. destruct H as (m3 & S3 & H).
    step_inv S3.
    match goal with E : String.eqb _ _ = true |- _ =>
      apply String.eqb_eq in E; subst end.
    destruct (IH tr _ m' ltac:(cbn in Hn; lia)
                (eq_refl : pc (goto (AtPoll b) _) = AtPoll b) H)
      as (k & tail & -> & Ht).
    exists (S k), tail. split; [reflexivity | exact Ht].
Qed.

(** What follows a chunk request that was answered with no chunk, in a
    run that ends as [r]: the whole recovery and then the read of
    [active_] at the top of the loop, or as much of the recovery as the
    answers and the failures allow. *)
Lemma recovery_forward fmt idx r after m m' :
  pc m = AtSeverityTag ->
  exec fmt idx m after = Some m' -> ends_as r (pc m') ->
  exists h1 h2 k ending h3,
    poll_ending ending /\
    ((exists rest,
         after = recovery_events h1 h2 k ending h3 ++ rest /\
         FAILED h1 = false /\ FAILED h2 = false /\ FAILED h3 = false /\
         ((rest = [] /\ r = NoAnswer) \/
          exists b rest', rest = Called Active (RBool b) :: rest')) \/
     (exists missing,
         missing <> [] /\
         after ++ missing = recovery_events h1 h2 k ending h3 /\
         (r = NoAnswer \/ exists hr line, r = Throw hr line))).
Proof.
  intros P H He.
  pose (found := [Called Active (RBool true);
                  Called (WaitForChunk 100) (RBool true)]).
  assert (data : poll_ending found) by (left; reflexivity).
  assert (Hact : forall p, pc m' = p -> awaits p = false ->
                 ended p = false -> False).
  { intros p Hp Ha N. rewrite Hp in He.
    pose proof (ends_as_acting _ _ He Ha). congruence. }
  (* the severity tag *)
  destruct after as [| e1 after].
  { inversion H; subst m'. exfalso.
    apply (Hact _ P); reflexivity. }
  apply exec_cons in H. destruct H as (m1 & S1 & H).
  step_inv S1; try congruence.
  (* the log *)
  destruct after as [| e2 after].
  { inversion H; subst m'. exfalso.
    apply (Hact AtFailedLog eq_refl); reflexivity. }
  apply exec_cons in H. destruct H as (m2 & S2 & H).
  step_inv S2.
  match goal with E : String.eqb _ _ = true |- _ =>
    apply String.eqb_eq in E; subst end.
  (* Stop *)
  destruct after as [| e3 after].
  { inversion H; subst m'. exists 0, 0, 0%nat, found, 0.
    split; [exact data |]. right. eexists. split; [| split].
    2: reflexivity. 1: discriminate.
    left. now apply (ends_as_awaiting _ _ He). }
  apply exec_cons in H. destruct H as (m3 & S3 & H).
  step_inv S3. unfold checked in H. rename hr into h1.
  destruct (FAILED h1) eqn:F1.
  { pose proof (exec_ended _ _ _ _ _ H eq_refl eq_refl) as ->.
    inversion H; subst m'. exists h1, 0, 0%nat, found, 0.
    split; [exact data |]. right. eexists. split; [| split].
    2: reflexivity. 1: discriminate.
    right. eexists _, _. apply ends_as_thrown. exact He. }
  (* Reset *)
  destruct after as [| e4 after].
  { inversion H; subst m'. exists h1, 0, 0%nat, found, 0.
    split; [exact data |]. right. eexists. split; [| split].
    2: reflexivity. 1: discriminate.
    left. now apply (ends_as_awaiting _ _ He). }
  apply exec_cons in H. destruct H as (m4 & S4 & H).
  step_inv S4. unfold checked in H. rename hr into h2.
  destruct (FAILED h2) eqn:F2.
  { pose proof (exec_ended _ _ _ _ _ H eq_refl eq_refl) as ->.
    inversion H; subst m'. exists h1, h2, 0%nat, found, 0.
    split; [exact data |]. right. eexists. split; [| split].
    2: reflexivity. 1: discriminate.
    right. eexists _, _. apply ends_as_thrown. exact He. }
  (* the poll *)
  destruct (poll_forward fmt idx OnStarvation _ after _ m' (le_n _)
              (eq_refl : pc (goto (AtPoll OnStarvation) _) = _) H)
    as (k & tail & -> & [(-> & Pm) | [(-> & Pm) | [(-> & Pm) | Hend]]]).
  { exists h1, h2, k, found, 0. split; [exact data |]. right.
    exists (found ++ [Called Start (RHr 0); Did (StoreBufferPosition 0)]).
    split; [discriminate |]. split.
    - unfold recovery_events. cbn [app]. rewrite app_nil_r. reflexivity.
    - left. apply (ends_as_awaiting _ _ He). now rewrite Pm. }
  { exists h1, h2, k, found, 0. split; [exact data |]. right.
    exists [Called (WaitForChunk 100) (RBool true); Called Start (RHr 0);
            Did (StoreBufferPosition 0)].
    split; [discriminate |]. split.
    - unfold recovery_events. cbn [app]. do 4 f_equal.
      rewrite <- app_assoc. reflexivity.
    - left. apply (ends_as_awaiting _ _ He). now rewrite Pm. }
  { exfalso. apply (Hact _ Pm); reflexivity. }
  destruct Hend as (ending & rest & m5 & -> & Hending & P5 & H5).
  (* Start *)
  destruct rest as [| e5 rest].
  { inversion H5; subst m'. exists h1, h2, k, ending, 0.
    split; [exact Hending |]. right.
    exists [Called Start (RHr 0); Did (StoreBufferPosition 0)].
    split; [discriminate |]. split.
    - unfold recovery_events. cbn [app]. rewrite app_nil_r.
      do 4 f_equal. rewrite <- app_assoc. reflexivity.
    - left. apply (ends_as_awaiting _ _ He). now rewrite P5. }
  apply exec_cons in H5. destruct H5 as (m6 & S6 & H6).
  step_inv S6; try congruence. unfold checked in H6. rename hr into h3.
  destruct (FAILED h3) eqn:F3.
  { pose proof (exec_ended _ _ _ _ _ H6 eq_refl eq_refl) as ->.
    inversion H6; subst m'. exists h1, h2, k, ending, h3.
    split; [exact Hending |]. right.
    exists [Did (StoreBufferPosition 0)]. split; [discriminate |]. split.
    - unfold recovery_events. cbn [app]. do 4 f_equal.
      rewrite <- !app_assoc. reflexivity.
    - right. eexists _, _. apply ends_as_thrown. exact He. }
  (* the rewind *)
  match goal with E : AtRestart _ = AtRestart _ |- _ => inversion E; subst end.
  destruct rest as [| e6 rest].
  { inversion H6; subst m'. exfalso.
    apply (Hact (AtRewind OnStarvation) eq_refl); reflexivity. }
  apply exec_cons in H6. destruct H6 as (m7 & S7 & H7).
  step_inv S7.
  match goal with E : (_ =? 0) = true |- _ => apply Z.eqb_eq in E; subst end.
  exists h1, h2, k, ending, h3. split; [exact Hending |]. left.
  exists rest. split; [| repeat split; try assumption].
  { unfold recovery_events. cbn [app]. do 4 f_equal.
    rewrite <- !app_assoc. reflexivity. }
  destruct rest as [| e7 rest].
  - left. split; [reflexivity |]. inversion H7; subst m'.
    now apply (ends_as_awaiting _ _ He).
  - right. apply exec_cons in H7. destruct H7 as (m8 & S8 & _).
    step_inv S8; eauto.
Qed.

(** C3.  A turn of the loop whose chunk request is answered with no
    chunk logs it, stops and resets the client, polls [waitForChunk]
    every 100 ms while the flag is set and, when the stream has data
    again, starts the client, rewinds [bufferPosition] to zero and goes
    on with the next turn of the loop on the answers that are left; the
    client is stopped, reset and started once each.  And in every run of
    the worker every chunk request answered with no chunk is followed by
    this recovery and then by the read of [active_] at the top of the
    loop, or by as much of the recovery as there is before the run ends
    there, for want of an answer or by the exception of a failed
    [Stop], [Reset] or [Start]. *)
Theorem C3_starvation_recovery :
  (forall fuel s st d hrp ticks usec hr1 hr2 hr3 k rest lg,
      (k < fuel)%nat ->
      u32 d = WAIT_OBJECT_0 ->
      drift_us (bufferPosition st) (sampleRate s) (u64 ticks) (frequency s)
      = Some usec ->
      FAILED hr1 = false -> FAILED hr2 = false -> FAILED hr3 = false ->
      let events :=
        [ Called Active (RBool true);
          Called (WaitForSingleObject 2000) (RDword d);
          Called Active (RBool true);
          Called GetPosition (RHrVal hrp ticks);
          Called (GetPlayerChunk usec (bufferFrameCount s)) (RBool false) ]
        ++ recovery_events hr1 hr2 k
             [ Called Active (RBool true);
               Called (WaitForChunk 100) (RBool true) ] hr3 in
      render_loop (S fuel) s st
        (World
           ([ RBool true; RDword d; RBool true; RHrVal hrp ticks; RBool false;
              RHr hr1; RHr hr2 ]
            ++ fruitless_polls k ++ [RBool true; RBool true; RHr hr3] ++ rest)
           lg)
      = render_loop fuel s (Locals (u64 ticks) 0)
          (World rest (rev events ++ lg)) /\
      count is_stop_call events = 1%nat /\
      count is_reset_call events = 1%nat /\
      count is_start_call events = 1%nat) /\
  (forall fmt idx script r tr before usec frames after,
      worker fmt idx script = (r, tr) ->
      tr = before ++ Called (GetPlayerChunk usec frames) (RBool false)
             :: after ->
      exists h1 h2 k ending h3,
        poll_ending ending /\
        ((exists rest,
             after = recovery_events h1 h2 k ending h3 ++ rest /\
             FAILED h1 = false /\ FAILED h2 = false /\ FAILED h3 = false /\
             ((rest = [] /\ r = NoAnswer) \/
              exists b rest', rest = Called Active (RBool b) :: rest')) \/
         (exists missing,
             missing <> [] /\
             after ++ missing = recovery_events h1 h2 k ending h3 /\
             (r = NoAnswer \/ exists hr line, r = Throw hr line)))).
Proof.
  split.
  - intros fuel s st d hrp ticks usec hr1 hr2 hr3 k rest lg Hk Hd Hu F1 F2 F3
      events.
    split.
    + cbn [app].
      rewrite (render_loop_no_chunk _ _ _ _ _ _ usec) by assumption.
      unfold bind. rewrite recover_data by assumption.
      unfold events, recovery_events. cbn [app].
      cbn [rev]. rewrite !rev_app_distr. cbn [rev app].
      rewrite <- !app_assoc. cbn [app]. reflexivity.
    + unfold events, recovery_events.
      rewrite !count_app, !count_fruitless by reflexivity.
      repeat split; reflexivity.
  - intros fmt idx script r tr before usec frames after Hw ->.
    destruct (worker_refines _ _ _ _ _ Hw) as (m & Hm & He).
    apply exec_split in Hm. destruct Hm as (m1 & m2 & _ & S & H2).
    eapply recovery_forward; [| eassumption | eassumption].
    clear H2 He Hw. step_inv S. reflexivity.
Qed.

(** ** The theorems at work *)

(** A starved turn of the loop at 2400 frames, the stream having data
    again after three polls: the loop goes on at position 0 and, the flag
    then being cleared, returns.  And in the run of one period, a starved
    turn with two fruitless polls and one more period, the starved
    request is followed by the recovery and a read of the flag. *)
Lemma C3_starvation_recovery_witness :
  render_loop 5 session48k (Locals 0 2400)
    (World
       ([ RBool true; RDword 0; RBool true; RHrVal S_OK 500000; RBool false;
          RHr S_OK; RHr S_OK ]
        ++ fruitless_polls 3 ++ [RBool true; RBool true; RHr S_OK]
        ++ [RBool false]) [])
  = (Ret (Locals 500000 0),
     World []
       (rev ([ Called Active (RBool true);
               Called (WaitForSingleObject 2000) (RDword 0);
               Called Active (RBool true);
               Called GetPosition (RHrVal S_OK 500000);
               Called (GetPlayerChunk 0 480) (RBool false) ]
             ++ recovery_events S_OK S_OK 3
                  [ Called Active (RBool true);
                    Called (WaitForChunk 100) (RBool true) ] S_OK
             ++ [ Called Active (RBool false) ]))) /\
  exists h1 h2 k ending h3,
    poll_ending ending /\
    ((exists rest,
         skipn 30 (snd (worker cd48k 0
                          (gap_scenario 10000000 [0] 100000 2 [0])))
         = recovery_events h1 h2 k ending h3 ++ rest /\
         FAILED h1 = false /\ FAILED h2 = false /\ FAILED h3 = false /\
         ((rest = [] /\ Ret tt = NoAnswer) \/
          exists b rest', rest = Called Active (RBool b) :: rest')) \/
     (exists missing,
         missing <> [] /\
         skipn 30 (snd (worker cd48k 0
                          (gap_scenario 10000000 [0] 100000 2 [0])))
         ++ missing
         = recovery_events h1 h2 k ending h3 /\
         (Ret tt = NoAnswer \/ exists hr line, Ret tt = Throw hr line))).
Proof.
  split.
  - refine (proj1 (proj1 C3_starvation_recovery 4%nat session48k
                     (Locals 0 2400) 0 S_OK 500000 0 S_OK S_OK S_OK 3%nat
                     [RBool false] [] _ _ _ _ _ _));
      first [lia | vm_compute; reflexivity].
  - refine (proj2 C3_starvation_recovery cd48k 0
              (gap_scenario 10000000 [0] 100000 2 [0]) (Ret tt)
              (snd (worker cd48k 0 (gap_scenario 10000000 [0] 100000 2 [0])))
              (firstn 29
                 (snd (worker cd48k 0
                         (gap_scenario 10000000 [0] 100000 2 [0]))))
              0 480
              (skipn 30
                 (snd (worker cd48k 0
                         (gap_scenario 10000000 [0] 100000 2 [0]))))
              _ _);
      vm_compute; reflexivity.
Defined.

Lemma C4_pacing_timeout_witness :
  run (render_loop 2 session48k (Locals 0 960))
    ([RBool true; RDword 258; RHr S_OK; RHr S_OK]
     ++ fruitless_polls 0 ++ [RBool true; RBool true; RHr S_OK]
     ++ delivered 200000)
  = (Ret (Locals 0 0),
     [ Called Active (RBool true);
       Called (WaitForSingleObject 2000) (RDword 258);
       Did (Log "Got timeout waiting for audio device callback");
       Called Stop (RHr S_OK);
       Called Reset (RHr S_OK) ]
     ++ fruitless_poll_events 0
     ++ [ Called Active (RBool true);
          Called (WaitForChunk 100) (RBool true);
          Called Start (RHr S_OK);
          Did (StoreBufferPosition 0) ],
     delivered 200000) /\
  exists after',
    skipn 37 (snd (worker cd48k 0 timed_out))
    = Did (Log "Got timeout waiting for audio device callback") :: after' /\
    existsb is_render_event after' = false.
Proof.
  split.
  - refine (proj1 C4_pacing_timeout 1%nat session48k (Locals 0 960) 258 S_OK
              S_OK S_OK 0%nat (delivered 200000) _ _ _ _ _);
      first [lia | vm_compute; congruence].
  - refine (proj2 C4_pacing_timeout cd48k 0 timed_out (Ret tt)
              (snd (worker cd48k 0 timed_out))
              (firstn 36 (snd (worker cd48k 0 timed_out))) 2000 258
              (skipn 37 (snd (worker cd48k 0 timed_out))) _ _ _);
      vm_compute; congruence.
Defined.

(** In the run that is stopped while the stream is polled: what follows
    the read of the cleared flag; and the first pacing wait comes
    directly after a read of the flag as set. *)
Lemma C5_stop_signal_witness :
  skipn 38 (snd (worker cd48k 0 stopped_while_starved))
  = [ Called Start (RHr S_OK); Did (StoreBufferPosition 0);
      Called Active (RBool false) ] /\
  (existsb is_commit (skipn 38 (snd (worker cd48k 0 stopped_while_starved)))
   = false /\
   existsb is_wait (skipn 38 (snd (worker cd48k 0 stopped_while_starved)))
   = false /\
   existsb is_chunk_request
     (skipn 38 (snd (worker cd48k 0 stopped_while_starved))) = false /\
   (List.length (skipn 38 (snd (worker cd48k 0 stopped_while_starved))) <= 3)%nat) /\
  nth_error (snd (worker cd48k 0 stopped_while_starved)) 16
  = Some (Called (WaitForSingleObject 2000) (RDword 0)) /\
  exists before',
    firstn 16 (snd (worker cd48k 0 stopped_while_starved))
    = before' ++ [Called Active (RBool true)].
Proof.
  pose (tr := snd (worker cd48k 0 stopped_while_starved)).
  assert (Hw : worker cd48k 0 stopped_while_starved = (Ret tt, tr))
    by (vm_compute; reflexivity).
  assert (Hs : stop_sticks tr = true) by (vm_compute; reflexivity).
  destruct (C5_stop_signal _ _ _ _ _ Hw Hs) as (_ & Hafter & Hbefore & _).
  split; [vm_compute; reflexivity |]. split; [| split].
  - apply (Hafter (firstn 37 tr) (skipn 38 tr)). vm_compute. reflexivity.
  - vm_compute. reflexivity.
  - apply (Hbefore (firstn 16 tr) (Called (WaitForSingleObject 2000) (RDword 0))
             (skipn 17 tr)); vm_compute; reflexivity.
Defined.

Lemma C9_stop_during_recovery_witness :
  run (render_loop 4 session48k (Locals 0 480))
    ([ RBool true; RDword 0; RBool true; RHrVal S_OK 100000; RBool false;
       RHr S_OK; RHr S_OK ]
     ++ fruitless_polls 1 ++ [RBool false; RHr S_OK; RBool false] ++ [])
  = (Ret (Locals 100000 0),
     [ Called Active (RBool true);
       Called (WaitForSingleObject 2000) (RDword 0);
       Called Active (RBool true);
       Called GetPosition (RHrVal S_OK 100000);
       Called (GetPlayerChunk 0 480) (RBool false);
       Did LogSeverityTag;
       Did (Log "Failed to get chunk");
       Called Stop (RHr S_OK);
       Called Reset (RHr S_OK) ]
     ++ fruitless_poll_events 1
     ++ [ Called Active (RBool false);
          Called Start (RHr S_OK);
          Did (StoreBufferPosition 0);
          Called Active (RBool false) ],
     []) /\
  run (render_loop 3 session48k (Locals 0 480))
    ([RBool true; RDword 258; RHr S_OK; RHr S_OK]
     ++ fruitless_polls 1 ++ [RBool false; RHr S_OK] ++ [])
  = (Ret (Locals 0 0),
     [ Called Active (RBool true);
       Called (WaitForSingleObject 2000) (RDword 258);
       Did (Log "Got timeout waiting for audio device callback");
       Called Stop (RHr S_OK);
       Called Reset (RHr S_OK) ]
     ++ fruitless_poll_events 1
     ++ [ Called Active (RBool false);
          Called Start (RHr S_OK);
          Did (StoreBufferPosition 0) ],
     []).
Proof.
  refine (C9_stop_during_recovery 2 session48k (Locals 0 480) 0 S_OK 100000 0
            258 S_OK S_OK S_OK 1 [] _ _ _ _ _ _ _);
    first [lia | vm_compute; congruence].
Defined.

(** ** Failures *)

Lemma before_initialize_path fmt idx tr :
  forall m m',
    exec fmt idx m tr = Some m' ->
    before_initialize (pc m') = true ->
    before_initialize (pc m) = true /\ existsb is_initialize tr = false.
Proof.
  induction tr as [| e tr IH]; intros m m' H Hp.
  - inversion H; subst. auto.
  - apply exec_cons in H. destruct H as (m1 & S & H).
    destruct (IH _ _ H Hp) as [P1 F]. cbn. rewrite F.
    step_inv S; cbn in *; auto; unfold checked in *;
      repeat match goal with
        | H : context [if ?c then _ else _] |- _ => destruct c
        end; cbn in *; discriminate.
Qed.

Lemma FAILED_E_FAIL : FAILED E_FAIL = true.
Proof. reflexivity. Qed.

(** A run that has ended after the first [Initialize] answered that the
    buffer is not aligned has gone on with lines 231-243. *)
Lemma initialize_again_path fmt idx r after m m' :
  pc m = AtAlignedSize ->
  exec fmt idx m after = Some m' -> ends_as r (pc m') ->
  initialized_again r after.
Proof.
  intros P H He. unfold initialized_again.
  destruct after as [| e1 after].
  { inversion H; subst m'. apply (ends_as_awaiting _ _ He). now rewrite P. }
  apply exec_cons in H. destruct H as (m1 & S1 & H).
  step_inv S1; try congruence. unfold checked in H.
  destruct (FAILED hr) eqn:F1.
  { pose proof (exec_ended _ _ _ _ _ H eq_refl eq_refl) as ->.
    inversion H; subst m'. split; [reflexivity |].
    now apply ends_as_thrown. }
  destruct after as [| e2 after].
  { inversion H; subst m'. now apply (ends_as_awaiting _ _ He). }
  apply exec_cons in H. destruct H as (m2 & S2 & H).
  step_inv S2. unfold checked in H.
  destruct (FAILED hr0) eqn:F2.
  { pose proof (exec_ended _ _ _ _ _ H eq_refl eq_refl) as ->.
    inversion H; subst m'. split; [reflexivity |].
    now apply ends_as_thrown. }
  destruct after as [| e3 after].
  { inversion H; subst m'. now apply (ends_as_awaiting _ _ He). }
  apply exec_cons in H. destruct H as (m3 & S3 & H).
  step_inv S3. unfold checked in H.
  destruct (FAILED hr1) eqn:F3; [| exact I].
  pose proof (exec_ended _ _ _ _ _ H eq_refl eq_refl) as ->.
  inversion H; subst m'. split; [reflexivity |].
  now apply ends_as_thrown.
Qed.

(** C6, as the code has it.  A run ends with an exception only when its
    last event is a call that failed, never on a pacing timeout or a
    starved chunk request; and a failed [HRESULT] from [Initialize],
    [GetService], [Start], [Stop], [Reset], [GetBuffer] or
    [ReleaseBuffer] ends the run at once with that exception, except
    that after [AUDCLNT_E_BUFFER_SIZE_NOT_ALIGNED] from the first
    [Initialize] the worker asks for the buffer size, activates the
    client again and calls [Initialize] a second time, a failure of any
    of these three calls ending the run with its exception. *)
Theorem C6_failures fmt idx script r tr :
  worker fmt idx script = (r, tr) ->
  (forall hr line,
      r = Throw hr line ->
      FAILED hr = true /\
      exists before e, tr = before ++ [e] /\ failure_of e = Some hr) /\
  (forall before c hr after,
      tr = before ++ Called c (RHr hr) :: after ->
      fatal_call c = true -> FAILED hr = true ->
      (c = Initialize /\
       to_int32 hr = AUDCLNT_E_BUFFER_SIZE_NOT_ALIGNED /\
       existsb is_initialize before = false /\
       initialized_again r after)
      \/ (after = [] /\ exists line, r = Throw hr line)).
Proof.
  intros Hw.
  destruct (worker_refines _ _ _ _ _ Hw) as (m & Hm & He). split.
  - intros hr line ->. unfold ends_as, ends in He.
    apply exec_back in Hm; [| rewrite He; discriminate].
    destruct Hm as (tr0 & e & m0 & -> & _ & S).
    assert (FAILED hr = true /\ failure_of e = Some hr) as [F1 F2].
    { step_inv S; cbn in He; unfold checked in He;
        repeat match type of He with
          | context [if ?c then _ else _] => destruct c eqn:?
          end; try discriminate He; inversion He; subst; cbn;
        rewrite ?FAILED_E_FAIL;
        repeat match goal with
          | F : FAILED _ = true |- _ => rewrite F
          | F : (_ =? _) = true |- _ => rewrite F
          end; auto. }
    split; [exact F1 | eauto].
  - intros before c hr after -> Hc Hf.
    apply exec_split in Hm. destruct Hm as (m1 & m2 & H1 & S & H2).
    destruct c; try discriminate Hc; clear Hc.
    all: step_inv S; unfold checked in H2; rewrite ?Hf in H2.
    all: try (right;
              pose proof (exec_ended _ _ _ _ _ H2 eq_refl eq_refl) as ->;
              inversion H2; subst m; split; [reflexivity |];
              eexists; apply ends_as_thrown; exact He).
    left. apply Z.eqb_eq in Heqb. repeat split; auto.
    + eapply before_initialize_path; [eassumption | rewrite Heqp; reflexivity].
    + eapply initialize_again_path; [| eassumption | eassumption]. reflexivity.
Qed.

(** When [Stop] fails in a recovery the run ends there, with the
    exception of line 339; and when the first [Initialize] answers that
    the buffer is not aligned, [GetBufferSize], [Activate] and a second
    [Initialize] follow. *)
Lemma C6_failures_witness :
  (worker cd48k 0 stop_fails
   = (Throw 0x80004005 339,
      firstn 22 (snd (worker cd48k 0 stop_fails))
      ++ [Called Stop (RHr 0x80004005)]) /\
   skipn 23 (snd (worker cd48k 0 stop_fails)) = [] /\
   exists line, Throw 0x80004005 339 = Throw (A := unit) 0x80004005 line) /\
  (firstn 4 (skipn 5 (snd (worker cd48k 0 unaligned_buffer)))
   = [ Called Initialize (RHr 0x88890019);
       Called GetBufferSize (RHrVal S_OK 512);
       Called Activate (RHr S_OK);
       Called Initialize (RHr S_OK) ] /\
   initialized_again (Ret tt) (skipn 6 (snd (worker cd48k 0 unaligned_buffer)))).
Proof.
  split.
  - split; [vm_compute; reflexivity |].
    destruct (proj2 (C6_failures cd48k 0 stop_fails (Throw 0x80004005 339)
                       (snd (worker cd48k 0 stop_fails))
                       ltac:(vm_compute; reflexivity))
                (firstn 22 (snd (worker cd48k 0 stop_fails))) Stop 0x80004005
                (skipn 23 (snd (worker cd48k 0 stop_fails)))
                ltac:(vm_compute; reflexivity) eq_refl
                ltac:(vm_compute; reflexivity))
      as [[H _] | H]; [discriminate H | exact H].
  - split; [vm_compute; reflexivity |].
    destruct (proj2 (C6_failures cd48k 0 unaligned_buffer (Ret tt)
                       (snd (worker cd48k 0 unaligned_buffer))
                       ltac:(vm_compute; reflexivity))
                (firstn 5 (snd (worker cd48k 0 unaligned_buffer)))
                Initialize 0x88890019
                (skipn 6 (snd (worker cd48k 0 unaligned_buffer)))
                ltac:(vm_compute; reflexivity) eq_refl
                ltac:(vm_compute; reflexivity))
      as [(_ & _ & _ & H) | (_ & line & H)]; [exact H | discriminate H].
Defined.

(** C6 as stated fails for [Initialize]: its first call fails with
    [AUDCLNT_E_BUFFER_SIZE_NOT_ALIGNED], no exception is raised, the
    client is activated and initialised again and the worker runs on
    until the flag is cleared. *)
Lemma C6_counterexample :
  FAILED 0x88890019 = true /\
  fatal_call Initialize = true /\
  worker cd48k 0 unaligned_buffer
  = (Ret tt,
     [ Called CoCreateInstance (RHr S_OK);
       Called GetDefaultAudioEndpoint (RHr S_OK);
       Called Activate (RHr S_OK);
       Called IsFormatSupported (RHr S_OK);
       Called GetDevicePeriod (RHr S_OK);
       Called Initialize (RHr 0x88890019);
       Called GetBufferSize (RHrVal S_OK 512);
       Called Activate (RHr S_OK);
       Called Initialize (RHr S_OK);
       Called CreateEvent (RHandle 1);
       Called SetEventHandle (RHr S_OK);
       Called GetBufferSize (RHrVal S_OK 512);
       Called (GetService IID_IAudioRenderClient) (RHr S_OK);
       Called (GetService IID_IAudioClock) (RHr S_OK);
       Called AvSetMmThreadCharacteristics (RHandle 1);
       Called Start (RHr S_OK);
       Did (StoreBufferPosition 0);
       Called GetFrequency (RHrVal S_OK 10000000);
       Called Active (RBool false) ]).
Proof. vm_compute. repeat split; reflexivity. Qed.

(** ** The end-to-end scenario *)

Lemma render_loop_delivered fuel s st d hrp ticks hr1 hr2 rest lg :
  u32 d = WAIT_OBJECT_0 ->
  0 < sampleRate s -> 0 < frequency s ->
  FAILED hr1 = false -> FAILED hr2 = false ->
  render_loop (S fuel) s st
    (World (RBool true :: RDword d :: RBool true :: RHrVal hrp ticks
            :: RBool true :: RHr hr1 :: RHr hr2 :: rest) lg)
  = render_loop fuel s
      (Locals (u64 ticks) (u64 (bufferPosition st + bufferFrameCount s)))
      (World rest
         (Did (StoreBufferPosition
                 (u64 (bufferPosition st + bufferFrameCount s)))
          :: Called (ReleaseBuffer (bufferFrameCount s) 0) (RHr hr2)
          :: Did (Memcpy (bufferSize s))
          :: Called (GetBuffer (bufferFrameCount s)) (RHr hr1)
          :: Did (AdjustVolume (bufferFrameCount s))
          :: Called (GetPlayerChunk
                       (microseconds
                          (drift_u64 (bufferPosition st) (sampleRate s)
                             (u64 ticks) (frequency s)))
                       (bufferFrameCount s)) (RBool true)
          :: Called GetPosition (RHrVal hrp ticks)
          :: Called Active (RBool true)
          :: Called (WaitForSingleObject 2000) (RDword d)
          :: Called Active (RBool true) :: lg)).
Proof.
  intros Hd Hs Hf F1 F2. cbn [render_loop].
  unfold bind at 1. unfold call_bool at 1. cbn [input log].
  unfold bind at 1.
  rewrite (iteration_delivered _ _ _ _ _ _ _ _ _ _ _ Hd
             (drift_us_defined _ _ _ _ Hs Hf) F1 F2).
  reflexivity.
Qed.

Lemma render_loop_starved k fuel s st d hrp ticks hr1 hr2 hr3 rest lg :
  (k < fuel)%nat ->
  u32 d = WAIT_OBJECT_0 ->
  0 < sampleRate s -> 0 < frequency s ->
  FAILED hr1 = false -> FAILED hr2 = false -> FAILED hr3 = false ->
  render_loop (S fuel) s st
    (World (RBool true :: RDword d :: RBool true :: RHrVal hrp ticks
            :: RBool false :: RHr hr1 :: RHr hr2
            :: fruitless_polls k ++ RBool true :: RBool true :: RHr hr3
            :: rest) lg)
  = render_loop fuel s (Locals (u64 ticks) 0)
      (World rest
         (Did (StoreBufferPosition 0) :: Called Start (RHr hr3)
          :: Called (WaitForChunk 100) (RBool true)
          :: Called Active (RBool true)
          :: rev (fruitless_poll_events k)
          ++ Called Reset (RHr hr2) :: Called Stop (RHr hr1)
          :: Did (Log "Failed to get chunk") :: Did LogSeverityTag
          :: Called (GetPlayerChunk
                       (microseconds
                          (drift_u64 (bufferPosition st) (sampleRate s)
                             (u64 ticks) (frequency s)))
                       (bufferFrameCount s)) (RBool false)
          :: Called GetPosition (RHrVal hrp ticks)
          :: Called Active (RBool true)
          :: Called (WaitForSingleObject 2000) (RDword d)
          :: Called Active (RBool true) :: lg)).
Proof.
  intros Hk Hd Hs Hf F1 F2 F3.
  rewrite (render_loop_no_chunk _ _ _ _ _ _ _ _ _ Hd
             (drift_us_defined _ _ _ _ Hs Hf)).
  unfold bind. rewrite recover_data by assumption. reflexivity.
Qed.

Lemma fruitless_polls_length k :
  List.length (fruitless_polls k) = (2 * k)%nat.
Proof. induction k as [| k IH]; cbn; [reflexivity | rewrite IH; lia]. Qed.

Lemma stores_fruitless k : stores (fruitless_poll_events k) = [].
Proof. induction k as [| k IH]; [reflexivity | exact IH]. Qed.

Lemma stages_fruitless k : stages (fruitless_poll_events k) = [].
Proof. induction k as [| k IH]; [reflexivity | exact IH]. Qed.

Lemma setup_session fmt frames freq rest :
  setup fmt 0 (World (session_answers frames freq ++ rest) [])
  = (Ret (Session (nSamplesPerSec fmt) (u32 frames)
            (u32 (u32 frames * nBlockAlign fmt)) (u64 freq)),
     World rest (rev (session_events frames freq))).
Proof. reflexivity. Qed.

Lemma stores_app a b : stores (a ++ b) = stores a ++ stores b.
Proof.
  induction a as [| [c ans | []] a IH]; cbn; rewrite ?IH; reflexivity.
Qed.

Lemma stages_app a b : stages (a ++ b) = stages a ++ stages b.
Proof.
  induction a as [| [[] [[|] | | | |] | []] a IH]; cbn; rewrite ?IH;
    try reflexivity.
  destruct (FAILED hr); reflexivity.
Qed.

(** C8.  With periods of 480 frames at 48 kHz, five chunks delivered,
    then no chunk until the stream has data again after [k] polls of
    100 ms, then five more chunks and the stop: the worker returns,
    [bufferPosition] is initialised to 0 and then takes the values 480
    to 2400, 0, and 480 to 2400; the client is stopped and reset once
    and started twice, at the start of the session and after the gap;
    and each of the ten chunks is delivered, has its volume adjusted and
    is committed, in this order. *)
Theorem C8_end_to_end freq t1 t2 t3 t4 t5 ticks k u1 u2 u3 u4 u5 :
  0 < freq < 2 ^ 64 ->
  let result :=
    worker cd48k 0
      (gap_scenario freq [t1; t2; t3; t4; t5] ticks k [u1; u2; u3; u4; u5]) in
  fst result = Ret tt /\
  stores (snd result)
  = [0; 480; 960; 1440; 1920; 2400; 0; 480; 960; 1440; 1920; 2400] /\
  count is_stop_call (snd result) = 1%nat /\
  count is_reset_call (snd result) = 1%nat /\
  count is_start_call (snd result) = 2%nat /\
  stages (snd result)
  = List.concat (repeat [Delivered; VolumeAdjusted; Committed] 10).
Proof.
  intros Hfreq result.
  assert (Hf : 0 < u64 freq) by (rewrite u64_small; lia).
  assert (Hlen : List.length
                   (gap_scenario freq [t1; t2; t3; t4; t5] ticks k
                      [u1; u2; u3; u4; u5])
                 = (11 + (84 + 2 * k))%nat).
  { unfold gap_scenario, starved_until.
    rewrite !length_app, fruitless_polls_length. cbn. lia. }
  unfold result, worker, worker_fuel. rewrite Hlen.
  unfold bind. unfold gap_scenario. rewrite setup_session.
  change (nSamplesPerSec cd48k) with 48000.
  change (u32 480) with 480.
  change (u32 (480 * nBlockAlign cd48k)) with 1920.
  cbn [flat_map delivered starved_until app Nat.add].
  rewrite <- !app_assoc. cbn [app].
  do 5 (rewrite render_loop_delivered
         by (cbn; first [reflexivity | assumption | lia]);
        cbn [bufferPosition bufferFrameCount sampleRate frequency bufferSize
               position]).
  rewrite render_loop_starved
    by (cbn; first [reflexivity | assumption | lia]).
  do 5 (rewrite render_loop_delivered
         by (cbn; first [reflexivity | assumption | lia]);
        cbn [bufferPosition bufferFrameCount sampleRate frequency bufferSize
               position]).
  rewrite render_loop_stopped.
  unfold ret. cbn [fst snd]. chronological. rewrite rev_involutive.
  split; [reflexivity |].
  rewrite !stores_app, !stages_app, !count_app.
  cbn [stores stages count is_stop_call is_reset_call is_start_call].
  rewrite !stores_app, !stages_app, !count_app, stores_fruitless,
    stages_fruitless, !count_fruitless by reflexivity.
  repeat split; reflexivity.
Qed.

(** Ten periods of 10 ms on a 10 MHz clock with a gap of three polls. *)
Lemma C8_end_to_end_witness :
  let result :=
    worker cd48k 0
      (gap_scenario 10000000 [0; 100000; 200000; 300000; 400000] 500000 3
         [0; 100000; 200000; 300000; 400000]) in
  fst result = Ret tt /\
  stores (snd result)
  = [0; 480; 960; 1440; 1920; 2400; 0; 480; 960; 1440; 1920; 2400] /\
  count is_stop_call (snd result) = 1%nat /\
  count is_reset_call (snd result) = 1%nat /\
  count is_start_call (snd result) = 2%nat /\
  stages (snd result)
  = List.concat (repeat [Delivered; VolumeAdjusted; Committed] 10).
Proof. apply C8_end_to_end. lia. Defined.

(** * Part III: further properties of the worker *)

(** ** The order of the calls on the stream *)

Lemma keeps_stream_order_path fmt idx tr :
  forall m m' started,
    exec fmt idx m tr = Some m' ->
    (ended (pc m) = false -> started = started_at (pc m)) ->
    keeps_stream_order started tr = true.
Proof.
  induction tr as [| e tr IH]; intros m m' started H Hs; [reflexivity |].
  apply exec_cons in H. destruct H as (m1 & S & H).
  cbn [keeps_stream_order].
  step_inv S; rewrite Hs by reflexivity; cbn [started_at negb andb];
    eapply IH; try eassumption; cbn; unfold checked;
    repeat match goal with
      | |- context [if ?c then _ else _] => destruct c
      end; cbn; intros; auto; try discriminate.
Qed.

Lemma stream_started_path fmt idx tr :
  forall m,
    exec fmt idx initial tr = Some m ->
    (exists hr line, pc m = Thrown hr line) \/
    stream_started tr = started_at (pc m).
Proof.
  induction tr as [| e tr IH] using rev_ind; intros m H.
  - inversion H; subst. right. reflexivity.
  - rewrite exec_snoc in H.
    destruct (exec fmt idx initial tr) as [m0 |]; [| discriminate].
    destruct (IH m0 eq_refl) as [(hr0 & l0 & P0) | I0].
    + step_inv H; congruence.
    + unfold stream_started in *. rewrite fold_left_app. cbn [fold_left].
      rewrite I0.
      step_inv H; cbn; unfold checked;
        repeat match goal with
          | |- context [if ?c then _ else _] => destruct c eqn:?
          end; cbn; eauto; try congruence.
Qed.

(** X1.  In every run the calls on the stream come in the order the audio
    client asks for, and a worker that returns leaves the stream
    started: it does not call [Stop] on its way out. *)
Theorem X1_stream_order fmt idx script r tr :
  worker fmt idx script = (r, tr) ->
  keeps_stream_order false tr = true /\
  (r = Ret tt -> stream_started tr = true).
Proof.
  intros Hw. destruct (worker_refines _ _ _ _ _ Hw) as (m & Hm & He). split.
  - eapply keeps_stream_order_path; [eassumption | reflexivity].
  - intros ->. cbn in He.
    destruct (stream_started_path _ _ _ _ Hm) as [(hr & l & P) | P];
      [congruence |].
    rewrite P, He. reflexivity.
Qed.

(** ** The commit of a chunk *)

Lemma nBlockAlign_nonneg fmt : 0 <= nBlockAlign fmt.
Proof. unfold nBlockAlign, u16. apply Z.mod_pos_bound. lia. Qed.

Lemma u32_le z : 0 <= z -> u32 z <= z.
Proof. intros H. unfold u32. apply Z.mod_le; lia. Qed.

(** X2.  A buffer the render client has handed out for [n] frames is
    what the period asked for, follows the delivery of a chunk of [n]
    frames and its volume adjustment, is filled with
    [n * nBlockAlign] bytes reduced to 32 bits, never more than the [n]
    frames hold, and is released next with the same [n] frames and no
    flags. *)
Theorem X2_commit fmt idx script r tr before n hr after :
  worker fmt idx script = (r, tr) ->
  tr = before ++ Called (GetBuffer n) (RHr hr) :: after ->
  FAILED hr = false ->
  n = buffer_frames before /\
  (exists before' usec,
      before = before' ++ [ Called (GetPlayerChunk usec n) (RBool true);
                            Did (AdjustVolume n) ]) /\
  (exists rest,
      after = Did (Memcpy (u32 (n * nBlockAlign fmt))) :: rest /\
      (rest = [] /\ r = NoAnswer \/
       exists hr' rest',
         rest = Called (ReleaseBuffer n 0) (RHr hr') :: rest')) /\
  u32 (n * nBlockAlign fmt) <= n * nBlockAlign fmt.
Proof.
  intros Hw -> Hf.
  destruct (worker_refines _ _ _ _ _ Hw) as (m & Hm & He).
  apply exec_split in Hm. destruct Hm as (m1 & m2 & H1 & S & H2).
  destruct (exec_registers _ _ _ _ H1) as (_ & Hbfc & _).
  destruct (exec_ranges _ _ _ _ H1) as (_ & _ & Rbfc).
  step_inv S. apply Z.eqb_eq in Heqb. subst n.
  unfold checked in H2. rewrite Hf in H2.
  specialize (Hbfc eq_refl).
  split; [exact Hbfc |]. split; [| split].
  - back. back. eqb_facts. subst.
    rewrite <- app_assoc. cbn [app]. eexists _, _. reflexivity.
  - destruct after as [| e1 rest].
    + inversion H2; subst m. apply ends_as_acting in He; [| reflexivity].
      discriminate He.
    + apply exec_cons in H2. destruct H2 as (m3 & S3 & H2).
      step_inv S3. apply Z.eqb_eq in Heqb. subst size.
      eexists. split; [reflexivity |].
      destruct rest as [| e2 rest].
      * left. inversion H2; subst m. split; [reflexivity |].
        eapply ends_as_awaiting; [exact He | reflexivity].
      * right. apply exec_cons in H2. destruct H2 as (m4 & S4 & H2).
        step_inv S4. eqb_facts. subst. eauto.
  - apply u32_le. pose proof (nBlockAlign_nonneg fmt). nia.
Qed.

(** ** Division by zero *)

Lemma drift_us_undefined bp sr pos fr :
  drift_us bp sr pos fr = None <-> sr = 0 \/ fr = 0.
Proof.
  unfold drift_us.
  destruct (Z.eqb_spec sr 0), (Z.eqb_spec fr 0); cbn; split; intros H;
    auto; try discriminate; lia.
Qed.

Lemma ends_as_crashed r : ends_as r Crashed -> r = Undefined.
Proof.
  unfold ends_as, ends.
  destruct r; intros H; try reflexivity; try discriminate; contradiction.
Qed.

(** X3.  The worker divides by zero exactly when it has read the clock
    position while the sample rate of the stream or the frequency the
    clock has reported is zero: the run ends there, before any chunk is
    asked for. *)
Theorem X3_division_by_zero fmt idx script r tr :
  worker fmt idx script = (r, tr) ->
  r = Undefined <->
  exists before hr v,
    tr = before ++ [Called GetPosition (RHrVal hr v)] /\
    (nSamplesPerSec fmt = 0 \/ clock_frequency before = 0).
Proof.
  intros Hw. destruct (worker_refines _ _ _ _ _ Hw) as (m & Hm & He). split.
  - intros ->. cbn in He.
    apply exec_back in Hm; [| rewrite He; discriminate].
    destruct Hm as (tr0 & e & m0 & -> & H0 & S).
    destruct (exec_registers _ _ _ _ H0) as (_ & _ & Hfr).
    step_inv S; cbn in He; unfold checked in He;
      repeat match type of He with
        | context [if ?c then _ else _] => destruct c eqn:?
        end; try discriminate He.
    eexists _, _, _. split; [reflexivity |].
    rewrite <- (Hfr eq_refl).
    eapply drift_us_undefined. eassumption.
  - intros (before & hr & v & -> & Hz).
    rewrite exec_snoc in Hm.
    destruct (exec fmt idx initial before) as [m0 |] eqn:H0; [| discriminate].
    destruct (exec_registers _ _ _ _ H0) as (_ & _ & Hfr).
    step_inv Hm.
    + rewrite <- (Hfr eq_refl) in Hz.
      match goal with
      | E : drift_us ?a ?b ?c ?d = Some _ |- _ =>
          apply (proj2 (drift_us_undefined a b c d)) in Hz; congruence
      end.
    + apply ends_as_crashed. exact He.
Qed.

(** ** The ways out of the loop *)

Lemma timeout_history fmt idx tr :
  forall m,
    exec fmt idx initial tr = Some m ->
    in_timeout_branch (pc m) = true ->
    exists before d after,
      tr = before ++ Called (WaitForSingleObject 2000) (RDword d) :: after /\
      u32 d <> WAIT_OBJECT_0.
Proof.
  induction tr as [| e tr IH] using rev_ind; intros m H Hp.
  - inversion H; subst. discriminate Hp.
  - rewrite exec_snoc in H.
    destruct (exec fmt idx initial tr) as [m0 |]; [| discriminate].
    specialize (IH m0 eq_refl).
    step_inv H;
      try match goal with b : branch |- _ => destruct b end;
      cbn in Hp; unfold checked in Hp;
      repeat match type of Hp with
        | context [if ?c then _ else _] => destruct c eqn:?
        end; try discriminate Hp.
    all: try (destruct IH as (tr0 & d0 & tr1 & -> & Hd); [reflexivity |];
              eexists tr0, d0, (tr1 ++ [_]);
              rewrite <- app_assoc; cbn; split; [reflexivity | assumption]).
    apply Z.eqb_eq in Heqb. subst. apply Z.eqb_neq in Heqb0.
    eexists tr, d, []. auto.
Qed.

(** X4.  The worker returns only when it has read the flag as cleared at
    the top of the loop or after the pacing wait, or when a pacing wait
    has timed out and the recovery has restarted the client. *)
Theorem X4_return fmt idx script r tr :
  worker fmt idx script = (r, tr) ->
  r = Ret tt ->
  (exists before, tr = before ++ [Called Active (RBool false)]) \/
  (exists before d mid hr,
      tr = before ++ Called (WaitForSingleObject 2000) (RDword d)
             :: mid ++ [Called Start (RHr hr); Did (StoreBufferPosition 0)] /\
      u32 d <> WAIT_OBJECT_0).
Proof.
  intros Hw ->. destruct (worker_refines _ _ _ _ _ Hw) as (m & Hm & He).
  cbn in He.
  apply exec_back in Hm; [| rewrite He; discriminate].
  destruct Hm as (tr0 & e & m0 & -> & H0 & S).
  step_inv S; cbn in He; unfold checked in He;
    repeat match type of He with
      | context [if ?c then _ else _] => destruct c eqn:?
      end; try discriminate He.
  1, 2: left; eauto.
  right. eqb_facts. subst.
  apply exec_back in H0; [| rewrite Heqp; discriminate].
  destruct H0 as (tr1 & e1 & m1 & -> & H1 & S1).
  assert (in_timeout_branch (pc m1) = true /\
          exists hr, e1 = Called Start (RHr hr)) as [P1 (hr & ->)].
  { step_inv S1; cbn in Heqp; unfold checked in Heqp;
      repeat match type of Heqp with
        | context [if ?c then _ else _] => destruct c eqn:?
        end; try discriminate Heqp.
    inversion Heqp; subst. split; [reflexivity | eauto]. }
  destruct (timeout_history _ _ _ _ H1 P1) as (b0 & d0 & a0 & -> & Hd).
  exists b0, d0, a0, hr. split; [| exact Hd].
  rewrite <- !app_assoc. reflexivity.
Qed.

(** ** Where an exception comes from *)

(** X5.  The line an exception carries is the line of a [CHECK_HR] that
    looks at the call the run has ended with; no exception carries line
    297, the check of [ERROR_TIMEOUT]. *)
Theorem X5_exception_line fmt idx script r tr hr line :
  worker fmt idx script = (r, tr) ->
  r = Throw hr line ->
  line <> 297 /\
  exists before c ans,
    tr = before ++ [Called c ans] /\ In line (check_lines c).
Proof.
  intros Hw ->. destruct (worker_refines _ _ _ _ _ Hw) as (m & Hm & He).
  cbn in He.
  apply exec_back in Hm; [| rewrite He; discriminate].
  destruct Hm as (tr0 & e & m0 & -> & _ & S).
  step_inv S; cbn in He; unfold checked in He;
    repeat match type of He with
      | context [if ?c then _ else _] => destruct c eqn:?
      end; try discriminate He; inversion He; subst;
    try match goal with b : branch |- _ => destruct b end;
    (split; [discriminate |]);
    eexists _, _, _; (split; [reflexivity |]); cbn; auto.
Qed.

(** ** Calls that fail *)

(** X6.  What becomes of a call that fails, [devices->Item] apart (its
    result is not looked at either, but its failure leaves no device
    to activate, which the embedding does not follow).  The results of
    [GetFrequency] and [GetPosition] are not looked at: the exception
    of [CHECK_HR] is never raised at them, and if a run ends with it, it
    comes from a later call.  Every other failed [HRESULT], and a [NULL]
    handle from [CreateEvent] or [AvSetMmThreadCharacteristics] (as
    [E_FAIL]), ends the run at once with that exception, the unaligned
    first [Initialize] apart. *)
Theorem X6_error_policy fmt idx script r tr before c ans hr after :
  worker fmt idx script = (r, tr) ->
  tr = before ++ Called c ans :: after ->
  failure_of (Called c ans) = Some hr ->
  (forall i, c <> Item i) ->
  if unchecked c then forall hr' line, r = Throw hr' line -> after <> []
  else
    (c = Initialize /\
     to_int32 hr = AUDCLNT_E_BUFFER_SIZE_NOT_ALIGNED /\
     existsb is_initialize before = false)
    \/ (after = [] /\ exists line, r = Throw hr line).
Proof.
  intros Hw -> Hf Hitem.
  destruct (worker_refines _ _ _ _ _ Hw) as (m & Hm & He).
  apply exec_split in Hm. destruct Hm as (m1 & m2 & H1 & S & H2).
  unfold failure_of in Hf.
  destruct c, ans; try discriminate Hf;
    try (exfalso; eapply Hitem; reflexivity);
    repeat match type of Hf with
      | (if ?c then _ else _) = Some _ => destruct c eqn:?; try discriminate Hf
      end; inversion Hf; subst; clear Hf; cbn [unchecked].
  all: step_inv S; unfold checked in H2;
    rewrite ?FAILED_E_FAIL in H2;
    repeat match goal with
      | F : FAILED _ = true |- _ => rewrite F in H2
      | F : (_ =? 0) = true |- _ => rewrite F in H2
      end.
  all: try (right;
            pose proof (exec_ended _ _ _ _ _ H2 eq_refl eq_refl) as ->;
            inversion H2; subst m; split; [reflexivity |];
            eexists; apply ends_as_thrown; exact He).
  all: try (intros hr' line -> ->; inversion H2; subst m; cbn in He;
            discriminate He).
  left. apply Z.eqb_eq in Heqb0. repeat split; auto.
  eapply before_initialize_path; [eassumption | rewrite Heqp; reflexivity].
Qed.

(** ** The choice of the device *)

Lemma at_start fmt idx tr m :
  exec fmt idx initial tr = Some m -> pc m = AtCoCreateInstance -> tr = [].
Proof.
  intros H Hp. destruct tr as [| e0 tr0] using rev_ind; [reflexivity |].
  clear IHtr0. rewrite exec_snoc in H.
  destruct (exec fmt idx initial tr0) as [m0 |]; [| discriminate].
  step_inv H; cbn in Hp; unfold checked in Hp;
    repeat match type of Hp with
      | context [if ?c then _ else _] => destruct c
      end; discriminate Hp.
Qed.

Lemma endpoint_path fmt idx tr :
  forall m,
    exec fmt idx initial tr = Some m ->
    (idx = 0 -> existsb is_enumeration tr = false /\ pc m <> AtItem) /\
    (idx <> 0 -> existsb is_default_endpoint tr = false).
Proof.
  induction tr as [| e tr IH] using rev_ind; intros m H.
  - inversion H; subst. cbn. split; [split; [reflexivity | discriminate] | auto].
  - rewrite exec_snoc in H.
    destruct (exec fmt idx initial tr) as [m0 |]; [| discriminate].
    destruct (IH m0 eq_refl) as (I0 & I1).
    rewrite !existsb_app. cbn [existsb].
    split.
    + intros Hz. destruct (I0 Hz) as [E0 P0]. rewrite E0. subst idx.
      step_inv H; cbn; unfold checked;
        repeat match goal with
          | |- context [if ?c then _ else _] => destruct c
          | F : (0 =? 0) = false |- _ => discriminate F
          end;
        try (split; [reflexivity | discriminate]).
      now destruct P0.
    + intros Hz. rewrite (I1 Hz).
      step_inv H; cbn; try reflexivity.
      eqb_facts. contradiction.
Qed.

(** X7.  The device the worker opens.  With [pcmDevice_.idx] zero it
    asks for the default endpoint and never enumerates; otherwise it
    never asks for the default endpoint, and the one item it takes from
    the enumeration, right after [EnumAudioEndpoints] has succeeded, is
    the item [idx - 1] (as a [UINT]). *)
Theorem X7_device_choice fmt idx script r tr :
  worker fmt idx script = (r, tr) ->
  (idx = 0 -> existsb is_enumeration tr = false) /\
  (idx <> 0 -> existsb is_default_endpoint tr = false) /\
  (forall before i ans after,
      tr = before ++ Called (Item i) ans :: after ->
      i = u32 (idx - 1) /\
      exists h1 h2,
        before = [ Called CoCreateInstance (RHr h1);
                   Called EnumAudioEndpoints (RHr h2) ] /\
        FAILED h1 = false /\ FAILED h2 = false).
Proof.
  intros Hw. destruct (worker_refines _ _ _ _ _ Hw) as (m & Hm & _).
  destruct (endpoint_path _ _ _ _ Hm) as (I0 & I1).
  split; [intros Hz; apply (I0 Hz) |]. split; [exact I1 |].
  intros before i ans after ->.
  apply exec_split in Hm. destruct Hm as (m1 & m2 & H1 & S & _).
  destruct ans; step_inv S. eqb_facts. split; [assumption |].
  back. back.
  pose proof (at_start _ _ _ _ H1 Heqp) as ->.
  eexists _, _. split; [reflexivity |]. auto.
Qed.

(** ** Periods *)

Lemma u64_add_l a b : u64 (u64 a + b) = u64 (a + b).
Proof. unfold u64. apply Zplus_mod_idemp_l. Qed.

#[local] Opaque u64 u32 FAILED.

Lemma periods_path fmt idx tr :
  forall m,
    exec fmt idx initial tr = Some m ->
    (past_setup (pc m) = false ->
     m_bufferPosition m = 0 /\ committed_periods tr = 0) /\
    (synced (pc m) = true ->
     m_bufferPosition m = u64 (committed_periods tr * m_bufferFrameCount m)) /\
    (pc m = AtAdvance ->
     m_bufferPosition m
     = u64 ((committed_periods tr - 1) * m_bufferFrameCount m)) /\
    (forall b, pc m = AtRewind b -> committed_periods tr = 0).
Proof.
  induction tr as [| e tr IH] using rev_ind; intros m H.
  - inversion H; subst. cbn. repeat split; intros; try reflexivity;
      discriminate.
  - rewrite exec_snoc in H.
    destruct (exec fmt idx initial tr) as [m0 |]; [| discriminate].
    destruct (IH m0 eq_refl) as (I0 & I1 & I2 & I3).
    unfold committed_periods in *. rewrite fold_left_app. cbn [fold_left].
    remember (fold_left _ tr 0) as n eqn:En. clear En IH.
    step_inv H; cbn; unfold checked;
      repeat match goal with
        | |- context [if ?c then _ else _] => destruct c eqn:?
        end;
      cbn;
      (split; [intros Hq |
       split; [intros Hq | split; [intros Hq | intros b' Hq]]]);
      try discriminate Hq; clear Hq;
      eqb_facts; subst;
      first [ destruct (I0 eq_refl) as [E0 N0]; rewrite ?E0, ?N0
            | rewrite (I1 eq_refl)
            | rewrite (I2 eq_refl)
            | rewrite (I3 _ eq_refl)
            | idtac ];
      rewrite ?u64_add_l;
      try reflexivity; try (split; reflexivity).
    all: f_equal; ring.
Qed.

#[local] Transparent u64 u32 FAILED.

(** X8.  At every chunk request [bufferPosition] is the number of
    periods committed since the stream was last started times the
    period's frame count (modulo [2 ^ 64]), and the request is for one
    period. *)
Theorem X8_position_counts_periods fmt idx script r tr before usec frames
  got after :
  worker fmt idx script = (r, tr) ->
  tr = before ++ Called (GetPlayerChunk usec frames) (RBool got) :: after ->
  frames = buffer_frames before /\
  stored_position before
  = u64 (committed_periods before * buffer_frames before).
Proof.
  intros Hw ->. destruct (worker_refines _ _ _ _ _ Hw) as (m & Hm & _).
  apply exec_split in Hm. destruct Hm as (m1 & m2 & H1 & S & _).
  destruct (exec_registers _ _ _ _ H1) as (Hbp & Hbfc & _).
  destruct (periods_path _ _ _ _ H1) as (_ & I1 & _ & _).
  step_inv S. eqb_facts. subst.
  rewrite <- Hbp, <- (Hbfc eq_refl). split; [reflexivity |].
  apply I1. reflexivity.
Qed.

(** ** One request for each pacing signal *)

(** X9.  Every chunk request closes a turn of the loop of exactly this
    shape: the flag read as set, the pacing wait of 2000 ms answered
    with [WAIT_OBJECT_0], the flag read as set again, the clock position
    read. *)
Theorem X9_paced_request fmt idx script r tr before usec frames got after :
  worker fmt idx script = (r, tr) ->
  tr = before ++ Called (GetPlayerChunk usec frames) (RBool got) :: after ->
  exists before' d hr ticks,
    before = before' ++ [ Called Active (RBool true);
                          Called (WaitForSingleObject 2000) (RDword d);
                          Called Active (RBool true);
                          Called GetPosition (RHrVal hr ticks) ] /\
    u32 d = WAIT_OBJECT_0.
Proof.
  intros Hw ->. destruct (worker_refines _ _ _ _ _ Hw) as (m & Hm & _).
  apply exec_split in Hm. destruct Hm as (m1 & m2 & H1 & S & _).
  step_inv S. back. back. back. back. eqb_facts. subst.
  rewrite <- !app_assoc. cbn [app].
  eexists _, _, _, _. split; [reflexivity | assumption].
Qed.

(** ** The accuracy of the drift *)

(** X10.  While the two 64-bit products do not wrap and the difference
    fits the signed count, the drift handed to the stream is within one
    microsecond of the exact value
    [bufferPosition * 1000000 / sampleRate - ticks * 1000000 / frequency]
    taken over the rationals: each of the two divisions drops less than
    one microsecond. *)
Theorem X10_drift_accuracy bp sr ticks fr usec :
  0 <= bp -> 0 < sr -> 0 <= ticks -> 0 < fr ->
  bp * 1000000 < 2 ^ 64 -> ticks * 1000000 < 2 ^ 64 ->
  - 2 ^ 63 <= spec_drift bp sr ticks fr < 2 ^ 63 ->
  drift_us bp sr ticks fr = Some usec ->
  (usec - 1) * (sr * fr) < bp * 1000000 * fr - ticks * 1000000 * sr
  < (usec + 1) * (sr * fr).
Proof.
  intros Hbp Hsr Ht Hfr Wbp Wt Hr Hd.
  rewrite <- (u64_small ticks) in Hd by lia.
  rewrite drift_us_formula in Hd by lia.
  injection Hd as <-. unfold spec_drift in *.
  pose proof (Z.div_mod (bp * 1000000) sr ltac:(lia)) as E1.
  pose proof (Z.mod_pos_bound (bp * 1000000) sr Hsr) as B1.
  pose proof (Z.div_mod (ticks * 1000000) fr ltac:(lia)) as E2.
  pose proof (Z.mod_pos_bound (ticks * 1000000) fr Hfr) as B2.
  set (q1 := bp * 1000000 / sr) in *. set (r1 := (bp * 1000000) mod sr) in *.
  set (q2 := ticks * 1000000 / fr) in *.
  set (r2 := (ticks * 1000000) mod fr) in *.
  rewrite E1, E2. nia.
Qed.

(** ** The second attempt to initialise *)

Lemma initialized_closed fmt idx tr :
  forall m m',
    initialized (pc m) = true ->
    exec fmt idx m tr = Some m' ->
    existsb is_initialize tr = false.
Proof.
  induction tr as [| e tr IH]; intros m m' Hp H; [reflexivity |].
  apply exec_cons in H. destruct H as (m1 & S & H).
  assert (initialized (pc m1) = true /\ is_initialize e = false) as [P1 F1].
  { step_inv S; cbn in *; try discriminate; unfold checked;
      repeat match goal with
        | b : branch |- _ => destruct b
        | |- context [if ?c then _ else _] => destruct c
        end; cbn in *; auto. }
  cbn. rewrite F1. eapply IH; eassumption.
Qed.

(** X11.  [Initialize] is called a second time only after the first call
    has answered [AUDCLNT_E_BUFFER_SIZE_NOT_ALIGNED], with nothing in
    between but the read of the aligned buffer size and the activation
    of a new client, both successful; and it is never called a third
    time. *)
Theorem X11_initialize_again fmt idx script r tr before hr1 mid hr2 after :
  worker fmt idx script = (r, tr) ->
  tr = before ++ Called Initialize (RHr hr1)
         :: mid ++ Called Initialize (RHr hr2) :: after ->
  to_int32 hr1 = AUDCLNT_E_BUFFER_SIZE_NOT_ALIGNED /\
  (exists hs size ha,
      mid = [ Called GetBufferSize (RHrVal hs size);
              Called Activate (RHr ha) ] /\
      FAILED hs = false /\ FAILED ha = false) /\
  existsb is_initialize before = false /\
  existsb is_initialize after = false.
Proof.
  intros Hw ->. destruct (worker_refines _ _ _ _ _ Hw) as (m & Hm & _).
  apply exec_split in Hm. destruct Hm as (m1 & m2 & H1 & S & H2).
  assert (Hno : forall p,
             initialized p = true ->
             exec fmt idx (goto p m1)
               (mid ++ Called Initialize (RHr hr2) :: after) = Some m ->
             False).
  { intros p Hp H. apply initialized_closed in H; [| exact Hp].
    rewrite existsb_app in H. cbn in H. rewrite orb_true_r in H.
    discriminate H. }
  step_inv S; unfold checked in H2.
  - (* the first attempt *)
    apply Z.eqb_eq in Heqb. split; [exact Heqb |].
    assert (Hb : existsb is_initialize before = false).
    { eapply before_initialize_path; [eassumption | rewrite Heqp; reflexivity]. }
    destruct mid as [| e1 mid]; [apply exec_cons in H2;
      destruct H2 as (m3 & S3 & _); step_inv S3 |].
    apply exec_cons in H2. destruct H2 as (m3 & S3 & H2).
    step_inv S3. unfold checked in H2.
    destruct (FAILED hr) eqn:F1;
      [destruct mid; apply exec_cons in H2; destruct H2 as (m4 & S4 & _);
       step_inv S4 |].
    destruct mid as [| e2 mid]; [apply exec_cons in H2;
      destruct H2 as (m4 & S4 & _); step_inv S4 |].
    apply exec_cons in H2. destruct H2 as (m4 & S4 & H2).
    step_inv S4. unfold checked in H2.
    destruct (FAILED hr0) eqn:F2;
      [destruct mid; apply exec_cons in H2; destruct H2 as (m5 & S5 & _);
       step_inv S5 |].
    destruct mid as [| e3 mid].
    + apply exec_cons in H2. destruct H2 as (m5 & S5 & H2).
      step_inv S5.
      split; [eauto 8 |]. split; [exact Hb |].
      eapply initialized_closed; [| exact H2].
      unfold checked. destruct (FAILED hr2); reflexivity.
    + exfalso. apply exec_cons in H2. destruct H2 as (m5 & S5 & H2).
      step_inv S5.
      apply initialized_closed in H2;
        [| unfold checked;
           match goal with
           | |- context [FAILED ?h] => destruct (FAILED h)
           end; reflexivity].
      rewrite existsb_app in H2. cbn in H2. rewrite orb_true_r in H2.
      discriminate H2.
  - exfalso. destruct (FAILED hr1);
      [apply (Hno (Thrown hr1 245)) | apply (Hno AtCreateEvent)];
      auto.
  - exfalso. destruct (FAILED hr1);
      [apply (Hno (Thrown hr1 245)) | apply (Hno AtCreateEvent)];
      auto.
Qed.

(** ** The further theorems at work *)

(** A run with a starved period during whose poll the flag is cleared:
    the calls keep the order, and the stream is started when the worker
    returns. *)
Lemma X1_stream_order_witness :
  keeps_stream_order false (snd (worker cd48k 0 stopped_while_starved)) = true
  /\ (Ret tt = Ret tt ->
      stream_started (snd (worker cd48k 0 stopped_while_starved)) = true).
Proof.
  apply (X1_stream_order cd48k 0 stopped_while_starved (Ret tt)
           (snd (worker cd48k 0 stopped_while_starved))).
  vm_compute. reflexivity.
Defined.

(** The second commit of the run of two periods of 48000 frames of four
    bytes. *)
Lemma X2_commit_witness :
  let tr := snd (worker cd48k 0 two_periods) in
  48000 = buffer_frames (firstn 31 tr) /\
  (exists before' usec,
      firstn 31 tr
      = before' ++ [ Called (GetPlayerChunk usec 48000) (RBool true);
                     Did (AdjustVolume 48000) ]) /\
  (exists rest,
      skipn 32 tr = Did (Memcpy (u32 (48000 * nBlockAlign cd48k))) :: rest /\
      (rest = [] /\ Ret tt = NoAnswer \/
       exists hr' rest',
         rest = Called (ReleaseBuffer 48000 0) (RHr hr') :: rest')) /\
  u32 (48000 * nBlockAlign cd48k) <= 48000 * nBlockAlign cd48k.
Proof.
  apply (X2_commit cd48k 0 two_periods (Ret tt)
           (snd (worker cd48k 0 two_periods))
           (firstn 31 (snd (worker cd48k 0 two_periods))) 48000 S_OK
           (skipn 32 (snd (worker cd48k 0 two_periods))));
    vm_compute; reflexivity.
Defined.

(** A clock that reports the frequency 0. *)
Lemma X3_division_by_zero_witness :
  fst (worker cd48k 0 silent_clock) = Undefined /\
  exists before hr v,
    snd (worker cd48k 0 silent_clock)
    = before ++ [Called GetPosition (RHrVal hr v)] /\
    (nSamplesPerSec cd48k = 0 \/ clock_frequency before = 0).
Proof.
  split; [vm_compute; reflexivity |].
  apply (proj1 (X3_division_by_zero cd48k 0 silent_clock Undefined
                  (snd (worker cd48k 0 silent_clock))
                  ltac:(vm_compute; reflexivity))).
  reflexivity.
Defined.

(** The run whose third pacing wait times out. *)
Lemma X4_return_witness :
  let tr := snd (worker cd48k 0 timed_out) in
  (exists before, tr = before ++ [Called Active (RBool false)]) \/
  (exists before d mid hr,
      tr = before ++ Called (WaitForSingleObject 2000) (RDword d)
             :: mid ++ [Called Start (RHr hr); Did (StoreBufferPosition 0)] /\
      u32 d <> WAIT_OBJECT_0).
Proof.
  apply (X4_return cd48k 0 timed_out (Ret tt)
           (snd (worker cd48k 0 timed_out)));
    vm_compute; reflexivity.
Defined.

(** [Stop] failing in the recovery from a starved period: line 339. *)
Lemma X5_exception_line_witness :
  fst (worker cd48k 0 stop_fails) = Throw 0x80004005 339 /\
  339 <> 297 /\
  exists before c ans,
    snd (worker cd48k 0 stop_fails) = before ++ [Called c ans] /\
    In 339 (check_lines c).
Proof.
  split; [vm_compute; reflexivity |].
  apply (X5_exception_line cd48k 0 stop_fails (Throw 0x80004005 339)
           (snd (worker cd48k 0 stop_fails)) 0x80004005 339);
    vm_compute; reflexivity.
Defined.

(** The failure of [GetPosition] goes unnoticed (the run ends later, with
    the exception of [GetBuffer]), that of [Stop] ends the run. *)
Lemma X6_error_policy_witness :
  (forall hr' line,
      fst (worker cd48k 0 stale_position) = Throw hr' line ->
      skipn 29 (snd (worker cd48k 0 stale_position)) <> []) /\
  ((Stop = Initialize /\
    to_int32 0x80004005 = AUDCLNT_E_BUFFER_SIZE_NOT_ALIGNED /\
    existsb is_initialize (firstn 22 (snd (worker cd48k 0 stop_fails)))
    = false)
   \/ (skipn 23 (snd (worker cd48k 0 stop_fails)) = [] /\
       exists line, fst (worker cd48k 0 stop_fails) = Throw 0x80004005 line)).
Proof.
  split.
  - apply (X6_error_policy cd48k 0 stale_position
             (fst (worker cd48k 0 stale_position))
             (snd (worker cd48k 0 stale_position))
             (firstn 28 (snd (worker cd48k 0 stale_position)))
             GetPosition (RHrVal 0x88890004 100000) 0x88890004
             (skipn 29 (snd (worker cd48k 0 stale_position))));
      first [discriminate | vm_compute; reflexivity].
  - apply (X6_error_policy cd48k 0 stop_fails
             (fst (worker cd48k 0 stop_fails))
             (snd (worker cd48k 0 stop_fails))
             (firstn 22 (snd (worker cd48k 0 stop_fails)))
             Stop (RHr 0x80004005) 0x80004005
             (skipn 23 (snd (worker cd48k 0 stop_fails))));
      first [discriminate | vm_compute; reflexivity].
Defined.

(** The third entry of the list of devices: item 2 of the enumeration. *)
Lemma X7_device_choice_witness :
  let tr := snd (worker cd48k 3 chosen_device) in
  existsb is_default_endpoint tr = false /\
  2 = u32 (3 - 1) /\
  exists h1 h2,
    firstn 2 tr = [ Called CoCreateInstance (RHr h1);
                    Called EnumAudioEndpoints (RHr h2) ] /\
    FAILED h1 = false /\ FAILED h2 = false.
Proof.
  pose (tr := snd (worker cd48k 3 chosen_device)).
  assert (Hw : worker cd48k 3 chosen_device = (Ret tt, tr))
    by (vm_compute; reflexivity).
  destruct (X7_device_choice _ _ _ _ _ Hw) as (_ & H1 & H2).
  split; [apply H1; discriminate |].
  apply (H2 (firstn 2 tr) 2 (RHr S_OK) (skipn 3 tr)).
  vm_compute. reflexivity.
Defined.

(** The second request of the run of two periods: one period of 48000
    frames has been committed. *)
Lemma X8_position_counts_periods_witness :
  let tr := snd (worker cd48k 0 two_periods) in
  48000 = buffer_frames (firstn 29 tr) /\
  stored_position (firstn 29 tr)
  = u64 (committed_periods (firstn 29 tr) * buffer_frames (firstn 29 tr)) /\
  committed_periods (firstn 29 tr) = 1.
Proof.
  pose (tr := snd (worker cd48k 0 two_periods)).
  destruct (X8_position_counts_periods cd48k 0 two_periods (Ret tt) tr
              (firstn 29 tr) 500000 48000 true (skipn 30 tr)
              ltac:(vm_compute; reflexivity) ltac:(vm_compute; reflexivity))
    as [H1 H2].
  split; [exact H1 |]. split; [exact H2 | vm_compute; reflexivity].
Defined.

Lemma X9_paced_request_witness :
  let tr := snd (worker cd48k 0 two_periods) in
  exists before' d hr ticks,
    firstn 29 tr
    = before' ++ [ Called Active (RBool true);
                   Called (WaitForSingleObject 2000) (RDword d);
                   Called Active (RBool true);
                   Called GetPosition (RHrVal hr ticks) ] /\
    u32 d = WAIT_OBJECT_0.
Proof.
  apply (X9_paced_request cd48k 0 two_periods (Ret tt)
           (snd (worker cd48k 0 two_periods))
           (firstn 29 (snd (worker cd48k 0 two_periods))) 500000 48000 true
           (skipn 30 (snd (worker cd48k 0 two_periods))));
    vm_compute; reflexivity.
Defined.

(** One second of frames written at 48 kHz against a clock at 10 MHz
    that stands three ticks past half a second: the exact drift is
    499999.7 microseconds, the worker passes 500000. *)
Lemma X10_drift_accuracy_witness :
  (500000 - 1) * (48000 * 10000000)
  < 48000 * 1000000 * 10000000 - 5000003 * 1000000 * 48000
  < (500000 + 1) * (48000 * 10000000).
Proof.
  apply (X10_drift_accuracy 48000 48000 5000003 10000000 500000);
    try lia; vm_compute; try reflexivity.
  split; [discriminate | reflexivity].
Defined.

(** The run whose first [Initialize] finds the buffer unaligned. *)
Lemma X11_initialize_again_witness :
  let tr := snd (worker cd48k 0 unaligned_buffer) in
  to_int32 0x88890019 = AUDCLNT_E_BUFFER_SIZE_NOT_ALIGNED /\
  (exists hs size ha,
      firstn 2 (skipn 6 tr)
      = [ Called GetBufferSize (RHrVal hs size); Called Activate (RHr ha) ] /\
      FAILED hs = false /\ FAILED ha = false) /\
  existsb is_initialize (firstn 5 tr) = false /\
  existsb is_initialize (skipn 9 tr) = false.
Proof.
  apply (X11_initialize_again cd48k 0 unaligned_buffer (Ret tt)
           (snd (worker cd48k 0 unaligned_buffer))
           (firstn 5 (snd (worker cd48k 0 unaligned_buffer))) 0x88890019
           (firstn 2 (skipn 6 (snd (worker cd48k 0 unaligned_buffer)))) S_OK
           (skipn 9 (snd (worker cd48k 0 unaligned_buffer))));
    vm_compute; reflexivity.
Defined.

(** * The list of devices *)

Section Listing.

Import PcmList.
Local Open Scope pcm_scope.

Variable to_bytes : wstring -> option string.

(** ** Every call of [pcm_list] is a path of its machine *)

Lemma device_eqb_refl d : device_eqb d d = true.
Proof. destruct d; cbn; [reflexivity | apply Z.eqb_refl]. Qed.

Lemma device_eqb_eq a b : device_eqb a b = true -> a = b.
Proof.
  destruct a, b; cbn; intros H; try discriminate; [reflexivity |].
  apply Z.eqb_eq in H. now subst.
Qed.

(** Follows straight-line code: takes the next answer, or decides the
    next test. *)
Ltac walk_list :=
  repeat match goal with
    | H : (?a =? ?a) = false |- _ => rewrite Z.eqb_refl in H; discriminate H
    | |- context [match ?inp with [] => _ | _ :: _ => _ end] =>
        is_var inp; destruct inp as [| [? | ? ? | ? ?] inp]; cbn
    | |- context [if FAILED ?hr then _ else _] =>
        destruct (FAILED hr) eqn:?; cbn
    | |- context [if ?a =? ?b then _ else _] =>
        destruct (a =? b) eqn:?; cbn
    | |- context [match ?p with Some _ => _ | None => _ end] =>
        destruct p eqn:?; cbn
    end.

Ltac settle_list H :=
  repeat (progress
            (cbn; unfold checked, converted;
             rewrite ?H, ?device_eqb_refl, ?Z.eqb_refl;
             repeat match goal with
               | F : FAILED _ = _ |- _ => rewrite F
               | F : (_ =? _) = _ |- _ => rewrite F
               | F : to_bytes _ = _ |- _ => rewrite F
               end)).

Lemma convertToDevice_refines i d inp lg m :
  track to_bytes lg = Some m -> pc m = AtGetId d ->
  exists r inp' lg' m',
    convertToDevice to_bytes i d (World inp lg) = (r, World inp' lg') /\
    (List.length inp' <= List.length inp)%nat /\
    track to_bytes lg' = Some m' /\
    ends r m'
      (fun dev =>
         exists n ds,
           dev = {| idx := i; name := n; description := ds |} /\
           step to_bytes (goto (AtFree d n ds) m) (Freed d) = Some m').
Proof.
  intros Htr Hpc. destruct m as [p0 c l]. cbn in Hpc. subst p0.
  destruct d as [| j].
  all: unfold convertToDevice, bind, call_string, call_hr, CHECK_HR, convert,
    freed, raise, undefined, ret; cbn.
  all: walk_list.
  all: eexists _, _, _, _; split; [reflexivity |]; split; [cbn; lia |].
  all: split; [settle_list Htr; reflexivity |].
  all: settle_list Htr; auto.
  all: eexists _, _; split; [reflexivity |]; settle_list Htr; reflexivity.
Qed.

Lemma enumerate_refines :
  forall todo i acc inp lg m,
    track to_bytes lg = Some m ->
    pc m = next_item i (deviceCount m) -> deviceList m = acc ->
    todo = Z.to_nat (deviceCount m - i) ->
    0 <= i <= deviceCount m -> deviceCount m < 2 ^ 32 ->
    exists r inp' lg' m',
      enumerate to_bytes todo i acc (World inp lg) = (r, World inp' lg') /\
      track to_bytes lg' = Some m' /\
      ends r m' (fun devs => pc m' = Returned /\ deviceList m' = devs).
Proof.
  induction todo as [| todo IH]; intros i acc inp lg m Htr Hpc Hl Ht Hi Hc.
  - assert (i = deviceCount m) by lia. subst i.
    unfold next_item in Hpc. rewrite Z.ltb_irrefl in Hpc.
    exists (Value acc), inp, lg, m. cbn. unfold ret. repeat split; auto.
  - assert (Hlt : i < deviceCount m) by lia.
    unfold next_item in Hpc. rewrite (proj2 (Z.ltb_lt _ _) Hlt) in Hpc.
    assert (Hu : u32 (i + 1) = i + 1)
      by (unfold u32; apply Z.mod_small; lia).
    cbn [enumerate]. unfold bind at 1. unfold call_hr at 1. cbn [input log].
    destruct m as [p0 c l]. cbn in Hpc, Hl, Hlt, Hc, Hi. subst p0 l.
    destruct inp as [| [hr | ? ? | ? ?] inp];
      try solve [eexists NoAnswer, _, _, _; split; [reflexivity |];
                 split; [eassumption | reflexivity]].
    unfold bind at 1. unfold CHECK_HR at 1.
    destruct (FAILED hr) eqn:F.
    + eexists (Raise _), _, _, _. split; [reflexivity |].
      split; [cbn; rewrite Htr; cbn; rewrite Z.eqb_refl; reflexivity |].
      cbn. unfold checked. rewrite F. reflexivity.
    + unfold ret at 1. unfold bind at 1.
      edestruct (convertToDevice_refines (to_int32 (u32 (i + 1)))
                   (Enumerated i) inp (Called (Item i) (RHr hr) :: lg))
        as (r & inp' & lg' & m' & E & _ & Ht' & He).
      { cbn. rewrite Htr. cbn. rewrite Z.eqb_refl. reflexivity. }
      { cbn. unfold checked. rewrite F. reflexivity. }
      rewrite E.
      destruct r as [dev | x | |]; cbn in He;
        try solve [eexists _, _, _, _; split; [reflexivity |];
                   split; [eassumption | assumption]].
      destruct He as (n & ds & -> & Hs).
      cbn in Hs. rewrite Z.eqb_refl in Hs. inversion Hs; subst m'; clear Hs.
      rewrite Hu.
      edestruct (IH (i + 1) (acc ++ [ {| idx := to_int32 (i + 1); name := n;
                                         description := ds |} ]) inp' lg')
        as (r2 & inp2 & lg2 & m2 & E2 & Ht2 & He2);
        [ rewrite Hu in Ht'; exact Ht' | reflexivity | reflexivity
        | cbn [deviceCount] in *; lia | cbn [deviceCount] in *; lia
        | cbn [deviceCount] in *; lia | ].
      eexists _, _, _, _. split; [exact E2 |]. split; [exact Ht2 | exact He2].
Qed.

Lemma list_exec_app a b m :
  exec to_bytes m (a ++ b) =
  match exec to_bytes m a with
  | Some m' => exec to_bytes m' b
  | None => None
  end.
Proof.
  revert m. induction a as [| e a IH]; intros m; cbn; [reflexivity |].
  destruct (step to_bytes m e); [apply IH | reflexivity].
Qed.

Lemma list_track_exec lg :
  track to_bytes lg = exec to_bytes initial (rev lg).
Proof.
  induction lg as [| e lg IH]; cbn; [reflexivity |].
  rewrite list_exec_app, <- IH.
  destruct (track to_bytes lg) as [m |]; cbn; [| reflexivity].
  destruct (step to_bytes m e); reflexivity.
Qed.

Lemma u32_bound z : 0 <= u32 z < 2 ^ 32.
Proof. unfold u32. apply Z.mod_pos_bound. lia. Qed.

#[local] Opaque FAILED to_int32 CO_E_ALREADYINITIALIZED u32.

(** Every call of [pcm_list] is a path of the machine, and ends the
    way the last phase says. *)
Lemma listing_refines script r tr :
  listing to_bytes script = (r, tr) ->
  exists m, exec to_bytes initial tr = Some m /\ ends_as r m.
Proof.
  unfold listing, ends_as. intros H.
  destruct (pcm_list to_bytes (World script [])) as [r0 w] eqn:E.
  inversion H; subst r0 tr; clear H.
  rewrite <- list_track_exec.
  pose proof (eq_refl : track to_bytes [] = Some initial) as T0.
  revert E. unfold pcm_list, bind, call_hr, call_count, CHECK_HR, raise, ret.
  cbn [input log].
  walk_list.
  all: try solve [intros E; inversion E; subst; eexists;
                  split; [settle_list T0; reflexivity
                         | settle_list T0; reflexivity]].
  all: match goal with
       | |- context [convertToDevice to_bytes 0 DefaultEndpoint
                       (World ?inp ?lg)] =>
           edestruct (convertToDevice_refines 0 DefaultEndpoint inp lg)
             as (r1 & inp1 & lg1 & m1 & E1 & _ & Ht1 & He1);
           [ settle_list T0; reflexivity | reflexivity | ]
       end.
  all: rewrite E1.
  all: destruct r1 as [dev | x | |]; cbn in He1;
    try solve [intros E; inversion E; subst; eexists; split;
               [eassumption | assumption]].
  all: destruct He1 as (nm & ds & -> & Hs); cbn in Hs;
    inversion Hs; subst m1; clear Hs.
  all: match goal with
       | N : (u32 ?n =? 0) = false |- _ =>
           pose proof (u32_bound n) as Hb; apply Z.eqb_neq in N;
           edestruct (enumerate_refines (Z.to_nat (u32 n)) 0
                        [ {| idx := 0; name := "default";
                             description := ds |} ]
                        inp1 lg1)
             as (r2 & inp2 & lg2 & m2 & E2 & Ht2 & He2);
           [ exact Ht1 | reflexivity | reflexivity
           | cbn [deviceCount]; f_equal; lia | cbn [deviceCount]; lia
           | cbn [deviceCount]; lia | ]
       end.
  all: cbn [idx description]; intros E; rewrite E2 in E; inversion E; subst.
  all: eexists; split; [exact Ht2 | exact He2].
Qed.

#[local] Transparent FAILED to_int32 CO_E_ALREADYINITIALIZED u32.

(** ** Paths of the machine of [pcm_list] *)

(** The cases of [step m e = Some m']. *)
Ltac list_step_inv H :=
  unfold step in H; cbn [pc goto] in H;
  match type of H with
  | context [pc ?m] => destruct (pc m) eqn:?
  | _ => idtac
  end;
  try discriminate H;
  match type of H with
  | context [match ?e with Called _ _ => _ | Freed _ => _ end] =>
      let c := fresh "c" in
      let ans := fresh "ans" in
      let d' := fresh "d'" in
      destruct e as [c ans | d'];
      [ destruct c; try discriminate H; destruct ans; try discriminate H
      | try discriminate H ]
  | _ => idtac
  end;
  repeat match type of H with
    | (if ?c then _ else _) = Some _ => destruct c eqn:?; try discriminate H
    | match ?d with DefaultEndpoint => _ | Enumerated _ => _ end = Some _ =>
        destruct d
    end;
  inversion H; subst; clear H;
  repeat match goal with
    | E : device_eqb _ _ = true |- _ => apply device_eqb_eq in E; subst
    | E : (_ =? _) = true |- _ => apply Z.eqb_eq in E; subst
    end.

Lemma list_exec_snoc m tr e :
  exec to_bytes m (tr ++ [e]) =
  match exec to_bytes m tr with
  | Some m' => step to_bytes m' e
  | None => None
  end.
Proof.
  rewrite list_exec_app.
  destruct (exec to_bytes m tr) as [m' |]; cbn; [| reflexivity].
  destruct (step to_bytes m' e); reflexivity.
Qed.

Lemma list_exec_split m a e b m' :
  exec to_bytes m (a ++ e :: b) = Some m' ->
  exists m1 m2,
    exec to_bytes m a = Some m1 /\ step to_bytes m1 e = Some m2 /\
    exec to_bytes m2 b = Some m'.
Proof.
  rewrite list_exec_app.
  destruct (exec to_bytes m a) as [m1 |]; [| discriminate].
  cbn. destruct (step to_bytes m1 e) as [m2 |] eqn:E; [| discriminate].
  intros H. exists m1, m2. auto.
Qed.

Lemma list_exec_back tr m :
  exec to_bytes initial tr = Some m -> pc m <> AtCoInitializeEx ->
  exists tr0 e m0,
    tr = tr0 ++ [e] /\ exec to_bytes initial tr0 = Some m0 /\
    step to_bytes m0 e = Some m.
Proof.
  intros H Hp. destruct tr as [| e0 tr0] using rev_ind.
  - inversion H; subst. now destruct Hp.
  - clear IHtr0. rewrite list_exec_snoc in H.
    destruct (exec to_bytes initial tr0) as [m0 |] eqn:E; [| discriminate].
    exists tr0, e0, m0. repeat split; auto.
Qed.

(** Splits the tests a step has decided. *)
Ltac decided :=
  unfold checked, converted, next_item;
  repeat match goal with
    | |- context [if ?c then _ else _] => destruct c eqn:?
    | |- context [match ?p with Some _ => _ | None => _ end] =>
        destruct p eqn:?
    end.

Lemma read_from_more tr e d n ds :
  read_from to_bytes tr d n ds -> read_from to_bytes (tr ++ [e]) d n ds.
Proof.
  intros (hr1 & w1 & hr2 & w2 & I1 & T1 & I2 & T2).
  exists hr1, w1, hr2, w2. repeat split; auto; apply in_or_app; auto.
Qed.

(** The count the machine holds is the one the trace tells. *)
Lemma count_path tr :
  forall m,
    exec to_bytes initial tr = Some m ->
    0 <= deviceCount m < 2 ^ 32 /\
    (counted (pc m) = true ->
     deviceCount m = counted_devices tr /\ deviceCount m <> 0).
Proof.
  induction tr as [| e tr IH] using rev_ind; intros m H.
  - inversion H; subst. cbn. split; [lia | discriminate].
  - rewrite list_exec_snoc in H.
    destruct (exec to_bytes initial tr) as [m0 |]; [| discriminate].
    destruct (IH m0 eq_refl) as (R0 & C0).
    unfold counted_devices in *. rewrite fold_left_app. cbn [fold_left].
    list_step_inv H; cbn [pc deviceCount goto];
      (split; [try exact R0; apply u32_bound |]);
      decided; cbn; intros Hq; try discriminate Hq;
      try (apply C0; reflexivity).
    all: split; [reflexivity | apply Z.eqb_neq; assumption].
Qed.

(** What the machine holds of a device has been read from it. *)
Lemma ids_path tr :
  forall m,
    exec to_bytes initial tr = Some m ->
    (forall d p,
        pc m = AtOpenPropertyStore d p \/ pc m = AtGetValue d p ->
        exists hr, In (Called (GetId d) (RString hr p)) tr) /\
    (forall d n ds, pc m = AtFree d n ds -> read_from to_bytes tr d n ds).
Proof.
  induction tr as [| e tr IH] using rev_ind; intros m H.
  - inversion H; subst. cbn. split.
    + intros d p [Hq | Hq]; discriminate Hq.
    + intros d n ds Hq. discriminate Hq.
  - rewrite list_exec_snoc in H.
    destruct (exec to_bytes initial tr) as [m0 |]; [| discriminate].
    destruct (IH m0 eq_refl) as (I1 & I2).
    list_step_inv H; cbn [pc goto]; split.
    all: try (intros d0 p0 [Hq | Hq]); try (intros d0 n0 ds0 Hq).
    all: revert Hq; decided; intros Hq; try discriminate Hq.
    all: inversion Hq; subst; clear Hq.
    + eexists. apply in_or_app. right. left. reflexivity.
    + destruct (I1 d0 p0 (or_introl eq_refl)) as (hr0 & Hin).
      exists hr0. apply in_or_app. auto.
    + destruct (I1 d0 (Some w) (or_intror eq_refl)) as (hr0 & Hin).
      exists hr0, w, hr, w0. repeat split; auto; apply in_or_app; auto.
      right. left. reflexivity.
Qed.

(** How far the list has grown. *)
Lemma length_path tr :
  forall m,
    exec to_bytes initial tr = Some m ->
    (before_default (pc m) = true -> deviceList m = []) /\
    (forall i,
        at_turn (pc m) = Some i ->
        Z.of_nat (List.length (deviceList m)) = i + 1 /\
        0 <= i < deviceCount m) /\
    (pc m = Returned ->
     Z.of_nat (List.length (deviceList m)) = deviceCount m + 1).
Proof.
  induction tr as [| e tr IH] using rev_ind; intros m H.
  - inversion H; subst. cbn. repeat split; intros; try reflexivity;
      discriminate.
  - rewrite list_exec_snoc in H.
    destruct (exec to_bytes initial tr) as [m0 |] eqn:H0; [| discriminate].
    destruct (IH m0 eq_refl) as (L0 & L1 & L2).
    destruct (count_path _ _ H0) as (R0 & C0).
    list_step_inv H; cbn [pc goto deviceCount deviceList] in *.
    all: try (specialize (C0 eq_refl); destruct C0 as [_ C0]).
    all: try (specialize (L0 eq_refl)).
    all: try (destruct (L1 _ eq_refl) as [L1a L1b]).
    all: try (assert (Hu : u32 (i + 1) = i + 1)
                by (unfold u32; apply Z.mod_small; lia);
              rewrite Hu in *).
    all: split; [| split];
      [ decided; cbn; intros Hq; try discriminate Hq; auto
      | intros j; decided; cbn; intros Hq; try discriminate Hq;
        inversion Hq; subst; clear Hq;
        rewrite ?length_app; cbn [List.length app];
        repeat match goal with
          | E : (_ <? _) = true |- _ => apply Z.ltb_lt in E
          | E : (_ <? _) = false |- _ => apply Z.ltb_ge in E
          end; try lia; auto
      | decided; cbn; intros Hq; try discriminate Hq;
        rewrite ?length_app; cbn [List.length app];
        repeat match goal with
          | E : (_ <? _) = true |- _ => apply Z.ltb_lt in E
          | E : (_ <? _) = false |- _ => apply Z.ltb_ge in E
          end; try lia; auto ].
Qed.

(** What the list holds. *)
Lemma entries_path tr :
  forall m,
    exec to_bytes initial tr = Some m ->
    forall k d,
      nth_error (deviceList m) k = Some d ->
      idx d = to_int32 (Z.of_nat k) /\
      (k = O -> name d = "default"%string) /\
      exists n,
        read_from to_bytes tr (device_of_entry k) n (description d) /\
        (k <> O -> n = name d).
Proof.
  induction tr as [| e tr IH] using rev_ind; intros m H.
  - inversion H; subst. intros [| k] d Hn; discriminate Hn.
  - rewrite list_exec_snoc in H.
    destruct (exec to_bytes initial tr) as [m0 |] eqn:H0; [| discriminate].
    specialize (IH m0 eq_refl).
    assert (Hold : forall k d,
               nth_error (deviceList m0) k = Some d ->
               idx d = to_int32 (Z.of_nat k) /\
               (k = O -> name d = "default"%string) /\
               exists n,
                 read_from to_bytes (tr ++ [e]) (device_of_entry k) n
                   (description d) /\
                 (k <> O -> n = name d)).
    { intros k d Hn. destruct (IH k d Hn) as (A & B & n & C & D).
      repeat split; auto. exists n. split; [| exact D].
      apply read_from_more. exact C. }
    destruct (ids_path _ _ H0) as (_ & I2).
    destruct (length_path _ _ H0) as (_ & L1 & _).
    destruct (count_path _ _ H0) as (R0 & _).
    list_step_inv H; cbn [pc goto deviceCount deviceList] in *;
      try exact Hold.
    + (* the default device *)
      intros [| k] d Hn; [| destruct k; discriminate Hn].
      inversion Hn; subst; clear Hn. cbn.
      repeat split; auto.
      exists name0. split; [| congruence].
      apply read_from_more. apply I2. reflexivity.
    + (* an item of the enumeration *)
      destruct (L1 _ eq_refl) as [La Lb].
      assert (Hu : u32 (i + 1) = i + 1)
        by (unfold u32; apply Z.mod_small; lia).
      intros k d Hn.
      destruct (Nat.lt_ge_cases k (List.length (deviceList m0))) as [Hk | Hk].
      * rewrite nth_error_app1 in Hn by assumption. apply Hold. exact Hn.
      * rewrite nth_error_app2 in Hn by assumption.
        destruct (k - List.length (deviceList m0))%nat as [| k'] eqn:Ek;
          [| destruct k'; discriminate Hn].
        inversion Hn; subst; clear Hn. cbn [idx name description].
        assert (Hki : Z.of_nat k = i + 1) by lia.
        rewrite Hu, Hki.
        destruct k as [| j]; [lia |].
        repeat split; [discriminate |].
        exists name0. split; [| reflexivity].
        cbn [device_of_entry].
        replace (Z.of_nat j) with i by lia.
        apply read_from_more. apply I2. reflexivity.
Qed.

(** ** The list [pcm_list] returns *)

(** X12.  The shape of the list.  It holds one entry more than the count
    [GetCount] has stored, which is not zero; the first entry is named
    "default"; and the entry at position [k] carries [k] as its index
    (as an [int]). *)
Theorem X12_list_shape script devs tr :
  listing to_bytes script = (Value devs, tr) ->
  counted_devices tr <> 0 /\
  List.length devs = S (Z.to_nat (counted_devices tr)) /\
  (exists d rest, devs = d :: rest /\ name d = "default"%string) /\
  (forall k d,
      nth_error devs k = Some d ->
      idx d = to_int32 (Z.of_nat k) /\
      (Z.of_nat k < 2 ^ 31 -> idx d = Z.of_nat k)).
Proof.
  intros Hl. destruct (listing_refines _ _ _ Hl) as (m & Hm & Hp & <-).
  destruct (count_path _ _ Hm) as (R0 & C0).
  destruct (length_path _ _ Hm) as (_ & _ & L2).
  rewrite Hp in C0. destruct (C0 eq_refl) as [Ec Nz]. specialize (L2 Hp).
  rewrite <- Ec.
  split; [exact Nz |]. split; [lia |]. split.
  - destruct (deviceList m) as [| d rest] eqn:El; [cbn in L2; lia |].
    exists d, rest. split; [reflexivity |].
    apply (entries_path _ _ Hm O d); [rewrite El |]; reflexivity.
  - intros k d Hn. destruct (entries_path _ _ Hm k d Hn) as (A & _).
    split; [exact A |]. intros Hk. rewrite A.
    unfold to_int32, u32.
    rewrite Z.mod_small by lia.
    destruct (Z.ltb_spec (Z.of_nat k) (2 ^ 31)); lia.
Qed.

(** X13.  Where the entries come from.  The entry at position [k + 1]
    holds the id and the friendly name that the device
    [devices->Item(k)] has answered with, converted to bytes; the first
    entry holds the friendly name of the default endpoint. *)
Theorem X13_entries_read_from_devices script devs tr :
  listing to_bytes script = (Value devs, tr) ->
  (forall d,
      nth_error devs O = Some d ->
      exists n, read_from to_bytes tr DefaultEndpoint n (description d)) /\
  (forall k d,
      nth_error devs (S k) = Some d ->
      read_from to_bytes tr (Enumerated (Z.of_nat k)) (name d)
        (description d)).
Proof.
  intros Hl. destruct (listing_refines _ _ _ Hl) as (m & Hm & Hp & <-).
  split.
  - intros d Hn. destruct (entries_path _ _ Hm O d Hn) as (_ & _ & n & R & _).
    exists n. exact R.
  - intros k d Hn.
    destruct (entries_path _ _ Hm (S k) d Hn) as (_ & _ & n & R & E).
    rewrite <- (E ltac:(discriminate)). exact R.
Qed.

(** ** An enumeration without devices *)

Lemma list_at_start tr m :
  exec to_bytes initial tr = Some m -> pc m = AtCoInitializeEx -> tr = [].
Proof.
  intros H Hp. destruct tr as [| e0 tr0] using rev_ind; [reflexivity |].
  clear IHtr0. rewrite list_exec_snoc in H.
  destruct (exec to_bytes initial tr0) as [m0 |]; [| discriminate].
  list_step_inv H; revert Hp; cbn; decided; discriminate.
Qed.

(** One step back along a path that has reached a known phase. *)
Ltac list_back :=
  match goal with
  | H : exec _ initial ?tr = Some ?m, P : pc ?m = _ |- _ =>
      let S := fresh "S" in
      apply list_exec_back in H; [| rewrite P; discriminate];
      destruct H as (? & ? & ? & ? & H & S); subst tr;
      list_step_inv S; revert P; cbn; decided; intros P;
      try discriminate P; clear P
  end.

Lemma ends_as_raised r m x : ends_as r m -> pc m = Raised x -> r = Raise x.
Proof.
  unfold ends_as, ends. destruct r; intros H P.
  - destruct H. congruence.
  - congruence.
  - congruence.
  - rewrite P in H. discriminate H.
Qed.

(** X14.  [pcm_list] raises "no valid devices" exactly when the count
    [GetCount] has stored is zero, whatever [HRESULT] came with it; it
    has then made four calls and has not asked for the default
    endpoint. *)
Theorem X14_no_valid_devices script r tr :
  listing to_bytes script = (r, tr) ->
  r = Raise NoValidDevices <->
  exists h0 h1 h2 hr n,
    tr = [ Called CoInitializeEx (RHr h0);
           Called CoCreateInstance (RHr h1);
           Called EnumAudioEndpoints (RHr h2);
           Called GetCount (RCount hr n) ] /\
    u32 n = 0.
Proof.
  intros Hl. destruct (listing_refines _ _ _ Hl) as (m & Hm & He). split.
  - intros ->. cbn in He.
    apply list_exec_back in Hm; [| rewrite He; discriminate].
    destruct Hm as (tr0 & e & m0 & -> & H0 & S).
    list_step_inv S; revert He; cbn; decided; intros He;
      try discriminate He.
    list_back. list_back. list_back.
    all: match goal with
         | P : pc ?m = AtCoInitializeEx, H : exec _ initial _ = Some ?m |- _ =>
             pose proof (list_at_start _ _ H P) as ->
         end.
    all: eexists _, _, _, _, _; split; [reflexivity | assumption].
  - intros (h0 & h1 & h2 & hr & n & -> & Hn).
    change [ Called CoInitializeEx (RHr h0); Called CoCreateInstance (RHr h1);
             Called EnumAudioEndpoints (RHr h2);
             Called GetCount (RCount hr n) ]
      with ([ Called CoInitializeEx (RHr h0);
              Called CoCreateInstance (RHr h1);
              Called EnumAudioEndpoints (RHr h2) ]
            ++ [Called GetCount (RCount hr n)]) in Hm.
    rewrite list_exec_snoc in Hm.
    destruct (exec to_bytes initial _) as [m0 |]; [| discriminate].
    list_step_inv Hm. rewrite Hn in He. cbn in He.
    eapply ends_as_raised; [exact He | reflexivity].
Qed.

(** ** Calls that fail *)

Lemma list_exec_ended m tr m' :
  exec to_bytes m tr = Some m' ->
  (exists x, pc m = Raised x) -> tr = [].
Proof.
  destruct tr as [| e tr]; [reflexivity |]. cbn.
  destruct (step to_bytes m e) eqn:S; [| discriminate].
  intros _ (x & Hx). list_step_inv S; discriminate.
Qed.

(** X15.  An [HRESULT] fault of [pcm_list] comes from the call made
    last, whose [HRESULT] it carries with the line of the [CHECK_HR]
    that follows the call; and a failed [HRESULT] from a call that is
    checked ends the run at once with that fault.
    [CO_E_ALREADYINITIALIZED] from [CoInitializeEx] is let pass; the
    results of [GetCount] and [OpenPropertyStore] are not looked at. *)
Theorem X15_list_faults script r tr :
  listing to_bytes script = (r, tr) ->
  (forall hr line,
      r = Raise (HresultFault hr line) ->
      FAILED hr = true /\
      exists before c ans,
        tr = before ++ [Called c ans] /\
        check_line c = Some line /\ hresult ans = hr /\
        (c = CoInitializeEx -> to_int32 hr <> CO_E_ALREADYINITIALIZED)) /\
  (forall before c ans after line,
      tr = before ++ Called c ans :: after ->
      check_line c = Some line ->
      FAILED (hresult ans) = true ->
      (c = CoInitializeEx ->
       to_int32 (hresult ans) <> CO_E_ALREADYINITIALIZED) ->
      after = [] /\ r = Raise (HresultFault (hresult ans) line)).
Proof.
  intros Hl. destruct (listing_refines _ _ _ Hl) as (m & Hm & He). split.
  - intros hr line ->. cbn in He.
    apply list_exec_back in Hm; [| rewrite He; discriminate].
    destruct Hm as (tr0 & e & m0 & -> & _ & S).
    list_step_inv S; revert He; cbn; decided; intros He;
      try discriminate He; inversion He; subst; clear He.
    all: split; [assumption |].
    all: eexists _, _, _; split; [reflexivity |].
    all: split; [reflexivity |]; split; [reflexivity |].
    all: try discriminate.
    intros _. apply Z.eqb_neq. assumption.
  - intros before c ans after line -> Hc Hf Hg.
    apply list_exec_split in Hm. destruct Hm as (m1 & m2 & _ & S & H2).
    assert (P2 : pc m2 = Raised (HresultFault (hresult ans) line)).
    { destruct c; try discriminate Hc; inversion Hc; subst; clear Hc;
        destruct ans; list_step_inv S; cbn [hresult] in *; cbn [pc goto];
        unfold checked; rewrite ?Hf; try reflexivity.
      destruct (Z.eqb_spec (to_int32 hr) CO_E_ALREADYINITIALIZED) as [E | _];
        [destruct (Hg eq_refl E) | reflexivity]. }
    pose proof (list_exec_ended _ _ _ H2 (ex_intro _ _ P2)) as ->.
    inversion H2; subst m. split; [reflexivity |].
    eapply ends_as_raised; eassumption.
Qed.

(** ** The ids obtained and freed *)

Lemma obtained_app a b : obtained (a ++ b) = obtained a ++ obtained b.
Proof.
  induction a as [| e a IH]; [reflexivity |].
  destruct e as [[] [] |]; cbn; rewrite ?IH; try reflexivity.
  destruct (FAILED hr); cbn; rewrite ?IH; reflexivity.
Qed.

Lemma released_app a b : released (a ++ b) = released a ++ released b.
Proof.
  induction a as [| e a IH]; [reflexivity |].
  destruct e as [[] [] |]; cbn; rewrite ?IH; reflexivity.
Qed.

Lemma owed_path tr :
  forall m,
    exec to_bytes initial tr = Some m ->
    List.length (released tr) = List.length (deviceList m) /\
    exists rest,
      obtained tr = released tr ++ rest /\
      List.length rest = owed (pc m) /\
      (forall d, holds_id (pc m) = Some d -> rest = [d]).
Proof.
  induction tr as [| e tr IH] using rev_ind; intros m H.
  - inversion H; subst. cbn. split; [reflexivity |]. exists [].
    repeat split; auto. discriminate.
  - rewrite list_exec_snoc in H.
    destruct (exec to_bytes initial tr) as [m0 |] eqn:H0; [| discriminate].
    destruct (IH m0 eq_refl) as (N0 & rest & E0 & O0 & D0). clear IH.
    destruct (length_path _ _ H0) as (L0 & _ & _).
    rewrite obtained_app, released_app, E0.
    list_step_inv H;
      cbn [pc goto deviceList obtained released owed holds_id] in *;
      rewrite ?length_app; cbn [List.length].
    all: try (specialize (D0 _ eq_refl); subst rest).
    all: try (destruct rest; [| discriminate O0]).
    all: try (pose proof (L0 eq_refl) as L0'; rewrite L0' in N0;
              try rewrite L0'; cbn [List.length] in N0 |- *).
    all: rewrite ?app_nil_r.
    all: split; [lia |].
    all: rewrite <- ?app_assoc; cbn [app].
    all: decided; cbn [owed holds_id obtained app]; rewrite ?app_nil_r.
    all: try (exists []; rewrite ?app_nil_r;
              repeat split; auto; discriminate).
    all: try (eexists [_]; repeat split; auto;
              [intros ? Hq; inversion Hq; reflexivity]).
    all: try (eexists [_]; repeat split; auto; discriminate).
Qed.

(** X16.  [CoTaskMemFree] is called for the ids in the order they were
    obtained, and at most one obtained id is not freed.  When the list
    is returned every id has been freed, one for each entry; when
    [convertToDevice] is left by the exception of line 91 or in a
    conversion, the id of the device at hand is not freed. *)
Theorem X16_ids_freed script r tr :
  listing to_bytes script = (r, tr) ->
  exists rest,
    obtained tr = released tr ++ rest /\
    (List.length rest <= 1)%nat /\
    (forall devs,
        r = Value devs ->
        rest = [] /\ List.length (released tr) = List.length devs) /\
    (r = Undefined \/ r = Raise RangeError \/
     (exists hr, r = Raise (HresultFault hr 91)) ->
     List.length rest = 1%nat).
Proof.
  intros Hl. destruct (listing_refines _ _ _ Hl) as (m & Hm & He).
  destruct (owed_path _ _ Hm) as (N & rest & E & O & _).
  exists rest. split; [exact E |]. split; [| split].
  - rewrite O. destruct (pc m); cbn; try lia.
    destruct x; cbn; try lia. destruct (line =? 91); lia.
  - intros devs ->. destruct He as [Hp <-]. rewrite Hp in O.
    split; [| exact N]. destruct rest; [reflexivity | discriminate O].
  - intros [-> | [-> | (hr & ->)]]; cbn in He; rewrite He in O; exact O.
Qed.

(** ** The order of the items *)

(** X19.  [devices->Item] is asked for the items 0, 1, 2, ... in order
    and never for an index at or beyond the count: item [i] is asked for
    when the default device and the [i] items before it have been
    converted and their ids freed. *)
Theorem X19_items_in_order script r tr before i ans after :
  listing to_bytes script = (r, tr) ->
  tr = before ++ Called (Item i) ans :: after ->
  0 <= i < counted_devices before /\
  Z.of_nat (List.length (released before)) = i + 1.
Proof.
  intros Hl ->. destruct (listing_refines _ _ _ Hl) as (m & Hm & _).
  apply list_exec_split in Hm. destruct Hm as (m1 & m2 & H1 & S & _).
  destruct (count_path _ _ H1) as (_ & C1).
  destruct (length_path _ _ H1) as (_ & L1 & _).
  destruct (owed_path _ _ H1) as (N1 & _).
  destruct ans; list_step_inv S.
  destruct (C1 eq_refl) as [<- _].
  destruct (L1 _ eq_refl) as [La Lb].
  rewrite N1. auto.
Qed.

End Listing.

(** ** From the list to the worker *)

(** X17.  The index of an entry of the list, given to the worker as
    [pcmDevice_.idx], makes it open the device the entry was read from:
    for the first entry the default endpoint, without enumerating; for
    the entry at position [j + 1] the item [j] of the enumeration, whose
    id and friendly name the entry holds. *)
Theorem X17_index_opens_listed_device to_bytes script devs tr k d fmt
  script' r' tr' :
  PcmList.listing to_bytes script = (PcmList.Value devs, tr) ->
  nth_error devs k = Some d ->
  Z.of_nat k < 2 ^ 31 ->
  worker fmt (PcmList.idx d) script' = (r', tr') ->
  match k with
  | O => existsb is_enumeration tr' = false
  | S j =>
      existsb is_default_endpoint tr' = false /\
      forall before i ans after,
        tr' = before ++ Called (Item i) ans :: after ->
        i = Z.of_nat j /\
        PcmList.read_from to_bytes tr (PcmList.Enumerated i)
          (PcmList.name d) (PcmList.description d)
  end.
Proof.
  intros Hl Hn Hk Hw.
  destruct (listing_refines _ _ _ _ Hl) as (m & Hm & Hp & <-).
  destruct (entries_path _ _ _ Hm k d Hn) as (A & _ & n & R & E).
  assert (Hi : PcmList.idx d = Z.of_nat k).
  { rewrite A. unfold to_int32, u32. rewrite Z.mod_small by lia.
    destruct (Z.ltb_spec (Z.of_nat k) (2 ^ 31)); lia. }
  rewrite Hi in Hw.
  destruct (worker_refines _ _ _ _ _ Hw) as (m' & Hm' & _).
  destruct (endpoint_path _ _ _ _ Hm') as (I0 & I1).
  destruct k as [| j].
  - apply I0. reflexivity.
  - split; [apply I1; lia |].
    intros before i ans after ->.
    apply exec_split in Hm'. destruct Hm' as (m1 & m2 & _ & S & _).
    destruct ans; step_inv S. eqb_facts.
    assert (Hj : i = Z.of_nat j).
    { subst i. unfold u32. rewrite Z.mod_small by lia. lia. }
    split; [exact Hj |].
    rewrite Hj. rewrite <- (E ltac:(discriminate)). exact R.
Qed.

(** ** The theorems on the list at work *)

(** The default device and two enumerated ones. *)
Lemma X12_list_shape_witness :
  let tr := snd (PcmList.listing PcmList.ascii_bytes PcmList.two_devices) in
  let devs :=
    [ {| PcmList.idx := 0; PcmList.name := "default";
         PcmList.description := "A" |};
      {| PcmList.idx := 1; PcmList.name := "a"; PcmList.description := "A" |};
      {| PcmList.idx := 2; PcmList.name := "b"; PcmList.description := "B" |}
    ] in
  PcmList.counted_devices tr <> 0 /\
  List.length devs = S (Z.to_nat (PcmList.counted_devices tr)) /\
  (exists d rest, devs = d :: rest /\ PcmList.name d = "default"%string) /\
  (forall k d,
      nth_error devs k = Some d ->
      PcmList.idx d = to_int32 (Z.of_nat k) /\
      (Z.of_nat k < 2 ^ 31 -> PcmList.idx d = Z.of_nat k)).
Proof.
  apply (X12_list_shape PcmList.ascii_bytes PcmList.two_devices).
  vm_compute. reflexivity.
Defined.

Lemma X13_entries_read_from_devices_witness :
  let tr := snd (PcmList.listing PcmList.ascii_bytes PcmList.two_devices) in
  PcmList.read_from PcmList.ascii_bytes tr (PcmList.Enumerated (Z.of_nat 1))
    "b" "B".
Proof.
  apply (proj2 (X13_entries_read_from_devices PcmList.ascii_bytes
                  PcmList.two_devices
                  (match fst (PcmList.listing PcmList.ascii_bytes
                                PcmList.two_devices) with
                   | PcmList.Value devs => devs
                   | _ => []
                   end)
                  (snd (PcmList.listing PcmList.ascii_bytes
                          PcmList.two_devices))
                  ltac:(vm_compute; reflexivity))
           1%nat
           {| PcmList.idx := 2; PcmList.name := "b";
              PcmList.description := "B" |}).
  vm_compute. reflexivity.
Defined.

(** An enumeration that counts no device, COM being initialised
    already. *)
Lemma X14_no_valid_devices_witness :
  fst (PcmList.listing PcmList.ascii_bytes PcmList.no_devices)
  = PcmList.Raise PcmList.NoValidDevices /\
  exists h0 h1 h2 hr n,
    snd (PcmList.listing PcmList.ascii_bytes PcmList.no_devices)
    = [ PcmList.Called PcmList.CoInitializeEx (PcmList.RHr h0);
        PcmList.Called PcmList.CoCreateInstance (PcmList.RHr h1);
        PcmList.Called PcmList.EnumAudioEndpoints (PcmList.RHr h2);
        PcmList.Called PcmList.GetCount (PcmList.RCount hr n) ] /\
    u32 n = 0.
Proof.
  split; [vm_compute; reflexivity |].
  apply (proj1 (X14_no_valid_devices PcmList.ascii_bytes PcmList.no_devices
                  (PcmList.Raise PcmList.NoValidDevices)
                  (snd (PcmList.listing PcmList.ascii_bytes
                          PcmList.no_devices))
                  ltac:(vm_compute; reflexivity))).
  reflexivity.
Defined.

(** The friendly name of an enumerated device cannot be read: the fault
    of line 91. *)
Lemma X15_list_faults_witness :
  FAILED 0x80004005 = true /\
  exists before c ans,
    snd (PcmList.listing PcmList.ascii_bytes PcmList.name_unreadable)
    = before ++ [PcmList.Called c ans] /\
    PcmList.check_line c = Some 91 /\ PcmList.hresult ans = 0x80004005 /\
    (c = PcmList.CoInitializeEx ->
     to_int32 0x80004005 <> PcmList.CO_E_ALREADYINITIALIZED).
Proof.
  apply (proj1 (X15_list_faults PcmList.ascii_bytes PcmList.name_unreadable
                  (PcmList.Raise (PcmList.HresultFault 0x80004005 91))
                  (snd (PcmList.listing PcmList.ascii_bytes
                          PcmList.name_unreadable))
                  ltac:(vm_compute; reflexivity))).
  reflexivity.
Defined.

(** In that run the id of the device is obtained and not freed. *)
Lemma X16_ids_freed_witness :
  let r := fst (PcmList.listing PcmList.ascii_bytes PcmList.name_unreadable) in
  let tr := snd (PcmList.listing PcmList.ascii_bytes PcmList.name_unreadable) in
  exists rest,
    PcmList.obtained tr = PcmList.released tr ++ rest /\
    (List.length rest <= 1)%nat /\
    (forall devs,
        r = PcmList.Value devs ->
        rest = [] /\ List.length (PcmList.released tr) = List.length devs) /\
    (r = PcmList.Undefined \/ r = PcmList.Raise PcmList.RangeError \/
     (exists hr, r = PcmList.Raise (PcmList.HresultFault hr 91)) ->
     List.length rest = 1%nat).
Proof.
  apply (X16_ids_freed PcmList.ascii_bytes PcmList.name_unreadable).
  vm_compute. reflexivity.
Defined.

(** The third entry of the list of two devices, given to the worker. *)
Lemma X17_index_opens_listed_device_witness :
  let tr := snd (PcmList.listing PcmList.ascii_bytes PcmList.two_devices) in
  let tr' := snd (worker cd48k 2 chosen_device) in
  existsb is_default_endpoint tr' = false /\
  forall before i ans after,
    tr' = before ++ Called (Item i) ans :: after ->
    i = Z.of_nat 1 /\
    PcmList.read_from PcmList.ascii_bytes tr (PcmList.Enumerated i) "b" "B".
Proof.
  apply (X17_index_opens_listed_device PcmList.ascii_bytes PcmList.two_devices
           (match fst (PcmList.listing PcmList.ascii_bytes
                         PcmList.two_devices) with
            | PcmList.Value devs => devs
            | _ => []
            end)
           (snd (PcmList.listing PcmList.ascii_bytes PcmList.two_devices))
           2%nat
           {| PcmList.idx := 2; PcmList.name := "b";
              PcmList.description := "B" |}
           cd48k chosen_device
           (fst (worker cd48k 2 chosen_device))
           (snd (worker cd48k 2 chosen_device)));
    vm_compute; reflexivity.
Defined.

(** The second item of the list of two devices is asked for after the
    default device and the first item. *)
Lemma X19_items_in_order_witness :
  let tr := snd (PcmList.listing PcmList.ascii_bytes PcmList.two_devices) in
  0 <= 1 < PcmList.counted_devices (firstn 14 tr) /\
  Z.of_nat (List.length (PcmList.released (firstn 14 tr))) = 1 + 1.
Proof.
  apply (X19_items_in_order PcmList.ascii_bytes PcmList.two_devices
           (fst (PcmList.listing PcmList.ascii_bytes PcmList.two_devices))
           (snd (PcmList.listing PcmList.ascii_bytes PcmList.two_devices))
           (firstn 14 (snd (PcmList.listing PcmList.ascii_bytes
                              PcmList.two_devices)))
           1 (PcmList.RHr S_OK)
           (skipn 15 (snd (PcmList.listing PcmList.ascii_bytes
                             PcmList.two_devices))));
    vm_compute; reflexivity.
Defined.

(** * The text of an [HRESULT] fault *)

Lemma append_cancel_l p s s' : (p ++ s = p ++ s')%string -> s = s'.
Proof.
  induction p as [| c p IH]; cbn; intros H; [exact H |].
  injection H as H. exact (IH H).
Qed.

Lemma append_cancel_r t :
  forall s s', (s ++ t = s' ++ t)%string -> s = s'.
Proof.
  assert (L : forall a b,
             String.length (a ++ b)
             = (String.length a + String.length b)%nat).
  { induction a as [| c a IH]; cbn; intros b; [reflexivity |].
    now rewrite IH. }
  induction s as [| c s IH]; intros [| c' s'] H; cbn in H.
  - reflexivity.
  - apply (f_equal String.length) in H. cbn in H. rewrite L in H. lia.
  - apply (f_equal String.length) in H. cbn in H. rewrite L in H. lia.
  - injection H as -> H. f_equal. exact (IH _ H).
Qed.

Lemma split_at_blank s :
  forall s' r r',
    blankless s = true -> blankless s' = true ->
    (s ++ String blank r = s' ++ String blank r')%string ->
    s = s' /\ r = r'.
Proof.
  induction s as [| c s IH]; intros [| c' s'] r r' B B' H; cbn in *.
  - injection H as H. auto.
  - injection H as <- _. cbn in B'. discriminate B'.
  - injection H as -> _. cbn in B. discriminate B.
  - injection H as -> H.
    apply andb_prop in B. apply andb_prop in B'.
    destruct (IH s' r r' (proj2 B) (proj2 B') H) as [-> ->]. auto.
Qed.

Lemma hex_blankless v : blankless (hex v) = true.
Proof.
  unfold hex. generalize (N.to_hex_uint (Z.to_N v)). intros d.
  assert (E : forall d, blankless (HexadecimalString.NilEmpty.string_of_uint d)
                        = true)
    by (induction d0; cbn; auto).
  destruct d; cbn; try reflexivity; apply E.
Qed.

Lemma hex_inj a b : 0 <= a -> 0 <= b -> hex a = hex b -> a = b.
Proof.
  intros Ha Hb H. unfold hex in H.
  assert (N : forall n, N.to_hex_uint n <> Hexadecimal.Nil).
  { intros [| p]; cbn; [discriminate |].
    apply HexadecimalPos.Unsigned.to_uint_nonnil. }
  apply (f_equal HexadecimalString.NilZero.uint_of_string) in H.
  rewrite !HexadecimalString.NilZero.usu in H by apply N.
  injection H as H. apply HexadecimalN.Unsigned.to_uint_inj in H. lia.
Qed.

Lemma dec_inj a b : dec a = dec b -> a = b.
Proof.
  intros H. unfold dec in H.
  assert (N : forall z, Z.to_int z <> Decimal.Pos Decimal.Nil /\
                        Z.to_int z <> Decimal.Neg Decimal.Nil).
  { intros [| p | p]; cbn; split; try discriminate; intros E;
      injection E as E; revert E; apply DecimalPos.Unsigned.to_uint_nonnil. }
  apply (f_equal DecimalString.NilZero.int_of_string) in H.
  rewrite !DecimalString.NilZero.isi in H by apply N.
  injection H as H. apply DecimalZ.to_int_inj in H. exact H.
Qed.

(** X18.  The text of an [HRESULT] fault tells the [HRESULT] and the
    line: two faults with the same text carry the same 32-bit [HRESULT]
    and the same line. *)
Theorem X18_fault_text_tells hr line hr' line' :
  fault_text hr line = fault_text hr' line' ->
  to_int32 hr = to_int32 hr' /\ line = line'.
Proof.
  unfold fault_text. intros H.
  apply append_cancel_l in H.
  change (" line " ++ ?x)%string with (String blank ("line " ++ x))%string in H.
  apply split_at_blank in H; try apply hex_blankless.
  destruct H as [Hh Hl].
  apply append_cancel_l, append_cancel_r, dec_inj in Hl.
  apply hex_inj in Hh; try (unfold u32; apply Z.mod_pos_bound; lia).
  split; [| exact Hl]. unfold to_int32. now rewrite Hh.
Qed.

(** [E_FAIL] at line 339, given as a bit pattern and as a signed
    number. *)
Lemma X18_fault_text_tells_witness :
  fault_text 0x80004005 339
  = ("HRESULT fault status: 80004005 line 339" ++ endl)%string /\
  to_int32 0x80004005 = to_int32 (-2147467259) /\ 339 = 339.
Proof.
  split; [vm_compute; reflexivity |].
  apply (X18_fault_text_tells 0x80004005 339 (-2147467259) 339).
  vm_compute. reflexivity.
Defined.
